(** * Lex appointment-booking bot: the Lambda handler and its DynamoDB tables

    A shallow embedding of [lambda_complete_2.py]: the Lex V2 event and
    response as records, the three DynamoDB tables as an explicit store,
    the handler as a computation in a state-and-exception monad.

    Modelling boundary.
    - A Python string is the sequence of its UTF-8 bytes, a Rocq string.
      [lower] maps the ASCII capitals and the two code points outside ASCII
      whose lower-case form has an ASCII letter in it; [upper], [strip] and
      [isdigit] act on the ASCII range.
    - An interpreted slot value is a string, and a slot is null or an object
      whose [value], where it has one, is an object, as Lex V2 delivers
      them. A key of the event that may be missing is an [option]; an
      [invocationSource] of null is any string that names no code hook. An
      event whose [sessionState] or whose intent is there and is no object
      is an [Invocation] of its own.
    - [get_available_times] reads one page of the scan, which is the whole
      table while the table holds no more than 1 MB ([one_page]).
    - Every call of a DynamoDB table is one atomic operation on the store
      and fails only for the reasons the request itself gives (a failed
      condition, an invalid key); transport failures are left out.
    - Logging is left out. *)

From Stdlib Require Import ZArith Ascii String List Lia Bool.
From stdpp Require Import base option list strings gmap pretty.

Local Open Scope Z_scope.

(** ** Python string operations *)

Module Py.

Definition nl : string := String (ascii_of_nat 10) "".

Definition is_upper (c : ascii) : bool :=
  let n := nat_of_ascii c in (Nat.leb 65 n && Nat.leb n 90)%bool.

Definition is_lower (c : ascii) : bool :=
  let n := nat_of_ascii c in (Nat.leb 97 n && Nat.leb n 122)%bool.

Definition isdigit (c : ascii) : bool :=
  let n := nat_of_ascii c in (Nat.leb 48 n && Nat.leb n 57)%bool.

Definition isspace (c : ascii) : bool :=
  let n := nat_of_ascii c in
  ((Nat.leb 9 n && Nat.leb n 13) || (Nat.leb 28 n && Nat.leb n 32))%bool.

Definition lower_char (c : ascii) : ascii :=
  if is_upper c then ascii_of_nat (nat_of_ascii c + 32) else c.

Definition upper_char (c : ascii) : ascii :=
  if is_lower c then ascii_of_nat (nat_of_ascii c - 32) else c.

Fixpoint map_chars (f : ascii -> ascii) (s : string) : string :=
  match s with
  | EmptyString => EmptyString
  | String c s' => String (f c) (map_chars f s')
  end.

Fixpoint filter_chars (p : ascii -> bool) (s : string) : string :=
  match s with
  | EmptyString => EmptyString
  | String c s' => if p c then String c (filter_chars p s') else filter_chars p s'
  end.

(** [s.lower()] on the UTF-8 bytes of [s]. An ASCII capital becomes its
    small letter. Two code points outside ASCII have a lower-case form with
    an ASCII letter in it, and both are mapped as Python maps them:
    U+212A KELVIN SIGN (bytes 226 132 170) becomes [k], and U+0130 LATIN
    CAPITAL LETTER I WITH DOT ABOVE (bytes 196 176) becomes [i] followed by
    U+0307 (bytes 204 135). Every other code point outside ASCII is kept:
    its lower-case form lies outside ASCII as well, so a comparison of
    [lower s] with an ASCII string, the only use the handler makes of it,
    has the result it has in Python. *)
Fixpoint lower (s : string) : string :=
  match s with
  | EmptyString => EmptyString
  | String c s' =>
      let plain := String (lower_char c) (lower s') in
      match s' with
      | String c2 rest2 =>
          if (Ascii.eqb c "196" && Ascii.eqb c2 "176")%bool
          then String "i" (String "204" (String "135" (lower rest2)))
          else
            match rest2 with
            | String c3 rest3 =>
                if (Ascii.eqb c "226" && Ascii.eqb c2 "132"
                    && Ascii.eqb c3 "170")%bool
                then String "k" (lower rest3)
                else plain
            | EmptyString => plain
            end
      | EmptyString => plain
      end
  end.

(** [s.upper()], on the ASCII range *)
Definition upper (s : string) : string := map_chars upper_char s.

(** [s.replace(c, '')] for a one-character [c] *)
Definition remove_char (c : ascii) (s : string) : string :=
  filter_chars (fun x => negb (Ascii.eqb x c)) s.

Fixpoint lstrip (s : string) : string :=
  match s with
  | EmptyString => EmptyString
  | String c s' => if isspace c then lstrip s' else s
  end.

Fixpoint rstrip (s : string) : string :=
  match s with
  | EmptyString => EmptyString
  | String c s' =>
      match rstrip s' with
      | EmptyString => if isspace c then EmptyString else String c EmptyString
      | r => String c r
      end
  end.

(** [s.strip()] *)
Definition strip (s : string) : string := rstrip (lstrip s).

(** [s.startswith(p)], also DynamoDB's [begins_with(s, p)] *)
Definition startswith (s p : string) : bool := String.prefix p s.

(** [s.split(sep)] for a one-character separator: never the empty list *)
Fixpoint split (sep : ascii) (s : string) : list string :=
  match s with
  | EmptyString => [EmptyString]
  | String c s' =>
      if Ascii.eqb c sep then EmptyString :: split sep s'
      else match split sep s' with
           | p :: ps => String c p :: ps
           | [] => [String c EmptyString]
           end
  end.

(** [sep.join(l)] *)
Fixpoint join (sep : string) (l : list string) : string :=
  match l with
  | [] => EmptyString
  | [x] => x
  | x :: rest => x +:+ sep +:+ join sep rest
  end.

Fixpoint drop_chars (n : nat) (s : string) : string :=
  match n, s with
  | O, _ => s
  | S n', String _ s' => drop_chars n' s'
  | S _, EmptyString => EmptyString
  end.

(** [s[-n:]] for [n > 0]: the last [n] characters, all of [s] when it is
    shorter *)
Definition last_chars (n : nat) (s : string) : string :=
  drop_chars (String.length s - n) s.

(** [str(i)] for an integer *)
Definition str (i : Z) : string := pretty i.

(** Truthiness of a value that is [None] or a string *)
Definition truthy (v : option string) : bool :=
  match v with
  | Some (String _ _) => true
  | _ => false
  end.

(** The string held by a truthy value *)
Definition the (v : option string) : string :=
  match v with
  | Some s => s
  | None => EmptyString
  end.

(** [f"{v}"] for a value that is [None] or a string *)
Definition fmt (v : option string) : string :=
  match v with
  | Some s => s
  | None => "None"
  end.

(** [d.get(key, fallback)] on a key that may be missing *)
Definition get {A} (v : option A) (fallback : A) : A :=
  match v with
  | Some a => a
  | None => fallback
  end.

(** [x in l] for a list of strings *)
Definition contains (l : list string) (x : string) : bool :=
  existsb (String.eqb x) l.

End Py.

(** ** The Lex V2 event and response *)

(** A slot's [value] object. A key that may be missing is an [option]. *)
Record SlotValue := {
  originalValue : string;
  interpretedValue : option string;
  resolvedValues : list string
}.

Record Slot := { value : option SlotValue }.

(** [intent]: the dict under [event['sessionState']['intent']]. In [slots] a
    name is bound to [None] (JSON null) or to a slot. *)
Record Intent := {
  intent_name : option string;
  intent_slots : option (gmap string (option Slot));
  intent_state : option string;
  intent_confirmationState : option string
}.

Record SessionState := { intent : option Intent }.

Record Event := {
  sessionState : option SessionState;
  invocationSource : option string
}.

Inductive DialogAction :=
| ElicitSlot (slotToElicit : string)
| Delegate
| Close.

(** The handler's return value; [messages] holds the [content] of each
    PlainText message, and is empty when the key is not there. *)
Record Response := {
  dialogAction : DialogAction;
  resp_intent : Intent;
  messages : list string
}.

(** ** The DynamoDB tables *)

(** An item of [DoctorSchedule], keyed by (DoctorName, Date_Time). *)
Record ScheduleItem := {
  DoctorName : string;
  Date_Time : string;
  Status : string
}.

(** An item of [Appointments], keyed by AppointmentId. *)
Record Appointment := {
  AppointmentId : string;
  appt_DoctorName : option string;
  appt_Date : option string;
  appt_Time : option string;
  appt_Name : option string;
  appt_Phone : option string;
  appt_Status : string
}.

(** [schedule_table] lists its items in scan order; [id_counter_table] is the
    [current_value] of the item ['appointment_id'], if there is one. *)
Record Store := {
  schedule_table : list ScheduleItem;
  appointments_table : gmap string Appointment;
  id_counter_table : option Z
}.

(** The calls made to the tables, in order. *)
Inductive StoreOp :=
| OpScan (doctor date : string)
| OpUpdateSlot (doctor : option string) (key : string)
| OpUpdateCounter
| OpPutItem (item : Appointment).

Inductive Exn :=
| KeyError (key : string)
| IndexError
| StopIteration
| TypeError
| AttributeError
| ClientError (code : string).

Inductive Result (A : Type) :=
| Ok (a : A)
| Raise (e : Exn).
Arguments Ok {A} a.
Arguments Raise {A} e.

(** ** The monad of a turn

    A turn runs over the event object (which the handler mutates in place),
    the store and the list of store calls made so far. An exception leaves
    all three as they were when it was raised. *)

Record World := {
  w_event : Event;
  w_store : Store;
  w_trace : list StoreOp
}.

Definition M (A : Type) : Type := World -> Result A * World.

Definition ret {A} (a : A) : M A := fun w => (Ok a, w).

Definition bind {A B} (m : M A) (k : A -> M B) : M B :=
  fun w => match m w with
           | (Ok a, w') => k a w'
           | (Raise e, w') => (Raise e, w')
           end.

Definition raise {A} (e : Exn) : M A := fun w => (Raise e, w).

Notation "'do' x <- m ; k" := (bind m (fun x => k))
  (at level 10, x name, m at level 100, k at level 200).
Notation "'do' ' p <- m ; k" := (bind m (fun x => match x with p => k end))
  (at level 10, p pattern, m at level 100, k at level 200).
Notation "'exec' m ; k" := (bind m (fun _ => k))
  (at level 10, m at level 100, k at level 200).

(** [try: m except ClientError: h] *)
Definition try_ClientError {A} (m : M A) (h : M A) : M A :=
  fun w => match m w with
           | (Raise (ClientError _), w') => h w'
           | r => r
           end.

(** [d[key]] on a key that may be missing *)
Definition subscript {A} (key : string) (v : option A) : M A :=
  match v with
  | Some a => ret a
  | None => raise (KeyError key)
  end.

Definition log_op (op : StoreOp) : M unit :=
  fun w => (Ok tt, {| w_event := w_event w; w_store := w_store w;
                      w_trace := w_trace w ++ [op] |}).

Definition get_store : M Store := fun w => (Ok (w_store w), w).

Definition put_store (s : Store) : M unit :=
  fun w => (Ok tt, {| w_event := w_event w; w_store := s; w_trace := w_trace w |}).

Definition put_event (e : Event) : M unit :=
  fun w => (Ok tt, {| w_event := e; w_store := w_store w; w_trace := w_trace w |}).

(** ** The table operations *)

Definition with_schedule (tbl : list ScheduleItem) (s : Store) : Store :=
  {| schedule_table := tbl;
     appointments_table := appointments_table s;
     id_counter_table := id_counter_table s |}.

Definition with_appointments (tbl : gmap string Appointment) (s : Store) : Store :=
  {| schedule_table := schedule_table s;
     appointments_table := tbl;
     id_counter_table := id_counter_table s |}.

Definition with_counter (v : option Z) (s : Store) : Store :=
  {| schedule_table := schedule_table s;
     appointments_table := appointments_table s;
     id_counter_table := v |}.

(** The counter's [update_item]:
    [SET current_value = if_not_exists(current_value, :start) + :incr] *)
Definition increment_counter (v : option Z) : Z := Py.get v 1000000 + 1.

Definition get_next_sequence : M string :=
  exec log_op OpUpdateCounter;
  do s <- get_store;
  let current_value := increment_counter (id_counter_table s) in
  exec put_store (with_counter (Some current_value) s);
  ret (Py.last_chars 7 (Py.str current_value)).

Definition get_slot_value (slots : gmap string (option Slot)) (slot_name : string)
  : option string :=
  match slots !! slot_name with
  | Some (Some {| value := Some v |}) => interpretedValue v
  | _ => None
  end.

(** The scan's filter:
    [DoctorName = :doc AND begins_with(Date_Time, :dt) AND #s = :status] *)
Definition scan_filter (doctor date : string) (item : ScheduleItem) : bool :=
  (String.eqb (DoctorName item) doctor
   && Py.startswith (Date_Time item) date
   && String.eqb (Status item) "available")%bool.

(** [item['Date_Time'].split('_')[1]] *)
Definition time_label (item : ScheduleItem) : M string :=
  match Py.split "_" (Date_Time item) with
  | _ :: t :: _ => ret t
  | _ => raise IndexError
  end.

(** [[f(x) for x in l]] *)
Fixpoint comprehension {A B} (f : A -> M B) (l : list A) : M (list B) :=
  match l with
  | [] => ret []
  | x :: rest =>
      do y <- f x;
      do ys <- comprehension f rest;
      ret (y :: ys)
  end.

(** [get_available_times(doctor, date)]: one call of [scan], whose
    [LastEvaluatedKey] is not followed. The items are those of the first
    page, here the whole table: the table is taken to fit one page
    ([one_page], below). *)
Definition get_available_times (doctor date : string) : M (list string) :=
  exec log_op (OpScan doctor date);
  do s <- get_store;
  let items := List.filter (scan_filter doctor date) (schedule_table s) in
  comprehension time_label items.

Definition has_key (doctor key : string) (item : ScheduleItem) : bool :=
  (String.eqb (DoctorName item) doctor && String.eqb (Date_Time item) key)%bool.

Definition booked (item : ScheduleItem) : ScheduleItem :=
  {| DoctorName := DoctorName item; Date_Time := Date_Time item; Status := "booked" |}.

(** The conditional write on the item with the given key: it must exist with
    [Status = 'available'], and gets [Status = 'booked']; [None] when the
    condition fails. *)
Fixpoint book_slot (doctor key : string) (tbl : list ScheduleItem)
  : option (list ScheduleItem) :=
  match tbl with
  | [] => None
  | item :: rest =>
      if has_key doctor key item then
        if String.eqb (Status item) "available" then Some (booked item :: rest)
        else None
      else cons item <$> book_slot doctor key rest
  end.

(** [schedule_table.update_item(...)] of the fulfilment step. A key attribute
    that is [None] or empty is refused by the table. *)
Definition mark_slot_booked (doctor : option string) (datetime_key : string) : M unit :=
  exec log_op (OpUpdateSlot doctor datetime_key);
  if Py.truthy doctor then
    do s <- get_store;
    match book_slot (Py.the doctor) datetime_key (schedule_table s) with
    | Some tbl => put_store (with_schedule tbl s)
    | None => raise (ClientError "ConditionalCheckFailedException")
    end
  else raise (ClientError "ValidationException").

(** [appointments_table.put_item(Item=item)] *)
Definition put_appointment (item : Appointment) : M unit :=
  exec log_op (OpPutItem item);
  do s <- get_store;
  put_store (with_appointments (<[AppointmentId item := item]> (appointments_table s)) s).

(** ** The handler *)

Definition VALID_DOCTORS : list string :=
  ["Dr. Sarah Jones"; "Dr. Sophia Lee"; "Dr. David Park"].

(** [d.lower() == doctor.lower()] *)
Definition same_doctor (doctor d : string) : bool :=
  String.eqb (Py.lower d) (Py.lower doctor).

(** [any(d.lower() == doctor.lower() for d in VALID_DOCTORS)] *)
Definition valid_doctor (doctor : string) : bool :=
  existsb (same_doctor doctor) VALID_DOCTORS.

(** [next(d for d in VALID_DOCTORS if d.lower() == doctor.lower())] *)
Definition canonical_doctor (doctor : string) : M string :=
  match List.find (same_doctor doctor) VALID_DOCTORS with
  | Some d => ret d
  | None => raise StopIteration
  end.

(** The time normalisation of step 2, on the ASCII range. Its value is
    bound to [normalized_time] and never read. *)
Definition normalize_time (time : string) : string :=
  let normalized_time :=
    Py.remove_char "." (Py.remove_char " " (Py.upper (Py.strip time))) in
  Py.filter_chars (fun c => (Py.isdigit c || Ascii.eqb c ":")%bool) normalized_time.

Definition elicit_slot (slot : string) (i : Intent) (content : string) : Response :=
  {| dialogAction := ElicitSlot slot; resp_intent := i; messages := [content] |}.

Definition delegate (i : Intent) : Response :=
  {| dialogAction := Delegate; resp_intent := i; messages := [] |}.

Definition close (i : Intent) (content : string) : Response :=
  {| dialogAction := Close; resp_intent := i; messages := [content] |}.

Definition doctors_message : string :=
  "Please choose from our available doctors:" +:+ Py.nl +:+ "- Dr. Sarah Jones"
  +:+ Py.nl +:+ "- Dr. Sophia Lee" +:+ Py.nl +:+ "- Dr. David Park".

Definition no_slots_message (doctor date : option string) : string :=
  "Sorry, " +:+ Py.fmt doctor +:+ " has no available slots on " +:+ Py.fmt date
  +:+ ". Please choose another date.".

Definition times_message (doctor date : option string) (available_times : list string)
  : string :=
  Py.fmt doctor +:+ " is available on " +:+ Py.fmt date +:+ " at: "
  +:+ Py.join ", " available_times +:+ ". Please choose a time.".

Definition not_available_message (doctor date time : option string)
    (available_times : list string) : string :=
  "Sorry, " +:+ Py.fmt time +:+ " is not available. " +:+ Py.fmt doctor
  +:+ " is available on " +:+ Py.fmt date +:+ " at: "
  +:+ Py.join ", " available_times +:+ ". Please choose one of these times.".

Definition confirm_message (doctor date time name phone : option string) : string :=
  "Please confirm your booking details:" +:+ Py.nl
  +:+ "Doctor: " +:+ Py.fmt doctor +:+ Py.nl
  +:+ "Date: " +:+ Py.fmt date +:+ Py.nl
  +:+ "Time: " +:+ Py.fmt time +:+ Py.nl
  +:+ "Name: " +:+ Py.fmt name +:+ Py.nl
  +:+ "Phone: " +:+ Py.fmt phone +:+ Py.nl
  +:+ "Is this correct?".

Definition start_over_message : string :=
  "Okay, let's start over. Which doctor would you like to book an appointment with?".

Definition canceled_message : string :=
  "Your booking was canceled. Which doctor would you like to book with?".

Definition confirmed_message (appointment_id : string) (doctor date time : option string)
  : string :=
  "✅ Appointment confirmed!" +:+ Py.nl
  +:+ "ID: " +:+ appointment_id +:+ Py.nl
  +:+ "Doctor: " +:+ Py.fmt doctor +:+ Py.nl
  +:+ "Date: " +:+ Py.fmt date +:+ Py.nl
  +:+ "Time: " +:+ Py.fmt time.

Definition conflict_message : string :=
  "❌ Sorry, that time slot was just booked by someone else. Please try another time.".

Definition apology_message : string :=
  "Something went wrong. Please try again later.".

(** The six slots, all [None] *)
Definition cleared_slots : gmap string (option Slot) :=
  list_to_map [("DoctorName", None); ("Date", None); ("Time", None);
               ("Name", None); ("Phone", None); ("Confirmation", None)].

(** [{"name": intent['name'], "slots": {...: None}, "state": "InProgress"}] *)
Definition restarted (intent : Intent) : M Intent :=
  do n <- subscript "name" (intent_name intent);
  ret {| intent_name := Some n; intent_slots := Some cleared_slots;
         intent_state := Some "InProgress"; intent_confirmationState := None |}.

(** [{**intent, "slots": {**slots, "Date": None}}] *)
Definition without_date (intent : Intent) (slots : gmap string (option Slot)) : Intent :=
  {| intent_name := intent_name intent;
     intent_slots := Some (<["Date" := None]> slots);
     intent_state := intent_state intent;
     intent_confirmationState := intent_confirmationState intent |}.

(** [slots[slot_name]['value']['interpretedValue'] = v], on the value of
    [slots]; the caller writes the result back to the shared object. *)
Definition assign_interpreted (slot_name v : string) (slots : gmap string (option Slot))
  : M (gmap string (option Slot)) :=
  match slots !! slot_name with
  | Some (Some {| value := Some sv |}) =>
      ret (<[slot_name := Some {| value := Some
              {| originalValue := originalValue sv;
                 interpretedValue := Some v;
                 resolvedValues := resolvedValues sv |} |}]> slots)
  | _ => raise (KeyError slot_name)
  end.

Definition with_slots (slots : gmap string (option Slot)) (i : Intent) : Intent :=
  {| intent_name := intent_name i;
     intent_slots := Some slots;
     intent_state := intent_state i;
     intent_confirmationState := intent_confirmationState i |}.

Definition with_intent (i : Intent) (e : Event) : Event :=
  {| sessionState := Some {| intent := Some i |};
     invocationSource := invocationSource e |}.

(** The steps of [lambda_handler] after the doctor's validation, last step
    first: each step returns its response or goes on to the next one. The
    section's variables are the handler's local variables; [intent] and
    [slots] hold the current value of the event's objects of that name. *)
Section Steps.

Variables (intent : Intent) (slots : gmap string (option Slot)).
Variables (invocation_source confirmation_state : string).
Variables (doctor date time name phone confirmation : option string).

(** The [try] block of step 7 *)
Definition book_appointment (datetime_key : string) : M Response :=
  exec mark_slot_booked doctor datetime_key;
  do appointment_id <- get_next_sequence;
  exec put_appointment
    {| AppointmentId := appointment_id;
       appt_DoctorName := doctor;
       appt_Date := date;
       appt_Time := time;
       appt_Name := name;
       appt_Phone := phone;
       appt_Status := "confirmed" |};
  do n <- subscript "name" (intent_name intent);
  do sl <- subscript "slots" (intent_slots intent);
  ret (close {| intent_name := Some n; intent_slots := Some sl;
                intent_state := Some "Fulfilled";
                intent_confirmationState := None |}
             (confirmed_message appointment_id doctor date time)).

(** Step 7, final fulfilment, and the default fallback *)
Definition step7 : M Response :=
  if (String.eqb invocation_source "FulfillmentCodeHook"
      && String.eqb confirmation_state "Confirmed")%bool then
    let datetime_key := Py.fmt date +:+ "_" +:+ Py.fmt time in
    try_ClientError (book_appointment datetime_key)
                    (ret (close intent conflict_message))
  else ret (delegate intent).

(** Step 6, the built-in confirmation denial *)
Definition step6 : M Response :=
  if String.eqb confirmation_state "Denied" then
    do i <- restarted intent;
    ret (elicit_slot "DoctorName" i canceled_message)
  else step7.

(** Step 5, the confirmation response *)
Definition step5 : M Response :=
  if Py.truthy confirmation then
    if String.eqb (Py.lower (Py.the confirmation)) "no" then
      do i <- restarted intent;
      ret (elicit_slot "DoctorName" i start_over_message)
    else if String.eqb (Py.lower (Py.the confirmation)) "yes" then
      ret (delegate intent)
    else step6
  else step6.

(** Step 4, the confirmation prompt *)
Definition step4 : M Response :=
  if (Py.truthy doctor && Py.truthy date && Py.truthy time && Py.truthy name
      && Py.truthy phone && negb (Py.truthy confirmation))%bool then
    ret (elicit_slot "Confirmation" intent
           (confirm_message doctor date time name phone))
  else step5.

(** Steps 2 and 3, the time's validation and the name and phone prompts *)
Definition step2 : M Response :=
  if (Py.truthy doctor && Py.truthy date && Py.truthy time)%bool then
    do available_times <- get_available_times (Py.the doctor) (Py.the date);
    let normalized_time := normalize_time (Py.the time) in
    if negb (Py.contains available_times (Py.the time)) then
      ret (elicit_slot "Time" intent
             (not_available_message doctor date time available_times))
    else if negb (Py.truthy name) then
      ret (elicit_slot "Name" intent "May I know your name?")
    else if negb (Py.truthy phone) then
      ret (elicit_slot "Phone" intent "Could you please provide your phone number?")
    else step4
  else step4.

(** Step 1, the available times when the time is missing *)
Definition step1 : M Response :=
  if (Py.truthy doctor && Py.truthy date && negb (Py.truthy time))%bool then
    do available_times <- get_available_times (Py.the doctor) (Py.the date);
    match available_times with
    | [] => ret (elicit_slot "Date" (without_date intent slots)
                   (no_slots_message doctor date))
    | _ => ret (elicit_slot "Time" intent
                  (times_message doctor date available_times))
    end
  else step2.

(** Step 2 with the computation of [normalized_time] taken out *)
Definition step2_without_normalization : M Response :=
  if (Py.truthy doctor && Py.truthy date && Py.truthy time)%bool then
    do available_times <- get_available_times (Py.the doctor) (Py.the date);
    if negb (Py.contains available_times (Py.the time)) then
      ret (elicit_slot "Time" intent
             (not_available_message doctor date time available_times))
    else if negb (Py.truthy name) then
      ret (elicit_slot "Name" intent "May I know your name?")
    else if negb (Py.truthy phone) then
      ret (elicit_slot "Phone" intent "Could you please provide your phone number?")
    else step4
  else step4.

Definition step1_without_normalization : M Response :=
  if (Py.truthy doctor && Py.truthy date && negb (Py.truthy time))%bool then
    do available_times <- get_available_times (Py.the doctor) (Py.the date);
    match available_times with
    | [] => ret (elicit_slot "Date" (without_date intent slots)
                   (no_slots_message doctor date))
    | _ => ret (elicit_slot "Time" intent
                  (times_message doctor date available_times))
    end
  else step2_without_normalization.

End Steps.

(** Lines 81 to 321: the five other slot values are read, then the steps run. *)
Definition after_doctor (intent : Intent) (slots : gmap string (option Slot))
    (invocation_source confirmation_state : string) (doctor : option string)
  : M Response :=
  let date := get_slot_value slots "Date" in
  let time := get_slot_value slots "Time" in
  let name := get_slot_value slots "Name" in
  let phone := get_slot_value slots "Phone" in
  let confirmation := get_slot_value slots "Confirmation" in
  step1 intent slots invocation_source confirmation_state
        doctor date time name phone confirmation.

(** The body of the handler's [try]. The assignment of line 79 writes into
    the event: [intent] and [slots] are the event's own objects, so the
    event in the world and both variables get the new value. *)
Definition handler_body (event : Event) : M Response :=
  do session <- subscript "sessionState" (sessionState event);
  do intent <- subscript "intent" (intent session);
  do slots <- subscript "slots" (intent_slots intent);
  do invocation_source <- subscript "invocationSource" (invocationSource event);
  let confirmation_state := Py.get (intent_confirmationState intent) EmptyString in
  let doctor := get_slot_value slots "DoctorName" in
  if Py.truthy doctor then
    if negb (valid_doctor (Py.the doctor)) then
      ret (elicit_slot "DoctorName" intent doctors_message)
    else
      do doctor <- canonical_doctor (Py.the doctor);
      do slots <- assign_interpreted "DoctorName" doctor slots;
      let intent := with_slots slots intent in
      exec put_event (with_intent intent event);
      after_doctor intent slots invocation_source confirmation_state (Some doctor)
  else
    after_doctor intent slots invocation_source confirmation_state doctor.

(** [event.get('sessionState', {}).get('intent', {})] *)
Definition empty_intent : Intent :=
  {| intent_name := None; intent_slots := None; intent_state := None;
     intent_confirmationState := None |}.

Definition event_intent (event : Event) : Intent :=
  match sessionState event with
  | Some session => Py.get (intent session) empty_intent
  | None => empty_intent
  end.

(** [lambda_handler(event, context)] run on a store: the response, and the
    world it leaves (the event object, the store, the calls made). *)
Definition lambda_handler (event : Event) (s : Store) : Response * World :=
  match handler_body event {| w_event := event; w_store := s; w_trace := [] |} with
  | (Ok r, w) => (r, w)
  | (Raise _, w) => (close (event_intent (w_event w)) apology_message, w)
  end.

(** ** Events with a value that is no object

    [lambda_handler] is the handler on an event whose [sessionState] is
    missing or an object, with an intent that is missing or an object. An
    event can have two other shapes on the way to its intent: the intent is
    there and is no object, or the [sessionState] is there and is no
    object. [Plain] is the type of the values that are no object: null, a
    string, a number, a list. *)
Section Invocations.

Variable Plain : Type.

Inductive Invocation :=
| Keyed (event : Event)
| PlainIntent (v : Plain) (source : option string)
| PlainSessionState (v : Plain) (source : option string).

(** The [intent] of a response: an object, or the value that stood under
    the event's [intent] key *)
Inductive IntentValue :=
| IntentObject (i : Intent)
| IntentPlain (v : Plain).

Record Reply := {
  reply_action : DialogAction;
  reply_intent : IntentValue;
  reply_messages : list string
}.

Definition reply (r : Response) : Reply :=
  {| reply_action := dialogAction r;
     reply_intent := IntentObject (resp_intent r);
     reply_messages := messages r |}.

(** The [try] block: its result, the event as it stands at the end, the
    store and the calls made. With a [sessionState] that is no object,
    [event['sessionState']['intent']] raises TypeError (line 50); with an
    intent that is no object, [intent['slots']] does (line 51). *)
Definition try_block (inv : Invocation) (s : Store)
  : Result Response * Invocation * Store * list StoreOp :=
  match inv with
  | Keyed event =>
      let (res, w) := handler_body event {| w_event := event; w_store := s;
                                            w_trace := [] |} in
      (res, Keyed (w_event w), w_store w, w_trace w)
  | PlainIntent _ _ => (Raise TypeError, inv, s, [])
  | PlainSessionState _ _ => (Raise TypeError, inv, s, [])
  end.

(** [event.get('sessionState', {}).get('intent', {})] in the [except]
    clause: a value that is no object has no [get], and the lookup raises
    AttributeError. *)
Definition except_intent (inv : Invocation) : Result IntentValue :=
  match inv with
  | Keyed event => Ok (IntentObject (event_intent event))
  | PlainIntent v _ => Ok (IntentPlain v)
  | PlainSessionState _ _ => Raise AttributeError
  end.

(** [lambda_handler(event, context)] on an event of any shape: what it
    returns or raises, the store it leaves and the calls made. *)
Definition lambda_handler_on (inv : Invocation) (s : Store)
  : Result Reply * Store * list StoreOp :=
  match try_block inv s with
  | (Ok r, _, s', ops) => (Ok (reply r), s', ops)
  | (Raise _, inv', s', ops) =>
      match except_intent inv' with
      | Ok i => (Ok {| reply_action := Close; reply_intent := i;
                       reply_messages := [apology_message] |}, s', ops)
      | Raise e => (Raise e, s', ops)
      end
  end.

End Invocations.

Arguments Keyed {Plain} event.
Arguments PlainIntent {Plain} v source.
Arguments PlainSessionState {Plain} v source.
Arguments IntentObject {Plain} i.
Arguments IntentPlain {Plain} v.
Arguments reply_action {Plain} r.
Arguments reply_intent {Plain} r.
Arguments reply_messages {Plain} r.
Arguments reply {Plain} r.
Arguments try_block {Plain} inv s.
Arguments except_intent {Plain} inv.
Arguments lambda_handler_on {Plain} inv s.

(** The handler with the computation of [normalized_time] taken out of
    step 2, everything else as above. *)
Definition after_doctor_without_normalization (intent : Intent)
    (slots : gmap string (option Slot))
    (invocation_source confirmation_state : string) (doctor : option string)
  : M Response :=
  let date := get_slot_value slots "Date" in
  let time := get_slot_value slots "Time" in
  let name := get_slot_value slots "Name" in
  let phone := get_slot_value slots "Phone" in
  let confirmation := get_slot_value slots "Confirmation" in
  step1_without_normalization intent slots invocation_source confirmation_state
        doctor date time name phone confirmation.

Definition handler_body_without_normalization (event : Event) : M Response :=
  do session <- subscript "sessionState" (sessionState event);
  do intent <- subscript "intent" (intent session);
  do slots <- subscript "slots" (intent_slots intent);
  do invocation_source <- subscript "invocationSource" (invocationSource event);
  let confirmation_state := Py.get (intent_confirmationState intent) EmptyString in
  let doctor := get_slot_value slots "DoctorName" in
  if Py.truthy doctor then
    if negb (valid_doctor (Py.the doctor)) then
      ret (elicit_slot "DoctorName" intent doctors_message)
    else
      do doctor <- canonical_doctor (Py.the doctor);
      do slots <- assign_interpreted "DoctorName" doctor slots;
      let intent := with_slots slots intent in
      exec put_event (with_intent intent event);
      after_doctor_without_normalization intent slots invocation_source
        confirmation_state (Some doctor)
  else
    after_doctor_without_normalization intent slots invocation_source
      confirmation_state doctor.

Definition lambda_handler_without_normalization (event : Event) (s : Store)
  : Response * World :=
  match handler_body_without_normalization event
          {| w_event := event; w_store := s; w_trace := [] |} with
  | (Ok r, w) => (r, w)
  | (Raise _, w) => (close (event_intent (w_event w)) apology_message, w)
  end.

(** ** Sample data *)

Module Sample.

(** A filled slot as Lex sends it *)
Definition filled (v : string) : option Slot :=
  Some {| value := Some {| originalValue := v; interpretedValue := Some v;
                           resolvedValues := [v] |} |}.

Definition booking_slots (doctor date time name phone confirmation : option Slot)
  : gmap string (option Slot) :=
  list_to_map [("DoctorName", doctor); ("Date", date); ("Time", time);
               ("Name", name); ("Phone", phone); ("Confirmation", confirmation)].

Definition booking_intent (slots : gmap string (option Slot))
    (confirmation_state : string) : Intent :=
  {| intent_name := Some "BookAppointment";
     intent_slots := Some slots;
     intent_state := Some "InProgress";
     intent_confirmationState := Some confirmation_state |}.

Definition turn (source : string) (i : Intent) : Event :=
  {| sessionState := Some {| intent := Some i |};
     invocationSource := Some source |}.

Definition item (doctor date_time status : string) : ScheduleItem :=
  {| DoctorName := doctor; Date_Time := date_time; Status := status |}.

(** Dr. Sarah Jones on 2025-05-05, as [generate_schedule] writes the day *)
Definition monday : list ScheduleItem :=
  [item "Dr. Sarah Jones" "2025-05-05_09:00" "available";
   item "Dr. Sarah Jones" "2025-05-05_10:00" "available";
   item "Dr. Sarah Jones" "2025-05-05_11:00" "available";
   item "Dr. Sarah Jones" "2025-05-05_12:00" "available"].

Definition fresh_store (tbl : list ScheduleItem) : Store :=
  {| schedule_table := tbl; appointments_table := ∅; id_counter_table := None |}.

(** All six slots filled, Confirmation "yes", fulfilment phase *)
Definition happy_event : Event :=
  turn "FulfillmentCodeHook"
    (booking_intent
       (booking_slots (filled "Dr. Sarah Jones") (filled "2025-05-05")
          (filled "09:00") (filled "Ann Lee") (filled "5551234") (filled "yes"))
       "Confirmed").


(** The same day once the 09:00 slot is booked *)
Definition monday_taken : list ScheduleItem :=
  [item "Dr. Sarah Jones" "2025-05-05_09:00" "booked";
   item "Dr. Sarah Jones" "2025-05-05_10:00" "available";
   item "Dr. Sarah Jones" "2025-05-05_11:00" "available";
   item "Dr. Sarah Jones" "2025-05-05_12:00" "available"].

(** Doctor in lower case, date, and the time written "9:00" *)
Definition short_time_slots : gmap string (option Slot) :=
  booking_slots (filled "dr. sarah jones") (filled "2025-05-05")
    (filled "9:00") None None None.

Definition short_time_event : Event :=
  turn "DialogCodeHook" (booking_intent short_time_slots "None").




(** Doctor in lower case and Confirmation "no", in an intent without a
    name *)
Definition nameless_slots : gmap string (option Slot) :=
  booking_slots (filled "dr. sarah jones") None None None None (filled "no").

Definition nameless_intent : Intent :=
  {| intent_name := None;
     intent_slots := Some nameless_slots;
     intent_state := Some "InProgress";
     intent_confirmationState := Some "None" |}.

Definition nameless_event : Event := turn "DialogCodeHook" nameless_intent.

End Sample.


(** ** Reading the store *)

(** The labels [get_available_times] returns on a table, without the
    bookkeeping: the scan's matches in scan order, each cut at its
    underscores. *)
Fixpoint labels (items : list ScheduleItem) : Result (list string) :=
  match items with
  | [] => Ok []
  | item :: rest =>
      match Py.split "_" (Date_Time item) with
      | _ :: t :: _ =>
          match labels rest with
          | Ok ts => Ok (t :: ts)
          | Raise e => Raise e
          end
      | _ => Raise IndexError
      end
  end.

Definition available_times (doctor date : string) (s : Store) : Result (list string) :=
  labels (List.filter (scan_filter doctor date) (schedule_table s)).

(** The status of the item with the given key: the first one in scan order *)
Definition slot_status (doctor key : string) (tbl : list ScheduleItem) : option string :=
  Status <$> List.find (has_key doctor key) tbl.

Definition is_scan (op : StoreOp) : bool :=
  match op with
  | OpScan _ _ => true
  | _ => false
  end.

(** The value of a slot of the event, [None] when anything on the way to it
    is missing *)
Definition event_slot_value (event : Event) (slot_name : string) : option string :=
  match intent_slots (event_intent event) with
  | Some slots => get_slot_value slots slot_name
  | None => None
  end.

(** An event with the keys the handler subscripts: its intent, the intent's
    slots and its invocation source *)
Definition well_formed (event : Event) (i : Intent) (slots : gmap string (option Slot))
    (source : string) : Prop :=
  sessionState event = Some {| intent := Some i |}
  /\ intent_slots i = Some slots
  /\ invocationSource event = Some source.

(** The event's intent once line 79 has run: a valid doctor's name in its
    canonical casing, everything else as it came *)
Definition doctor_normalized (i : Intent) : Intent :=
  match intent_slots i with
  | Some slots =>
      match slots !! "DoctorName", get_slot_value slots "DoctorName" with
      | Some (Some {| value := Some sv |}), Some (String c d) =>
          match List.find (same_doctor (String c d)) VALID_DOCTORS with
          | Some canonical =>
              with_slots (<["DoctorName" := Some {| value := Some
                   {| originalValue := originalValue sv;
                      interpretedValue := Some canonical;
                      resolvedValues := resolvedValues sv |} |}]> slots) i
          | None => i
          end
      | _, _ => i
      end
  | None => i
  end.

(** ** Two commit attempts on one store

    A commit attempt is the [try] block of step 7. It makes three calls to
    the tables; between two calls of one attempt the other attempt may make
    calls of its own. [Attempt] is the place an attempt has reached. *)
Module Race.

Record Commit := {
  c_event : Event;
  c_intent : Intent;
  c_doctor : option string;
  c_date : option string;
  c_time : option string;
  c_name : option string;
  c_phone : option string
}.

Definition datetime_key (c : Commit) : string :=
  Py.fmt (c_date c) +:+ "_" +:+ Py.fmt (c_time c).

Inductive Attempt :=
| AtUpdate
| AtSequence
| AtPut (appointment_id : string)
| Finished (r : Result Response).

(** What the [except ClientError] clause and the outer one make of an
    exception raised by a call *)
Definition failed (c : Commit) (e : Exn) : Attempt :=
  match e with
  | ClientError _ => Finished (Ok (close (c_intent c) conflict_message))
  | _ => Finished (Raise e)
  end.

(** The rest of the block once the identifier is known *)
Definition write_appointment (c : Commit) (appointment_id : string) : M Response :=
  exec put_appointment
    {| AppointmentId := appointment_id;
       appt_DoctorName := c_doctor c;
       appt_Date := c_date c;
       appt_Time := c_time c;
       appt_Name := c_name c;
       appt_Phone := c_phone c;
       appt_Status := "confirmed" |};
  do n <- subscript "name" (intent_name (c_intent c));
  do sl <- subscript "slots" (intent_slots (c_intent c));
  ret (close {| intent_name := Some n; intent_slots := Some sl;
                intent_state := Some "Fulfilled";
                intent_confirmationState := None |}
             (confirmed_message appointment_id (c_doctor c) (c_date c) (c_time c))).

(** One call of an attempt, run on the shared store *)
Definition step (c : Commit) (a : Attempt) (s : Store) : Attempt * Store :=
  let w := {| w_event := c_event c; w_store := s; w_trace := [] |} in
  match a with
  | AtUpdate =>
      match mark_slot_booked (c_doctor c) (datetime_key c) w with
      | (Ok _, w') => (AtSequence, w_store w')
      | (Raise e, w') => (failed c e, w_store w')
      end
  | AtSequence =>
      match get_next_sequence w with
      | (Ok appointment_id, w') => (AtPut appointment_id, w_store w')
      | (Raise e, w') => (failed c e, w_store w')
      end
  | AtPut appointment_id =>
      match write_appointment c appointment_id w with
      | (Ok r, w') => (Finished (Ok r), w_store w')
      | (Raise e, w') => (failed c e, w_store w')
      end
  | Finished r => (Finished r, s)
  end.

(** Both attempts and the store they share *)
Record State := {
  first : Attempt;
  second : Attempt;
  shared : Store
}.

(** The attempt chosen by [who] makes its next call. *)
Definition interleave (c1 c2 : Commit) (who : bool) (st : State) : State :=
  if who then
    let '(a, s) := step c1 (first st) (shared st) in
    {| first := a; second := second st; shared := s |}
  else
    let '(a, s) := step c2 (second st) (shared st) in
    {| first := first st; second := a; shared := s |}.

Definition run (c1 c2 : Commit) (schedule : list bool) (st : State) : State :=
  fold_left (fun st who => interleave c1 c2 who st) schedule st.

(** Any schedule, followed by whatever calls are left to each attempt *)
Definition race (c1 c2 : Commit) (schedule : list bool) (s : Store) : State :=
  run c1 c2 (schedule ++ [true; true; true; false; false; false])
      {| first := AtUpdate; second := AtUpdate; shared := s |}.

(** An attempt alone on the store: its three calls in a row *)
Definition alone (c : Commit) (s : Store) : Attempt * Store :=
  let '(a1, s1) := step c AtUpdate s in
  let '(a2, s2) := step c a1 s1 in
  step c a2 s2.

Definition succeeded (c : Commit) (a : Attempt) : Prop :=
  exists appointment_id r,
    a = Finished (Ok r)
    /\ dialogAction r = Close
    /\ intent_state (resp_intent r) = Some "Fulfilled"
    /\ messages r = [confirmed_message appointment_id (c_doctor c) (c_date c) (c_time c)].

Definition conflicted (c : Commit) (a : Attempt) : Prop :=
  a = Finished (Ok (close (c_intent c) conflict_message)).

(** Past the conditional write: on its way to success, or there *)
Definition winning (c : Commit) (a : Attempt) : Prop :=
  a = AtSequence \/ (exists appointment_id, a = AtPut appointment_id) \/ succeeded c a.

(** Not yet at the conditional write, or refused by it *)
Definition losing (c : Commit) (a : Attempt) : Prop :=
  a = AtUpdate \/ conflicted c a.

(** The calls an attempt has left to make, at most *)
Definition remaining (a : Attempt) : nat :=
  match a with
  | AtUpdate => 3
  | AtSequence => 2
  | AtPut _ => 1
  | Finished _ => 0
  end.

(** What holds of two attempts on the slot [(doctor, key)] at any moment:
    the slot is available and neither attempt has started, or it is booked,
    one attempt is past its conditional write and the other is not. *)
Definition invariant (c1 c2 : Commit) (doctor key : string) (st : State) : Prop :=
  (first st = AtUpdate /\ second st = AtUpdate
   /\ slot_status doctor key (schedule_table (shared st)) = Some "available")
  \/ (slot_status doctor key (schedule_table (shared st)) = Some "booked"
      /\ ((winning c1 (first st) /\ losing c2 (second st))
          \/ (losing c1 (first st) /\ winning c2 (second st)))).

End Race.

(** Two patients after the 09:00 slot of [Sample.monday] *)
Module RaceSample.

Definition attempt (name phone : string) : Race.Commit :=
  let slots :=
    Sample.booking_slots (Sample.filled "Dr. Sarah Jones") (Sample.filled "2025-05-05")
      (Sample.filled "09:00") (Sample.filled name) (Sample.filled phone) None in
  let i := Sample.booking_intent slots "Confirmed" in
  {| Race.c_event := Sample.turn "FulfillmentCodeHook" i;
     Race.c_intent := i;
     Race.c_doctor := Some "Dr. Sarah Jones";
     Race.c_date := Some "2025-05-05";
     Race.c_time := Some "09:00";
     Race.c_name := Some name;
     Race.c_phone := Some phone |}.

Definition ann : Race.Commit := attempt "Ann Lee" "5551234".
Definition bob : Race.Commit := attempt "Bob Ray" "5559876".

End RaceSample.

(** The world after further calls to the tables, the store left as it is *)
Definition traced (ops : list StoreOp) (w : World) : World :=
  {| w_event := w_event w; w_store := w_store w; w_trace := w_trace w ++ ops |}.

Definition start (event : Event) (s : Store) : World :=
  {| w_event := event; w_store := s; w_trace := [] |}.

(** [w'] comes from [w] by scans alone: the same store, and no call
    recorded but scans. *)
Definition only_scans (w w' : World) : Prop :=
  w_store w' = w_store w
  /\ exists ops, w_trace w' = w_trace w ++ ops /\ forallb is_scan ops = true.

(** A computation that writes to no table, whatever it returns *)
Definition read_only {A} (m : M A) : Prop :=
  forall w, only_scans w (snd (m w)).

(** A confirmation that lower-cases to "yes" or "no" *)
Definition yes_or_no (c : string) : Prop :=
  Py.lower c = "yes" \/ Py.lower c = "no".

(** The local variable [doctor] once the validation of lines 61 to 79 is
    passed: the slot's value when it is [None] or empty, the canonical name
    when it is a valid doctor; [None] when the validation returns. *)
Definition checked_doctor (slots : gmap string (option Slot)) : option (option string) :=
  let doctor := get_slot_value slots "DoctorName" in
  if Py.truthy doctor then
    Some <$> List.find (same_doctor (Py.the doctor)) VALID_DOCTORS
  else Some doctor.

(** A computation that leaves the event object alone and only adds to the
    record of calls *)
Definition frame {A} (m : M A) : Prop :=
  forall w, w_event (snd (m w)) = w_event w
            /\ exists ops, w_trace (snd (m w)) = w_trace w ++ ops.




(** The six fields of the booking *)
Definition FIELDS : list string :=
  ["DoctorName"; "Date"; "Time"; "Name"; "Phone"; "Confirmation"].

(** ** Items, keys and labels *)

(** ['c' in s] *)
Fixpoint has_char (c : ascii) (s : string) : bool :=
  match s with
  | EmptyString => false
  | String x s' => (Ascii.eqb x c || has_char c s')%bool
  end.

(** The label [split('_')[1]] of an item, when its Date_Time has one *)
Definition label_of (item : ScheduleItem) : option string :=
  match Py.split "_" (Date_Time item) with
  | _ :: t :: _ => Some t
  | _ => None
  end.

(** The primary key of an item of [DoctorSchedule] *)
Definition item_key (item : ScheduleItem) : string * string :=
  (DoctorName item, Date_Time item).

(** No two items of the table have the same key. *)
Definition unique_keys (tbl : list ScheduleItem) : Prop :=
  NoDup (item_key <$> tbl).


(** ** What a turn may do to the store *)

(** A call that issues a reference or writes an appointment *)
Definition commits (op : StoreOp) : bool :=
  match op with
  | OpUpdateCounter | OpPutItem _ => true
  | _ => false
  end.

(** From [w] to [w'] the store is the same, and no call issued a reference
    or wrote an appointment. *)
Definition unwritten (w w' : World) : Prop :=
  w_store w' = w_store w
  /\ exists ops, w_trace w' = w_trace w ++ ops /\ existsb commits ops = false.

(** From [w] to [w'] one booking was made, whole: a slot that was available
    is booked, the counter has advanced by one, and the appointment is
    stored under the reference issued, after scans and then the three calls
    in their order. *)
Definition booked_once (w w' : World) : Prop :=
  exists doctor key tbl' item scans,
    book_slot doctor key (schedule_table (w_store w)) = Some tbl'
    /\ AppointmentId item
       = Py.last_chars 7 (Py.str (increment_counter (id_counter_table (w_store w))))
    /\ appt_DoctorName item = Some doctor
    /\ appt_Status item = "confirmed"
    /\ w_store w'
       = {| schedule_table := tbl';
            appointments_table :=
              <[AppointmentId item := item]> (appointments_table (w_store w));
            id_counter_table :=
              Some (increment_counter (id_counter_table (w_store w))) |}
    /\ forallb is_scan scans = true
    /\ w_trace w'
       = w_trace w ++ scans ++ [OpUpdateSlot (Some doctor) key; OpUpdateCounter;
                                OpPutItem item].

(** A computation that writes nothing or makes one whole booking *)
Definition all_or_nothing {A} (m : M A) : Prop :=
  forall w, unwritten w (snd (m w)) \/ booked_once w (snd (m w)).

(** A computation whose only prompt, if any, is for the doctor *)
Definition elicits_only_doctor (m : M Response) : Prop :=
  forall w r w' field,
    m w = (Ok r, w') -> dialogAction r = ElicitSlot field -> field = "DoctorName".

(** ** The books of a race *)

(** The item an attempt puts under the reference it was issued *)
Definition appointment_of (c : Race.Commit) (appointment_id : string) : Appointment :=
  {| AppointmentId := appointment_id;
     appt_DoctorName := Race.c_doctor c;
     appt_Date := Race.c_date c;
     appt_Time := Race.c_time c;
     appt_Name := Race.c_name c;
     appt_Phone := Race.c_phone c;
     appt_Status := "confirmed" |}.

(** The reference issued on a store *)
Definition next_reference (s : Store) : string :=
  Py.last_chars 7 (Py.str (increment_counter (id_counter_table s))).

(** The store [s] when the attempt that passed the conditional write on
    [s0] is at [a]: the slot is booked; the counter and the appointments are
    those of [s0] until the attempt updates the counter, and the appointment
    is there once the attempt has succeeded. *)
Definition ledger (c : Race.Commit) (doctor key : string) (s0 s : Store)
    (a : Race.Attempt) : Prop :=
  slot_status doctor key (schedule_table s) = Some "booked"
  /\ item_key <$> schedule_table s = item_key <$> schedule_table s0
  /\ ((a = Race.AtSequence
       /\ id_counter_table s = id_counter_table s0
       /\ appointments_table s = appointments_table s0)
      \/ (a = Race.AtPut (next_reference s0)
          /\ id_counter_table s = Some (increment_counter (id_counter_table s0))
          /\ appointments_table s = appointments_table s0)
      \/ (Race.succeeded c a
          /\ id_counter_table s = Some (increment_counter (id_counter_table s0))
          /\ appointments_table s
             = <[next_reference s0 := appointment_of c (next_reference s0)]>
                 (appointments_table s0))).

(** The books of two attempts on the slot, from the store [s0]: nothing has
    happened yet, or one attempt keeps the ledger and the other is losing. *)
Definition books (c1 c2 : Race.Commit) (doctor key : string) (s0 : Store)
    (st : Race.State) : Prop :=
  (Race.first st = Race.AtUpdate /\ Race.second st = Race.AtUpdate
   /\ Race.shared st = s0)
  \/ (ledger c1 doctor key s0 (Race.shared st) (Race.first st)
      /\ Race.losing c2 (Race.second st))
  \/ (ledger c2 doctor key s0 (Race.shared st) (Race.second st)
      /\ Race.losing c1 (Race.first st)).

(** ** Decimal digits *)

(** The seven low decimal digits of [x], the highest first *)
Definition seven_digits (x : N) : string :=
  let d k := pretty_N_char (N.iter k (fun y => y `div` 10)%N x `mod` 10)%N in
  String (d 6%N) (String (d 5%N) (String (d 4%N) (String (d 3%N)
    (String (d 2%N) (String (d 1%N) (String (d 0%N) EmptyString)))))).

(** ** What a message says *)

(** The strings of [l] stand in [s], one after the other. *)
Fixpoint mentions (l : list string) (s : string) : Prop :=
  match l with
  | [] => True
  | t :: rest => exists before after, s = before +:+ t +:+ after /\ mentions rest after
  end.

(** ** One page of a scan

    A call of [scan] reads the table in scan order and stops once it has
    read 1 MB; neither script asks for the page after. An item counts with
    the bytes of its attribute names and values. *)
Definition item_size (item : ScheduleItem) : N :=
  N.of_nat (String.length "DoctorName" + String.length (DoctorName item)
            + (String.length "Date_Time" + String.length (Date_Time item))
            + (String.length "Status" + String.length (Status item))).

Definition SCAN_PAGE_BYTES : N := 1048576.

Definition table_size (tbl : list ScheduleItem) : N :=
  fold_right (fun item n => (item_size item + n)%N) 0%N tbl.

(** The table fits one page: its scan returns all of it. *)
Definition one_page (tbl : list ScheduleItem) : Prop :=
  (table_size tbl <= SCAN_PAGE_BYTES)%N.

(** The items of the first page, with [room] bytes left to read *)
Fixpoint scan_page_from (room : N) (tbl : list ScheduleItem) : list ScheduleItem :=
  match tbl with
  | [] => []
  | item :: rest =>
      if (item_size item <=? room)%N
      then item :: scan_page_from (room - item_size item) rest
      else []
  end.

(** [table.scan()['Items']] *)
Definition scan_page (tbl : list ScheduleItem) : list ScheduleItem :=
  scan_page_from SCAN_PAGE_BYTES tbl.

(** ** The schedule generator

    [generate_doctorSchedule.py] runs on its own against the DoctorSchedule
    table, so it is modelled on the table alone: a function from the table
    before to the table after. A scan returns its first page, [put_item] replaces
    the item of the same key or adds the item at the end of the scan order,
    and [delete_item] removes what has the key. The [print] calls are left
    out. *)
Module Schedule.

(** The date of a [datetime]; the generator's are all at midnight. *)
Record datetime := {
  year : Z;
  month : Z;
  day : Z
}.

Definition is_leap (y : Z) : bool :=
  (Z.eqb (Z.modulo y 4) 0
   && (negb (Z.eqb (Z.modulo y 100) 0) || Z.eqb (Z.modulo y 400) 0))%bool.

Definition DAYS_IN_MONTH : list Z := [31; 28; 31; 30; 31; 30; 31; 31; 30; 31; 30; 31].

Definition days_in_month (y m : Z) : Z :=
  if (Z.eqb m 2 && is_leap y)%bool then 29
  else nth (Z.to_nat (m - 1)) DAYS_IN_MONTH 0.

(** The days before January 1st of year [y] *)
Definition days_before_year (y : Z) : Z :=
  let y := y - 1 in
  y * 365 + Z.div y 4 - Z.div y 100 + Z.div y 400.

(** The days of year [y] before the first of month [m] *)
Definition days_before_month (y m : Z) : Z :=
  fold_right Z.add 0 (firstn (Z.to_nat (m - 1)) DAYS_IN_MONTH)
  + (if (Z.ltb 2 m && is_leap y)%bool then 1 else 0).

(** [d.toordinal()]: January 1st of year 1 is day 1 *)
Definition toordinal (d : datetime) : Z :=
  days_before_year (year d) + days_before_month (year d) (month d) + day d.

(** [d.weekday()]: Monday is 0, Sunday is 6 *)
Definition weekday (d : datetime) : Z := Z.modulo (toordinal d + 6) 7.

(** [d + timedelta(days=1)] *)
Definition tomorrow (d : datetime) : datetime :=
  if Z.ltb (day d) (days_in_month (year d) (month d)) then
    {| year := year d; month := month d; day := day d + 1 |}
  else if Z.ltb (month d) 12 then
    {| year := year d; month := month d + 1; day := 1 |}
  else {| year := year d + 1; month := 1; day := 1 |}.

(** [d1 <= d2] *)
Definition le (d1 d2 : datetime) : bool :=
  (Z.ltb (year d1) (year d2)
   || (Z.eqb (year d1) (year d2)
       && (Z.ltb (month d1) (month d2)
           || (Z.eqb (month d1) (month d2) && Z.leb (day d1) (day d2)))))%bool.

(** A number in decimal, with zeros in front up to the width *)
Definition zero_padded (width : nat) (n : Z) : string :=
  let digits := Py.str n in
  Nat.iter (width - String.length digits) (String "0") digits.

(** [d.strftime('%Y-%m-%d')] *)
Definition strftime (d : datetime) : string :=
  zero_padded 4 (year d) +:+ "-" +:+ zero_padded 2 (month d) +:+ "-"
  +:+ zero_padded 2 (day d).

(** Weekly doctor schedule (0 = Monday, ..., 6 = Sunday), in the order of
    the dict *)
Definition doctor_weekdays : list (string * list Z) :=
  [("Dr. Sarah Jones", [0; 1; 2; 3; 4]);
   ("Dr. Sophia Lee", [0; 1; 2; 3]);
   ("Dr. David Park", [1; 2; 3; 4])].

(** Timeslots available each day *)
Definition available_times : list string := ["09:00"; "10:00"; "11:00"; "12:00"].

(** [doctor_table.put_item(Item=item)] *)
Fixpoint put_item (item : ScheduleItem) (tbl : list ScheduleItem) : list ScheduleItem :=
  match tbl with
  | [] => [item]
  | x :: rest =>
      if has_key (DoctorName item) (Date_Time item) x then item :: rest
      else x :: put_item item rest
  end.

(** [batch.delete_item(Key={'DoctorName': doctor, 'Date_Time': key})] *)
Definition delete_item (doctor key : string) (tbl : list ScheduleItem)
  : list ScheduleItem :=
  List.filter (fun x => negb (has_key doctor key x)) tbl.

(** [clear_schedule()]: every item of the scan, which is one page, is
    deleted by its key. *)
Definition clear_schedule (tbl : list ScheduleItem) : list ScheduleItem :=
  fold_left (fun t item => delete_item (DoctorName item) (Date_Time item) t)
    (scan_page tbl) tbl.

(** The [for time in available_times] loop of a working day *)
Definition put_day (doctor_name date_str : string) (tbl : list ScheduleItem)
  : list ScheduleItem :=
  fold_left
    (fun t time =>
       put_item {| DoctorName := doctor_name;
                   Date_Time := date_str +:+ "_" +:+ time;
                   Status := "available" |} t)
    available_times tbl.

(** The [while current_date <= end_date] loop of a doctor, with the number of
    rounds it may take: [None] when they run out. *)
Fixpoint while_days (rounds : nat) (doctor_name : string) (working_days : list Z)
    (current_date end_date : datetime) (tbl : list ScheduleItem)
  : option (list ScheduleItem) :=
  if le current_date end_date then
    match rounds with
    | O => None
    | S rounds' =>
        let tbl :=
          if existsb (Z.eqb (weekday current_date)) working_days then
            put_day doctor_name (strftime current_date) tbl
          else tbl in
        while_days rounds' doctor_name working_days (tomorrow current_date) end_date tbl
    end
  else Some tbl.

(** [generate_schedule()]: the schedule of May 2025 *)
Definition generate_schedule (rounds : nat) (tbl : list ScheduleItem)
  : option (list ScheduleItem) :=
  let start_date := {| year := 2025; month := 5; day := 1 |} in
  let end_date := {| year := 2025; month := 5; day := 31 |} in
  fold_left
    (fun t '(doctor_name, working_days) =>
       match t with
       | Some t => while_days rounds doctor_name working_days start_date end_date t
       | None => None
       end)
    doctor_weekdays (Some tbl).

(** The slots of a doctor in May 2025, as the loops meet them: each day
    from the 1st to the 31st that falls on a working day, each time of the
    day. *)
Definition planned_for (doctor_name : string) (working_days : list Z)
  : list ScheduleItem :=
  flat_map
    (fun d =>
       let date := {| year := 2025; month := 5; day := Z.of_nat d |} in
       if existsb (Z.eqb (weekday date)) working_days then
         List.map (fun time => {| DoctorName := doctor_name;
                                  Date_Time := strftime date +:+ "_" +:+ time;
                                  Status := "available" |}) available_times
       else [])
    (seq 1 31).

Definition planned : list ScheduleItem :=
  flat_map (fun '(doctor_name, working_days) => planned_for doctor_name working_days)
    doctor_weekdays.

End Schedule.

(** * Properties *)

(** ** The monad and the table operations *)

Lemma bind_ok {A B} (m : M A) (k : A -> M B) w a w' :
  m w = (Ok a, w') -> bind m k w = k a w'.
Proof. intros H. unfold bind. now rewrite H. Qed.

Lemma bind_raise {A B} (m : M A) (k : A -> M B) w e w' :
  m w = (Raise e, w') -> bind m k w = (Raise e, w').
Proof. intros H. unfold bind. now rewrite H. Qed.

Lemma contains_In l x : Py.contains l x = true <-> In x l.
Proof.
  unfold Py.contains. rewrite existsb_exists. split.
  - intros (y & Hy & Heq). apply String.eqb_eq in Heq. now subst.
  - intros H. exists x. split; [assumption | apply String.eqb_refl].
Qed.


Lemma comprehension_labels items w :
  comprehension time_label items w = (labels items, w).
Proof.
  induction items as [|item rest IH]; [reflexivity|].
  cbn [comprehension labels]. unfold bind at 1. unfold time_label in IH |- *.
  destruct (Py.split "_" (Date_Time item)) as [|p [|t ps]]; try reflexivity.
  unfold ret at 1. unfold bind. rewrite IH. destruct (labels rest); reflexivity.
Qed.

Lemma get_available_times_run doctor date w :
  get_available_times doctor date w
  = (available_times doctor date (w_store w), traced [OpScan doctor date] w).
Proof.
  unfold get_available_times, bind, log_op, get_store. cbn.
  rewrite comprehension_labels. reflexivity.
Qed.

(** ** Decimal digits *)

Lemma str_positive (v : Z) : 0 < v -> Py.str v = pretty_N_go (Z.to_N v) "".
Proof.
  destruct v as [|p|p]; try lia. intros _.
  unfold Py.str, pretty at 1, pretty_Z, pretty, pretty_positive, pretty, pretty_N.
  case_decide; [discriminate|reflexivity].
Qed.

Lemma go_length (n : nat) : forall (x : N) s,
  (10 ^ N.of_nat n <= x < 10 * 10 ^ N.of_nat n)%N ->
  String.length (pretty_N_go x s) = (S n + String.length s)%nat.
Proof.
  induction n as [|n IH]; intros x s Hx.
  - change (10 ^ N.of_nat 0)%N with 1%N in Hx.
    rewrite pretty_N_go_step by lia.
    replace (x `div` 10)%N with 0%N by (symmetry; apply N.div_small; lia).
    now rewrite pretty_N_go_0.
  - rewrite Nat2N.inj_succ, N.pow_succ_r' in Hx.
    set (p := (10 ^ N.of_nat n)%N) in *.
    assert (p <> 0)%N by (subst p; apply N.pow_nonzero; lia).
    rewrite pretty_N_go_step by lia.
    assert (p <= x `div` 10)%N by (apply N.div_le_lower_bound; lia).
    assert (x `div` 10 < 10 * p)%N by (apply N.Div0.div_lt_upper_bound; lia).
    rewrite IH by lia. cbn. lia.
Qed.

Lemma string_append_assoc (a b c : string) : (a +:+ b) +:+ c = a +:+ b +:+ c.
Proof.
  induction a as [|x a IH]; [reflexivity|].
  change (String x ((a +:+ b) +:+ c) = String x (a +:+ b +:+ c)). now f_equal.
Qed.

Lemma string_length_append (a b : string) :
  String.length (a +:+ b) = (String.length a + String.length b)%nat.
Proof.
  induction a as [|x a IH]; [reflexivity|].
  change (S (String.length (a +:+ b)) = S (String.length a + String.length b)).
  now f_equal.
Qed.

Lemma go_append : forall (x : N) s, pretty_N_go x s = pretty_N_go x "" +:+ s.
Proof.
  intros x. induction (N.lt_wf_0 x) as [x _ IH]. intros s.
  destruct (decide (x = 0)%N) as [->|Hne].
  - now rewrite !pretty_N_go_0.
  - rewrite (pretty_N_go_step x s), (pretty_N_go_step x "") by lia.
    assert (Hlt : (x `div` 10 < x)%N) by (apply N.div_lt; lia).
    rewrite (IH _ Hlt (String _ s)), (IH _ Hlt (String _ "")).
    now rewrite string_append_assoc.
Qed.

Lemma last_chars_append p s : Py.last_chars (String.length s) (p +:+ s) = s.
Proof.
  unfold Py.last_chars. rewrite string_length_append.
  replace (_ + _ - _)%nat with (String.length p) by lia.
  induction p as [|x p IH]; [reflexivity | exact IH].
Qed.

Lemma last_chars_whole s : Py.last_chars (String.length s) s = s.
Proof. unfold Py.last_chars. now rewrite Nat.sub_diag. Qed.

Lemma go_seven_digits (x : N) :
  (1000000 <= x)%N ->
  pretty_N_go x "" = pretty_N_go (x `div` 10000000) "" +:+ seven_digits x.
Proof.
  intros Hx. unfold seven_digits. cbn [N.iter Pos.iter].
  set (x1 := (x `div` 10)%N).
  set (x2 := (x1 `div` 10)%N).
  set (x3 := (x2 `div` 10)%N).
  set (x4 := (x3 `div` 10)%N).
  set (x5 := (x4 `div` 10)%N).
  set (x6 := (x5 `div` 10)%N).
  assert (100000 <= x1)%N by (apply N.div_le_lower_bound; lia).
  assert (10000 <= x2)%N by (apply N.div_le_lower_bound; lia).
  assert (1000 <= x3)%N by (apply N.div_le_lower_bound; lia).
  assert (100 <= x4)%N by (apply N.div_le_lower_bound; lia).
  assert (10 <= x5)%N by (apply N.div_le_lower_bound; lia).
  assert (1 <= x6)%N by (apply N.div_le_lower_bound; lia).
  rewrite (pretty_N_go_step x) by lia. fold x1.
  rewrite (pretty_N_go_step x1) by lia. fold x2.
  rewrite (pretty_N_go_step x2) by lia. fold x3.
  rewrite (pretty_N_go_step x3) by lia. fold x4.
  rewrite (pretty_N_go_step x4) by lia. fold x5.
  rewrite (pretty_N_go_step x5) by lia. fold x6.
  rewrite (pretty_N_go_step x6) by lia.
  rewrite go_append. f_equal. f_equal.
  subst x6 x5 x4 x3 x2 x1. rewrite !N.Div0.div_div. reflexivity.
Qed.

Lemma seven_digits_period (x : N) : seven_digits (x + 10000000) = seven_digits x.
Proof.
  unfold seven_digits. cbn [N.iter Pos.iter].
  assert (Hdiv : forall y m, ((y + m * 10) `div` 10 = y `div` 10 + m)%N)
    by (intros; apply N.div_add; lia).
  assert (Hmod : forall y m, ((y + m * 10) `mod` 10 = y `mod` 10)%N)
    by (intros; apply N.Div0.mod_add).
  change 10000000%N with (1000000 * 10)%N. rewrite Hmod, Hdiv.
  change 1000000%N with (100000 * 10)%N. rewrite Hmod, Hdiv.
  change 100000%N with (10000 * 10)%N. rewrite Hmod, Hdiv.
  change 10000%N with (1000 * 10)%N. rewrite Hmod, Hdiv.
  change 1000%N with (100 * 10)%N. rewrite Hmod, Hdiv.
  change 100%N with (10 * 10)%N. rewrite Hmod, Hdiv.
  change 10%N with (1 * 10)%N at 1 3 5 7 9 11 13. rewrite Hmod.
  reflexivity.
Qed.

Lemma seven_digits_periods (q : nat) (x : N) :
  seven_digits (x + N.of_nat q * 10000000) = seven_digits x.
Proof.
  induction q as [|q IH].
  - f_equal. lia.
  - replace (x + N.of_nat (S q) * 10000000)%N
      with ((x + N.of_nat q * 10000000) + 10000000)%N by lia.
    now rewrite seven_digits_period.
Qed.

Lemma seven_digits_mod (x : Z) :
  0 <= x -> seven_digits (Z.to_N x) = seven_digits (Z.to_N (x mod 10000000)).
Proof.
  intros Hx. pose proof (Z.div_mod x 10000000 ltac:(lia)) as Hdm.
  pose proof (Z.mod_pos_bound x 10000000 ltac:(lia)) as Hmod.
  assert (Hq : 0 <= x / 10000000) by (apply Z.div_pos; lia).
  replace (Z.to_N x)
    with (Z.to_N (x mod 10000000) + N.of_nat (Z.to_nat (x / 10000000)) * 10000000)%N
    by lia.
  apply seven_digits_periods.
Qed.

Lemma get_next_sequence_reference w :
  fst (get_next_sequence w)
  = Ok (Py.last_chars 7 (Py.str (increment_counter (id_counter_table (w_store w))))).
Proof. reflexivity. Qed.

Lemma reference_seven_digits (x : Z) :
  1000000 <= x -> Py.last_chars 7 (Py.str x) = seven_digits (Z.to_N x).
Proof.
  intros Hx. rewrite str_positive by lia. rewrite go_seven_digits by lia.
  apply (last_chars_append _ (seven_digits (Z.to_N x))).
Qed.

Lemma str_seven_characters (x : Z) :
  1000000 <= x < 10000000 -> String.length (Py.str x) = 7%nat.
Proof.
  intros Hx. rewrite str_positive by lia.
  rewrite (go_length 6) by (change (10 ^ N.of_nat 6)%N with 1000000%N; lia).
  reflexivity.
Qed.

(** ** Scans and keys *)

Lemma labels_ok items l :
  labels items = Ok l ->
  forall t, In t l <-> exists item, In item items /\ label_of item = Some t.
Proof.
  revert l. induction items as [|item rest IH]; cbn; intros l H.
  - inversion H; subst. intros t. split; [intros [] | intros (item & [] & _)].
  - unfold label_of at 1.
    destruct (Py.split "_" (Date_Time item)) as [|p [|t' ps]] eqn:Hsplit; try discriminate.
    destruct (labels rest) as [ts|] eqn:Hrest; [|discriminate].
    inversion H; subst. intros t. cbn. rewrite (IH ts eq_refl t). split.
    + intros [<- | (item' & Hin & Hl)].
      * exists item. split; [now left|]. unfold label_of. now rewrite Hsplit.
      * exists item'. split; [now right | assumption].
    + intros (item' & [<- | Hin] & Hl).
      * left. unfold label_of in Hl. rewrite Hsplit in Hl. congruence.
      * right. now exists item'.
Qed.

Lemma has_key_item_key doctor key item :
  has_key doctor key item = true <-> item_key item = (doctor, key).
Proof.
  unfold has_key, item_key. rewrite andb_true_iff, !String.eqb_eq. split.
  - intros (-> & ->). reflexivity.
  - intros [= -> ->]. now split.
Qed.



(** ** What the messages say *)

Lemma string_append_nil_r (a : string) : a +:+ "" = a.
Proof.
  induction a as [|x a IH]; [reflexivity|].
  change (String x (a +:+ "") = String x a). now f_equal.
Qed.

Lemma mentions_skip l p s : mentions l s -> mentions l (p +:+ s).
Proof.
  destruct l as [|t rest]; [trivial|]. intros (before & after & -> & H).
  exists (p +:+ before), after. split; [|assumption].
  now rewrite string_append_assoc.
Qed.

Lemma mentions_here t l s : mentions l s -> mentions (t :: l) (t +:+ s).
Proof. intros H. exists "", s. now split. Qed.

Lemma mentions_last t : mentions [t] t.
Proof. exists "", "". split; [|exact I]. symmetry. apply string_append_nil_r. Qed.

Lemma mentions_join sep l suffix : mentions l (Py.join sep l +:+ suffix).
Proof.
  induction l as [|x [|y rest] IH].
  - exact I.
  - apply mentions_here. exact I.
  - change (Py.join sep (x :: y :: rest))
      with (x +:+ sep +:+ Py.join sep (y :: rest)).
    rewrite !string_append_assoc. apply mentions_here, mentions_skip, IH.
Qed.

Ltac spell :=
  repeat first [ exact I | apply mentions_join | apply mentions_last
               | apply mentions_here | apply mentions_skip ].



Lemma no_slots_message_mentions doctor date :
  mentions [doctor; date] (no_slots_message (Some doctor) (Some date)).
Proof. unfold no_slots_message, Py.fmt. spell. Qed.




(** ** C4: the sequence generator *)

(** C4. With no counter record, [get_next_sequence] stores 1,000,000 + 1 and
    returns ["1000001"]; with the counter at [v], it stores [v + 1] and returns
    the last seven characters of [v + 1] in decimal. Once the new value has
    seven digits or more, as every value has that follows the first
    issuance, these are the seven low decimal digits of [v + 1], the highest
    first: the digits of [(v + 1) mod 10,000,000], with leading zeros where
    it is below 1,000,000. Nothing else in the store changes, and the call
    is recorded as one counter update. *)
Theorem get_next_sequence_issues event tbl appts tr :
  let world v := {| w_event := event;
                    w_store := {| schedule_table := tbl;
                                  appointments_table := appts;
                                  id_counter_table := v |};
                    w_trace := tr |} in
  increment_counter None = 1000000 + 1
  /\ get_next_sequence (world None)
     = (Ok "1000001", traced [OpUpdateCounter] (world (Some 1000001)))
  /\ (forall v : Z,
       get_next_sequence (world (Some v))
       = (Ok (Py.last_chars 7 (Py.str (v + 1))),
          traced [OpUpdateCounter] (world (Some (v + 1)))))
  /\ (forall v : Z,
       999999 <= v ->
       get_next_sequence (world (Some v))
       = (Ok (seven_digits (Z.to_N (v + 1))),
          traced [OpUpdateCounter] (world (Some (v + 1)))))
  /\ (forall v : Z,
       999999 <= v ->
       seven_digits (Z.to_N (v + 1)) = seven_digits (Z.to_N ((v + 1) mod 10000000))
       /\ String.length (seven_digits (Z.to_N (v + 1))) = 7%nat)
  /\ (forall v : Z,
       999999 <= v < 9999999 ->
       get_next_sequence (world (Some v))
       = (Ok (Py.str (v + 1)), traced [OpUpdateCounter] (world (Some (v + 1))))).
Proof.
  cbn zeta. split; [reflexivity|]. split; [vm_compute; reflexivity|].
  assert (Hrun : forall v : Z,
            get_next_sequence {| w_event := event;
                                 w_store := {| schedule_table := tbl;
                                               appointments_table := appts;
                                               id_counter_table := Some v |};
                                 w_trace := tr |}
            = (Ok (Py.last_chars 7 (Py.str (v + 1))),
               traced [OpUpdateCounter]
                 {| w_event := event;
                    w_store := {| schedule_table := tbl;
                                  appointments_table := appts;
                                  id_counter_table := Some (v + 1) |};
                    w_trace := tr |})) by (intros v; reflexivity).
  split; [exact Hrun|]. split; [|split].
  - intros v Hv. rewrite Hrun. now rewrite reference_seven_digits by lia.
  - intros v Hv. split; [|reflexivity].
    apply seven_digits_mod. lia.
  - intros v Hv. rewrite Hrun. f_equal. f_equal.
    rewrite <- (str_seven_characters (v + 1)) at 1 by lia. apply last_chars_whole.
Qed.

(** ** The handler's first lines *)

Lemma handler_body_well_formed event i sl source w :
  well_formed event i sl source ->
  handler_body event w
  = (let confirmation_state := Py.get (intent_confirmationState i) EmptyString in
     let doctor := get_slot_value sl "DoctorName" in
     if Py.truthy doctor then
       if negb (valid_doctor (Py.the doctor)) then
         ret (elicit_slot "DoctorName" i doctors_message)
       else
         do doctor <- canonical_doctor (Py.the doctor);
         do slots <- assign_interpreted "DoctorName" doctor sl;
         let intent := with_slots slots i in
         exec put_event (with_intent intent event);
         after_doctor intent slots source confirmation_state (Some doctor)
     else after_doctor i sl source confirmation_state doctor) w.
Proof.
  intros (Hs & Hsl & Hsrc). unfold handler_body, bind at 1.
  rewrite Hs. cbn [subscript ret]. unfold bind at 1. cbn [intent subscript ret].
  unfold bind at 1. rewrite Hsl. cbn [subscript ret].
  unfold bind at 1. rewrite Hsrc. reflexivity.
Qed.

(** ** The doctor's name in other letters *)

(** U+212A KELVIN SIGN lower-cases to [k], so "Dr. David Par" followed by it
    is a valid name, which line 79 rewrites to "Dr. David Park"; U+0130
    lower-cases to [i] and U+0307, which is no spelling of "Dr. Sophia Lee". *)
Lemma kelvin_sign_doctor_is_valid :
  let kelvin := String "226" (String "132" (String "170" "")) in
  let dotted := String "196" (String "176" "") in
  Py.lower kelvin = "k"
  /\ valid_doctor ("Dr. David Par" +:+ kelvin) = true
  /\ List.find (same_doctor ("Dr. David Par" +:+ kelvin)) VALID_DOCTORS
     = Some "Dr. David Park"
  /\ valid_doctor ("Dr. Soph" +:+ dotted +:+ "a Lee") = false.
Proof. vm_compute. repeat split. Qed.

(** ** C10: an invalid doctor *)

(** C10. When the supplied DoctorName is not one of the valid doctors in any
    casing, the handler re-elicits DoctorName and returns the intent it
    received: every slot is as it came, the invalid DoctorName value still
    in place, and neither the event nor the store is touched. *)
Theorem invalid_doctor_returns_intent_unchanged event i sl source s d :
  well_formed event i sl source ->
  get_slot_value sl "DoctorName" = Some d ->
  d <> EmptyString ->
  valid_doctor d = false ->
  let (r, w) := lambda_handler event s in
  r = elicit_slot "DoctorName" i doctors_message
  /\ resp_intent r = i
  /\ intent_slots (resp_intent r) = Some sl
  /\ event_slot_value (with_intent (resp_intent r) event) "DoctorName" = Some d
  /\ w = start event s.
Proof.
  intros Hwf Hd Hne Hinvalid. unfold lambda_handler.
  rewrite (handler_body_well_formed _ _ _ _ _ Hwf). cbn zeta. rewrite Hd.
  destruct d as [|c d]; [congruence|]. cbn [Py.truthy Py.the].
  rewrite Hinvalid. cbn [negb ret].
  destruct Hwf as (_ & Hsl & _).
  repeat split; try reflexivity; try assumption.
  unfold event_slot_value, event_intent, with_intent. cbn. rewrite Hsl. exact Hd.
Qed.

(** A turn with the doctor "Dr. Who" *)
Lemma invalid_doctor_returns_intent_unchanged_witness :
  let sl := Sample.booking_slots (Sample.filled "Dr. Who") None None None None None in
  let i := Sample.booking_intent sl "None" in
  let event := Sample.turn "DialogCodeHook" i in
  let (r, w) := lambda_handler event (Sample.fresh_store Sample.monday) in
  r = elicit_slot "DoctorName" i doctors_message
  /\ resp_intent r = i
  /\ intent_slots (resp_intent r) = Some sl
  /\ event_slot_value (with_intent (resp_intent r) event) "DoctorName" = Some "Dr. Who"
  /\ w = start event (Sample.fresh_store Sample.monday).
Proof.
  intros sl i event.
  apply (invalid_doctor_returns_intent_unchanged event i sl "DialogCodeHook"
           (Sample.fresh_store Sample.monday) "Dr. Who").
  - repeat split.
  - vm_compute. reflexivity.
  - discriminate.
  - vm_compute. reflexivity.
Defined.

(** ** C9: the normalised time *)

Lemma step2_normalization_unused intent source confirmation_state
    doctor date time name phone confirmation :
  step2 intent source confirmation_state doctor date time name phone confirmation
  = step2_without_normalization intent source confirmation_state
      doctor date time name phone confirmation.
Proof. reflexivity. Qed.

Lemma step1_normalization_unused intent slots source confirmation_state
    doctor date time name phone confirmation :
  step1 intent slots source confirmation_state doctor date time name phone confirmation
  = step1_without_normalization intent slots source confirmation_state
      doctor date time name phone confirmation.
Proof.
  unfold step1, step1_without_normalization.
  now rewrite step2_normalization_unused.
Qed.

Lemma after_doctor_normalization_unused intent slots source confirmation_state doctor :
  after_doctor intent slots source confirmation_state doctor
  = after_doctor_without_normalization intent slots source confirmation_state doctor.
Proof.
  unfold after_doctor, after_doctor_without_normalization.
  apply step1_normalization_unused.
Qed.

Lemma handler_body_normalization_unused event w :
  handler_body event w = handler_body_without_normalization event w.
Proof.
  unfold handler_body, handler_body_without_normalization, bind.
  repeat match goal with
         | |- context [match ?m ?x with _ => _ end] =>
             destruct (m x) as [[?|?] ?]; try reflexivity
         end.
  all: repeat match goal with
         | |- context [if ?b then _ else _] => destruct b; try reflexivity
         end.
  all: try (rewrite after_doctor_normalization_unused; reflexivity).
  all: repeat match goal with
         | |- context [match ?m ?x with _ => _ end] =>
             destruct (m x) as [[?|?] ?]; try reflexivity
         end.
  all: try (rewrite after_doctor_normalization_unused; reflexivity).
Qed.

(** C9. The handler returns the same response and leaves the same world (the
    event, the store, the calls made to the tables) as the handler whose
    step 2 does not compute [normalized_time]: the acceptance check reads
    the time as supplied. *)
Theorem normalized_time_is_unused event s :
  lambda_handler event s = lambda_handler_without_normalization event s.
Proof.
  unfold lambda_handler, lambda_handler_without_normalization.
  now rewrite handler_body_normalization_unused.
Qed.

(** ** Computations that only read *)

Lemma only_scans_refl w : only_scans w w.
Proof. split; [reflexivity|]. exists []. now rewrite app_nil_r. Qed.

Lemma only_scans_trans w1 w2 w3 :
  only_scans w1 w2 -> only_scans w2 w3 -> only_scans w1 w3.
Proof.
  intros (Hs1 & ops1 & Ht1 & Hf1) (Hs2 & ops2 & Ht2 & Hf2). split.
  - congruence.
  - exists (ops1 ++ ops2). split.
    + rewrite Ht2, Ht1. now rewrite app_assoc.
    + rewrite forallb_app, Hf1, Hf2. reflexivity.
Qed.

Lemma read_only_ret {A} (a : A) : read_only (ret a).
Proof. intros w. apply only_scans_refl. Qed.

Lemma read_only_raise {A} e : read_only (@raise A e).
Proof. intros w. apply only_scans_refl. Qed.

Lemma read_only_bind {A B} (m : M A) (k : A -> M B) :
  read_only m -> (forall a, read_only (k a)) -> read_only (bind m k).
Proof.
  intros Hm Hk w. unfold bind. specialize (Hm w).
  destruct (m w) as [[a|e] w']; cbn in *; [|assumption].
  eapply only_scans_trans; [eassumption | apply Hk].
Qed.

Lemma read_only_subscript {A} key (v : option A) : read_only (subscript key v).
Proof. destruct v; [apply read_only_ret | apply read_only_raise]. Qed.

Lemma read_only_put_event e : read_only (put_event e).
Proof.
  intros w. split; [reflexivity|]. exists []. cbn. now rewrite app_nil_r.
Qed.

Lemma read_only_get_available_times doctor date :
  read_only (get_available_times doctor date).
Proof.
  intros w. rewrite get_available_times_run. split; [reflexivity|].
  exists [OpScan doctor date]. split; reflexivity.
Qed.

Lemma read_only_restarted i : read_only (restarted i).
Proof.
  unfold restarted. apply read_only_bind; [apply read_only_subscript|].
  intros n. apply read_only_ret.
Qed.

Lemma read_only_canonical_doctor d : read_only (canonical_doctor d).
Proof.
  unfold canonical_doctor.
  destruct (List.find _ _); [apply read_only_ret | apply read_only_raise].
Qed.

Lemma read_only_assign_interpreted k v sl : read_only (assign_interpreted k v sl).
Proof.
  unfold assign_interpreted.
  destruct (sl !! k) as [[[[sv|]]|]|];
    first [apply read_only_ret | apply read_only_raise].
Qed.

Create HintDb read_only.

#[local] Hint Resolve read_only_ret read_only_raise read_only_subscript
  read_only_put_event read_only_get_available_times read_only_restarted
  read_only_canonical_doctor read_only_assign_interpreted : read_only.

Lemma yes_or_no_truthy c : yes_or_no c -> Py.truthy (Some c) = true.
Proof. intros [H|H]; destruct c; try reflexivity; discriminate. Qed.

Section ReadOnlySteps.

Variables (intent : Intent) (slots : gmap string (option Slot)).
Variables (source confirmation_state : string).
Variables (doctor date time name phone : option string) (c : string).
Hypothesis Hc : yes_or_no c.

Lemma read_only_step5 :
  read_only (step5 intent source confirmation_state doctor date time name phone (Some c)).
Proof.
  unfold step5. rewrite (yes_or_no_truthy _ Hc). cbn [Py.the].
  destruct Hc as [H|H]; rewrite H; cbn [String.eqb Ascii.eqb Bool.eqb].
  - auto with read_only.
  - apply read_only_bind; auto with read_only.
Qed.

Lemma read_only_step4 :
  read_only (step4 intent source confirmation_state doctor date time name phone (Some c)).
Proof.
  unfold step4. destruct (_ && _)%bool; [auto with read_only | apply read_only_step5].
Qed.

Lemma read_only_step2 :
  read_only (step2 intent source confirmation_state doctor date time name phone (Some c)).
Proof.
  unfold step2. destruct (_ && _)%bool; [|apply read_only_step4].
  apply read_only_bind; [auto with read_only|]. intros available_times.
  repeat (destruct (negb _); [auto with read_only|]). apply read_only_step4.
Qed.

Lemma read_only_step1 :
  read_only (step1 intent slots source confirmation_state doctor date time name phone
               (Some c)).
Proof.
  unfold step1. destruct (_ && _)%bool; [|apply read_only_step2].
  apply read_only_bind; [auto with read_only|].
  intros [|t ts]; auto with read_only.
Qed.

End ReadOnlySteps.

Lemma read_only_bind_results {A B} (m : M A) (k : A -> M B) :
  read_only m ->
  (forall w a w', m w = (Ok a, w') -> read_only (k a)) ->
  read_only (bind m k).
Proof.
  intros Hm Hk w. unfold bind. specialize (Hm w). specialize (Hk w).
  destruct (m w) as [[a|e] w']; cbn in *; [|assumption].
  eapply only_scans_trans; [eassumption | now apply (Hk a w')].
Qed.

(** ** The assignment of line 79 *)

Lemma assign_interpreted_ok k v sl w sl' w' :
  assign_interpreted k v sl w = (Ok sl', w') ->
  w' = w
  /\ exists sv,
       sl !! k = Some (Some {| value := Some sv |})
       /\ sl' = <[k := Some {| value := Some
                    {| originalValue := originalValue sv;
                       interpretedValue := Some v;
                       resolvedValues := resolvedValues sv |} |}]> sl.
Proof.
  unfold assign_interpreted.
  destruct (sl !! k) as [[[[sv|]]|]|]; cbn; intros H; inversion H; subst.
  split; [reflexivity|]. now exists sv.
Qed.

Lemma get_slot_value_insert_ne (sl : gmap string (option Slot)) k k' x :
  k <> k' -> get_slot_value (<[k := x]> sl) k' = get_slot_value sl k'.
Proof. intros H. unfold get_slot_value. now rewrite lookup_insert_ne. Qed.

Lemma get_slot_value_assigned k v sl w sl' w' :
  assign_interpreted k v sl w = (Ok sl', w') ->
  get_slot_value sl' k = Some v
  /\ forall k', k <> k' -> get_slot_value sl' k' = get_slot_value sl k'.
Proof.
  intros H. apply assign_interpreted_ok in H as (_ & sv & _ & ->). split.
  - unfold get_slot_value. now rewrite lookup_insert_eq.
  - intros k' Hk. now apply get_slot_value_insert_ne.
Qed.

Lemma event_slot_value_Some event k v :
  event_slot_value event k = Some v ->
  exists i sl,
    sessionState event = Some {| intent := Some i |}
    /\ intent_slots i = Some sl
    /\ get_slot_value sl k = Some v.
Proof.
  unfold event_slot_value, event_intent.
  destruct (sessionState event) as [[[i|]]|]; cbn; try discriminate.
  destruct (intent_slots i) as [sl|] eqn:Hsl; [|discriminate].
  intros H. now exists i, sl.
Qed.

(** ** C8: a turn whose Confirmation is "yes" or "no" *)

Lemma read_only_after_doctor intent slots source confirmation_state doctor c :
  get_slot_value slots "Confirmation" = Some c ->
  yes_or_no c ->
  read_only (after_doctor intent slots source confirmation_state doctor).
Proof.
  intros Hslot Hc. unfold after_doctor. rewrite Hslot. now apply read_only_step1.
Qed.

Lemma read_only_handler_body event c :
  event_slot_value event "Confirmation" = Some c ->
  yes_or_no c ->
  read_only (handler_body event).
Proof.
  intros Hslot Hc. apply event_slot_value_Some in Hslot as (i & sl & Hs & Hsl & Hv).
  destruct (invocationSource event) as [source|] eqn:Hsrc.
  - intros w. rewrite (handler_body_well_formed event i sl source); [|now repeat split].
    cbn zeta.
    match goal with
    | |- only_scans _ (snd (?m w)) => cut (read_only m); [intros H; apply H|]
    end.
    clear w. destruct (Py.truthy _).
    + destruct (negb _); [auto with read_only|].
      apply read_only_bind; [auto with read_only|]. intros d.
      apply read_only_bind_results; [auto with read_only|]. intros w sl' w' Hassign.
      apply read_only_bind; [auto with read_only|]. intros _.
      apply read_only_after_doctor with c; [|assumption].
      apply get_slot_value_assigned in Hassign as (_ & Hother).
      rewrite Hother; [assumption | discriminate].
    + now apply read_only_after_doctor with c.
  - intros w. unfold handler_body, bind. rewrite Hs. cbn. rewrite Hsl. cbn.
    rewrite Hsrc. cbn. apply only_scans_refl.
Qed.

(** C8. When the event's Confirmation slot holds a value that lower-cases to
    "yes" or "no", the turn writes to no table, whatever the invocation
    source and the confirmation state are: the store after the turn is the
    store before it (no slot changes status, the counter is not advanced, no
    appointment is written), and every call made to the tables is a scan. *)
Theorem confirmation_yes_or_no_never_commits event s c :
  event_slot_value event "Confirmation" = Some c ->
  yes_or_no c ->
  let (r, w) := lambda_handler event s in
  w_store w = s
  /\ forallb is_scan (w_trace w) = true
  /\ (forall doctor key, ~ In (OpUpdateSlot doctor key) (w_trace w))
  /\ ~ In OpUpdateCounter (w_trace w)
  /\ (forall item, ~ In (OpPutItem item) (w_trace w)).
Proof.
  intros Hslot Hc. unfold lambda_handler.
  pose proof (read_only_handler_body event c Hslot Hc (start event s)) as Hro.
  unfold start in Hro.
  destruct (handler_body event _) as [[r|e] w]; cbn in Hro;
    destruct Hro as (Hstore & ops & Htrace & Hscans); cbn in Htrace; subst ops.
  all: split; [exact Hstore|]; split; [exact Hscans|].
  all: rewrite forallb_forall in Hscans.
  all: repeat split; intros; intros Hin; apply Hscans in Hin; discriminate.
Qed.

(** The turn of [Sample.happy_event] *)
Lemma confirmation_yes_or_no_never_commits_witness :
  let (r, w) := lambda_handler Sample.happy_event (Sample.fresh_store Sample.monday) in
  w_store w = Sample.fresh_store Sample.monday
  /\ forallb is_scan (w_trace w) = true
  /\ (forall doctor key, ~ In (OpUpdateSlot doctor key) (w_trace w))
  /\ ~ In OpUpdateCounter (w_trace w)
  /\ (forall item, ~ In (OpPutItem item) (w_trace w)).
Proof.
  apply (confirmation_yes_or_no_never_commits Sample.happy_event
           (Sample.fresh_store Sample.monday) "yes").
  - vm_compute. reflexivity.
  - left. reflexivity.
Defined.

(** ** C1: the happy path *)

(** C1, on the turn of [Sample.happy_event]: a valid doctor, a date, the time
    "09:00" that is in the availability list, a name, a phone, Confirmation
    "yes", fulfilment phase, confirmation state Confirmed. Step 5 returns
    Delegate before step 7 is reached: no appointment is written, the slot
    stays available, the counter is not touched, and the response is not a
    Close and carries no message. *)
Theorem happy_path_is_delegated_unbooked :
  let s := Sample.fresh_store Sample.monday in
  let (r, w) := lambda_handler Sample.happy_event s in
  available_times "Dr. Sarah Jones" "2025-05-05" s
    = Ok ["09:00"; "10:00"; "11:00"; "12:00"]
  /\ dialogAction r = Delegate
  /\ messages r = []
  /\ w_store w = s
  /\ appointments_table (w_store w) = ∅
  /\ slot_status "Dr. Sarah Jones" "2025-05-05_09:00" (schedule_table (w_store w))
     = Some "available"
  /\ id_counter_table (w_store w) = None
  /\ w_trace w = [OpScan "Dr. Sarah Jones" "2025-05-05"].
Proof. vm_compute. repeat split. Qed.

(** ** The doctor's validation *)

Lemma find_same_doctor_nonempty d d' :
  List.find (same_doctor d) VALID_DOCTORS = Some d' -> d <> EmptyString.
Proof. intros H ->. vm_compute in H. discriminate. Qed.

Lemma find_valid_doctor d d' :
  List.find (same_doctor d) VALID_DOCTORS = Some d' -> valid_doctor d = true.
Proof.
  intros H. unfold valid_doctor. apply existsb_exists. exists d'.
  apply find_some in H. exact H.
Qed.

Lemma valid_doctor_find d :
  valid_doctor d = true -> exists d', List.find (same_doctor d) VALID_DOCTORS = Some d'.
Proof.
  unfold valid_doctor. intros H. apply existsb_exists in H as (x & Hin & Hx).
  destruct (List.find (same_doctor d) VALID_DOCTORS) as [d'|] eqn:Hfind; [now exists d'|].
  eapply find_none in Hfind; [|exact Hin]. congruence.
Qed.

Lemma get_slot_value_Some sl k v :
  get_slot_value sl k = Some v ->
  exists sv, sl !! k = Some (Some {| value := Some sv |}) /\ interpretedValue sv = Some v.
Proof.
  unfold get_slot_value. destruct (sl !! k) as [[[[sv|]]|]|]; try discriminate.
  intros H. now exists sv.
Qed.

Lemma with_intent_well_formed event i sl source :
  well_formed event i sl source -> with_intent i event = event.
Proof.
  intros (Hs & _ & _). destruct event as [ss src]. cbn in *. subst. reflexivity.
Qed.

Lemma with_slots_same i sl : intent_slots i = Some sl -> with_slots sl i = i.
Proof. destruct i; cbn; intros ->; reflexivity. Qed.

(** The handler up to line 80: past the validation, the event holds the
    intent with the doctor's name normalised, and the steps run on it. *)
Lemma handler_body_checked event i sl source s doctor :
  well_formed event i sl source ->
  checked_doctor sl = Some doctor ->
  exists sl',
    intent_slots (doctor_normalized i) = Some sl'
    /\ (forall k, k <> "DoctorName" -> get_slot_value sl' k = get_slot_value sl k)
    /\ handler_body event (start event s)
       = after_doctor (doctor_normalized i) sl' source
           (Py.get (intent_confirmationState i) EmptyString) doctor
           (start (with_intent (doctor_normalized i) event) s).
Proof.
  intros Hwf Hchecked. rewrite (handler_body_well_formed _ _ _ _ _ Hwf). cbn zeta.
  pose proof Hwf as (Hs & Hsl & Hsrc).
  unfold checked_doctor in Hchecked. unfold doctor_normalized. rewrite Hsl.
  destruct (get_slot_value sl "DoctorName") as [[|c d]|] eqn:Hd; cbn [Py.truthy] in *.
  - inversion Hchecked; subst.
    destruct (sl !! "DoctorName") as [[[[sv|]]|]|]; exists sl;
      (split; [assumption|]); (split; [reflexivity|]);
      now rewrite (with_intent_well_formed _ _ _ _ Hwf).
  - cbn [Py.the] in *.
    destruct (List.find (same_doctor (String c d)) VALID_DOCTORS) as [d'|] eqn:Hfind;
      [|discriminate].
    inversion Hchecked; subst. rewrite (find_valid_doctor _ _ Hfind). cbn [negb].
    apply get_slot_value_Some in Hd as (sv & Hlookup & Hsv). rewrite Hlookup.
    eexists. split; [reflexivity|]. split.
    + intros k Hk. now apply get_slot_value_insert_ne.
    + unfold canonical_doctor. rewrite Hfind. unfold bind at 1. cbn [ret].
      unfold assign_interpreted. rewrite Hlookup. unfold bind at 1. cbn [ret].
      unfold bind, put_event, start. cbn. reflexivity.
  - inversion Hchecked; subst.
    destruct (sl !! "DoctorName") as [[[[sv|]]|]|]; exists sl;
      (split; [assumption|]); (split; [reflexivity|]);
      now rewrite (with_intent_well_formed _ _ _ _ Hwf).
Qed.

(** ** What every step leaves alone *)

Lemma frame_ret {A} (a : A) : frame (ret a).
Proof. intros w. split; [reflexivity|]. exists []. cbn. now rewrite app_nil_r. Qed.

Lemma frame_raise {A} e : frame (@raise A e).
Proof. intros w. split; [reflexivity|]. exists []. cbn. now rewrite app_nil_r. Qed.

Lemma frame_bind {A B} (m : M A) (k : A -> M B) :
  frame m -> (forall a, frame (k a)) -> frame (bind m k).
Proof.
  intros Hm Hk w. unfold bind. specialize (Hm w).
  destruct (m w) as [[a|e] w1]; cbn in *; [|assumption].
  destruct Hm as (He & ops & Ht). destruct (Hk a w1) as (He' & ops' & Ht').
  split; [congruence|]. exists (ops ++ ops'). rewrite Ht', Ht. now rewrite app_assoc.
Qed.

Lemma frame_try {A} (m h : M A) : frame m -> frame h -> frame (try_ClientError m h).
Proof.
  intros Hm Hh w. unfold try_ClientError. specialize (Hm w).
  destruct (m w) as [[a|[]] w1]; cbn in *; try assumption.
  destruct Hm as (He & ops & Ht). destruct (Hh w1) as (He' & ops' & Ht').
  split; [congruence|]. exists (ops ++ ops'). rewrite Ht', Ht. now rewrite app_assoc.
Qed.

Lemma frame_subscript {A} key (v : option A) : frame (subscript key v).
Proof. destruct v; [apply frame_ret | apply frame_raise]. Qed.

Lemma frame_log_op op : frame (log_op op).
Proof. intros w. split; [reflexivity|]. now exists [op]. Qed.

Lemma frame_get_store : frame get_store.
Proof. intros w. split; [reflexivity|]. exists []. cbn. now rewrite app_nil_r. Qed.

Lemma frame_put_store s : frame (put_store s).
Proof. intros w. split; [reflexivity|]. exists []. cbn. now rewrite app_nil_r. Qed.

Create HintDb frame.

#[local] Hint Resolve frame_ret frame_raise frame_subscript frame_log_op
  frame_get_store frame_put_store : frame.

Ltac frame_steps :=
  repeat first
    [ progress auto with frame
    | apply frame_bind; [|intros ?]
    | apply frame_try
    | match goal with
      | |- frame (if ?b then _ else _) => destruct b
      | |- frame (match ?x with _ => _ end) => destruct x
      end ].

Lemma frame_get_next_sequence : frame get_next_sequence.
Proof. unfold get_next_sequence. frame_steps. Qed.

Lemma frame_mark_slot_booked doctor key : frame (mark_slot_booked doctor key).
Proof. unfold mark_slot_booked. frame_steps. Qed.

Lemma frame_put_appointment item : frame (put_appointment item).
Proof. unfold put_appointment. frame_steps. Qed.

Lemma frame_get_available_times doctor date : frame (get_available_times doctor date).
Proof.
  intros w. rewrite get_available_times_run. split; [reflexivity|].
  now exists [OpScan doctor date].
Qed.

Lemma frame_restarted i : frame (restarted i).
Proof. unfold restarted. frame_steps. Qed.

#[local] Hint Resolve frame_get_next_sequence frame_mark_slot_booked
  frame_put_appointment frame_get_available_times frame_restarted : frame.

Section FrameSteps.

Variables (intent : Intent) (slots : gmap string (option Slot)).
Variables (source confirmation_state : string).
Variables (doctor date time name phone confirmation : option string).

Lemma frame_book_appointment key :
  frame (book_appointment intent doctor date time name phone key).
Proof. unfold book_appointment. frame_steps. Qed.

Lemma frame_step7 :
  frame (step7 intent source confirmation_state doctor date time name phone).
Proof. unfold step7. pose proof frame_book_appointment. frame_steps. Qed.

Lemma frame_step6 :
  frame (step6 intent source confirmation_state doctor date time name phone).
Proof. unfold step6. pose proof frame_step7. frame_steps. Qed.

Lemma frame_step5 :
  frame (step5 intent source confirmation_state doctor date time name phone confirmation).
Proof. unfold step5. pose proof frame_step6. frame_steps. Qed.

Lemma frame_step4 :
  frame (step4 intent source confirmation_state doctor date time name phone confirmation).
Proof. unfold step4. pose proof frame_step5. frame_steps. Qed.

Lemma frame_step2 :
  frame (step2 intent source confirmation_state doctor date time name phone confirmation).
Proof. unfold step2. pose proof frame_step4. frame_steps. Qed.

Lemma frame_step1 :
  frame (step1 intent slots source confirmation_state doctor date time name phone
           confirmation).
Proof. unfold step1. pose proof frame_step2. frame_steps. Qed.

End FrameSteps.

Lemma frame_after_doctor intent slots source confirmation_state doctor :
  frame (after_doctor intent slots source confirmation_state doctor).
Proof. unfold after_doctor. apply frame_step1. Qed.

(** ** Responses that do not ask for the time *)





Section NoTimeSteps.

Variables (intent : Intent) (source confirmation_state : string).
Variables (doctor date time name phone confirmation : option string).





End NoTimeSteps.

(** ** Steps 1 to 3 *)

Lemma truthy_Some s : s <> EmptyString -> Py.truthy (Some s) = true.
Proof. destruct s; [congruence | reflexivity]. Qed.

Section EarlySteps.

Variables (intent : Intent) (slots : gmap string (option Slot)).
Variables (source confirmation_state : string).
Variables (doctor date time name phone confirmation : option string).

(** Without a doctor or without a date, steps 1 to 3 do nothing. *)
Lemma step1_skipped :
  (Py.truthy doctor && Py.truthy date)%bool = false ->
  step1 intent slots source confirmation_state doctor date time name phone confirmation
  = step4 intent source confirmation_state doctor date time name phone confirmation.
Proof. intros H. unfold step1, step2. now rewrite H. Qed.


End EarlySteps.

(** ** C6: the time's acceptance *)



(** ** C2: a fulfilment turn on a slot that is already booked *)




(** ** C5: negation at confirmation *)





(** ** C7: the outer exception handler *)

Lemma same_doctor_lower d d' : same_doctor d d' = true -> Py.lower d' = Py.lower d.
Proof. unfold same_doctor. apply String.eqb_eq. Qed.

(** What line 79 changes in an intent: nothing but the casing of the
    doctor's name. *)
Lemma doctor_normalized_keeps i :
  intent_name (doctor_normalized i) = intent_name i
  /\ intent_state (doctor_normalized i) = intent_state i
  /\ intent_confirmationState (doctor_normalized i) = intent_confirmationState i
  /\ forall sl, intent_slots i = Some sl ->
       exists sl', intent_slots (doctor_normalized i) = Some sl'
         /\ (forall k, k <> "DoctorName" -> sl' !! k = sl !! k)
         /\ Py.lower <$> get_slot_value sl' "DoctorName"
            = Py.lower <$> get_slot_value sl "DoctorName".
Proof.
  unfold doctor_normalized. destruct (intent_slots i) as [sl|] eqn:Hsl.
  - destruct (sl !! "DoctorName") as [[[[sv|]]|]|] eqn:Hlookup;
      try (repeat split; intros ? [= <-]; exists sl; now rewrite Hsl).
    destruct (get_slot_value sl "DoctorName") as [[|c d]|] eqn:Hd;
      try (repeat split; intros ? [= <-]; exists sl; rewrite Hsl, ?Hd; now repeat split).
    destruct (List.find _ _) as [d'|] eqn:Hfind;
      try (repeat split; intros ? [= <-]; exists sl; rewrite Hsl, ?Hd; now repeat split).
    repeat split. intros ? [= <-]. eexists. split; [reflexivity|]. split.
    + intros k Hk. now rewrite lookup_insert_ne.
    + unfold get_slot_value at 1. rewrite lookup_insert_eq. cbn.
      apply find_some in Hfind as (_ & Hsame). rewrite Hd.
      change (Some (Py.lower d') = Some (Py.lower (String c d))). f_equal.
      now apply same_doctor_lower.
  - repeat split. intros ? [=].
Qed.

Lemma handler_body_invalid_doctor event i sl source w :
  well_formed event i sl source ->
  checked_doctor sl = None ->
  handler_body event w = (Ok (elicit_slot "DoctorName" i doctors_message), w).
Proof.
  intros Hwf Hchecked. rewrite (handler_body_well_formed _ _ _ _ _ Hwf). cbn zeta.
  unfold checked_doctor in Hchecked.
  destruct (Py.truthy (get_slot_value sl "DoctorName")); [|discriminate].
  destruct (List.find _ _) eqn:Hfind; [discriminate|].
  destruct (valid_doctor _) eqn:Hvalid; [|reflexivity].
  apply valid_doctor_find in Hvalid as (d' & Hd'). congruence.
Qed.

(** C7 as stated fails: doctor "dr. sarah jones" and Confirmation "no" in an
    intent without a name. The restart of step 5 raises KeyError, after line
    79 has rewritten the doctor's name: the intent in the apology response
    holds "Dr. Sarah Jones", not the value of the event. *)
Lemma exception_after_normalization_changes_doctor :
  let s := Sample.fresh_store Sample.monday in
  let (r, w) := lambda_handler Sample.nameless_event s in
  fst (handler_body Sample.nameless_event (start Sample.nameless_event s))
    = Raise (KeyError "name")
  /\ dialogAction r = Close
  /\ messages r = [apology_message]
  /\ event_slot_value Sample.nameless_event "DoctorName" = Some "dr. sarah jones"
  /\ event_slot_value (with_intent (resp_intent r) Sample.nameless_event) "DoctorName"
     = Some "Dr. Sarah Jones"
  /\ resp_intent r <> event_intent Sample.nameless_event.
Proof.
  vm_compute. repeat split. intros H.
  apply (f_equal (fun i => match intent_slots i with
                           | Some sl => get_slot_value sl "DoctorName"
                           | None => None
                           end)) in H.
  vm_compute in H. discriminate.
Qed.

Lemma handler_body_raises_event event s e w :
  handler_body event (start event s) = (Raise e, w) ->
  w_event w = event
  \/ w_event w = with_intent (doctor_normalized (event_intent event)) event.
Proof.
  intros H.
  destruct (sessionState event) as [[[i|]]|] eqn:Hs.
  - destruct (intent_slots i) as [sl|] eqn:Hsl.
    + destruct (invocationSource event) as [source|] eqn:Hsrc.
      * assert (Hwf : well_formed event i sl source) by now repeat split.
        assert (Hi : event_intent event = i) by (unfold event_intent; now rewrite Hs).
        destruct (checked_doctor sl) as [doctor|] eqn:Hchecked.
        -- destruct (handler_body_checked event i sl source s _ Hwf Hchecked)
             as (sl' & _ & _ & Hbody).
           rewrite Hbody in H.
           pose proof (frame_after_doctor (doctor_normalized i) sl' source
                         (Py.get (intent_confirmationState i) EmptyString) doctor
                         (start (with_intent (doctor_normalized i) event) s)) as (He & _).
           rewrite H in He. cbn in He. right. now rewrite Hi.
        -- rewrite (handler_body_invalid_doctor _ _ _ _ _ Hwf Hchecked) in H.
           discriminate.
      * unfold handler_body, bind in H. rewrite Hs in H. cbn in H. rewrite Hsl in H.
        cbn in H. rewrite Hsrc in H. cbn in H. inversion H. now left.
    + unfold handler_body, bind in H. rewrite Hs in H. cbn in H. rewrite Hsl in H.
      cbn in H. inversion H. now left.
  - unfold handler_body, bind in H. rewrite Hs in H. cbn in H. inversion H. now left.
  - unfold handler_body, bind in H. rewrite Hs in H. cbn in H. inversion H. now left.
Qed.

Lemma event_intent_with_intent i event : event_intent (with_intent i event) = i.
Proof. reflexivity. Qed.

Lemma doctor_normalized_slots i sl :
  intent_slots i = Some sl ->
  (Py.truthy (get_slot_value sl "DoctorName") = false /\ doctor_normalized i = i)
  \/ (exists d, get_slot_value sl "DoctorName" = Some d /\ d <> EmptyString
        /\ List.find (same_doctor d) VALID_DOCTORS = None /\ doctor_normalized i = i)
  \/ (exists d d' sv,
        get_slot_value sl "DoctorName" = Some d /\ d <> EmptyString
        /\ List.find (same_doctor d) VALID_DOCTORS = Some d'
        /\ sl !! "DoctorName" = Some (Some {| value := Some sv |})
        /\ doctor_normalized i
           = with_slots (<["DoctorName" := Some {| value := Some
                {| originalValue := originalValue sv;
                   interpretedValue := Some d';
                   resolvedValues := resolvedValues sv |} |}]> sl) i).
Proof.
  intros Hsl. unfold doctor_normalized. rewrite Hsl.
  destruct (get_slot_value sl "DoctorName") as [[|c d]|] eqn:Hd.
  - left. split; [reflexivity|]. now repeat case_match.
  - pose proof Hd as Hd'. apply get_slot_value_Some in Hd' as (sv & Hlookup & _).
    rewrite Hlookup.
    destruct (List.find (same_doctor (String c d)) VALID_DOCTORS) as [d'|] eqn:Hfind.
    + right. right. exists (String c d), d', sv. now repeat split.
    + right. left. exists (String c d). now repeat split.
  - left. split; [reflexivity|]. now repeat case_match.
Qed.

(** A name that is in canonical casing already is rewritten to itself. *)
Lemma doctor_normalized_same i sl d :
  intent_slots i = Some sl ->
  get_slot_value sl "DoctorName" = Some d ->
  List.find (same_doctor d) VALID_DOCTORS = Some d ->
  doctor_normalized i = i.
Proof.
  intros Hsl Hd Hfind.
  destruct (doctor_normalized_slots i sl Hsl)
    as [(_ & Heq) | [(d0 & _ & _ & _ & Heq)
                    | (d0 & d' & sv & Hd0 & _ & Hfind0 & Hlookup & Heq)]];
    try assumption.
  rewrite Heq. assert (d0 = d) by congruence. subst d0.
  assert (d' = d) by congruence. subst d'.
  unfold get_slot_value in Hd. rewrite Hlookup in Hd.
  destruct sv as [o iv rv]. cbn in *. subst iv.
  rewrite insert_id by assumption.
  destruct i as [n sl0 st cs]. cbn in *. now subst.
Qed.

(** After line 79 a valid doctor's name is the canonical one. *)
Lemma doctor_normalized_canonical i sl d d' :
  intent_slots i = Some sl ->
  get_slot_value sl "DoctorName" = Some d ->
  List.find (same_doctor d) VALID_DOCTORS = Some d' ->
  exists sl', intent_slots (doctor_normalized i) = Some sl'
              /\ get_slot_value sl' "DoctorName" = Some d'.
Proof.
  intros Hsl Hd Hfind.
  pose proof (find_same_doctor_nonempty _ _ Hfind) as Hne.
  destruct (doctor_normalized_slots i sl Hsl)
    as [(Hfalse & _) | [(d0 & Hd0 & _ & Hnone & _)
                       | (d0 & d0' & sv & Hd0 & _ & Hfind0 & Hlookup & Heq)]].
  - rewrite Hd, (truthy_Some _ Hne) in Hfalse. discriminate.
  - congruence.
  - assert (d0 = d) by congruence. subst d0.
    assert (d0' = d') by congruence. subst d0'.
    rewrite Heq. cbn [intent_slots with_slots]. eexists. split; [reflexivity|].
    unfold get_slot_value. now rewrite lookup_insert_eq.
Qed.

(** An event without its sessionState, its intent, the slots or the
    invocation source stops at the first lines, with KeyError. *)
Lemma handler_body_unreadable event w :
  (forall i sl source, ~ well_formed event i sl source) ->
  exists key, handler_body event w = (Raise (KeyError key), w).
Proof.
  intros Hnot. unfold handler_body, bind.
  destruct (sessionState event) as [[[i|]]|] eqn:Hs; cbn;
    try (eexists; reflexivity).
  destruct (intent_slots i) as [sl|] eqn:Hsl; cbn; try (eexists; reflexivity).
  destruct (invocationSource event) as [source|] eqn:Hsrc; cbn;
    try (eexists; reflexivity).
  exfalso. apply (Hnot i sl source). now repeat split.
Qed.

(** An exception on an event that passes the first lines comes after the
    doctor's validation: the event holds the normalised intent. *)
Lemma handler_body_raises_normalized event i sl source s e w :
  well_formed event i sl source ->
  handler_body event (start event s) = (Raise e, w) ->
  w_event w = with_intent (doctor_normalized i) event.
Proof.
  intros Hwf H.
  destruct (checked_doctor sl) as [doctor|] eqn:Hchecked.
  - destruct (handler_body_checked event i sl source s _ Hwf Hchecked)
      as (sl' & _ & _ & Hbody).
    rewrite Hbody in H.
    pose proof (frame_after_doctor (doctor_normalized i) sl' source
                  (Py.get (intent_confirmationState i) EmptyString) doctor
                  (start (with_intent (doctor_normalized i) event) s)) as (He & _).
    rewrite H in He. exact He.
  - rewrite (handler_body_invalid_doctor _ _ _ _ _ Hwf Hchecked) in H. discriminate.
Qed.

Lemma lambda_handler_on_keyed (Plain : Type) event s :
  @lambda_handler_on Plain (Keyed event) s
  = let (r, w) := lambda_handler event s in (Ok (reply r), w_store w, w_trace w).
Proof.
  unfold lambda_handler_on, try_block, lambda_handler.
  destruct (handler_body event _) as [[r|e] w]; reflexivity.
Qed.

(** C7, amended. Take an event on which the [try] block raises an
    exception. When the event's sessionState is there and is no object
    (null, for one), the [except] clause raises AttributeError itself, and
    the handler returns no response. When the intent is there and is no
    object, the handler returns Close with the apology and that value as
    the intent. Otherwise it returns Close with the apology "Something went
    wrong. Please try again later." and the event's intent, an empty one
    when the event has none, as it stands when the exception is raised:
    - as received, when the first lines raise (the event lacks its
      sessionState, its intent, the slots or the invocation source);
    - after that, as line 79 leaves it: as received when no doctor is
      supplied or the doctor's name is in canonical casing already, and
      otherwise with the canonical name in the DoctorName slot and nothing
      else changed.
    Either way the intent's name, state and confirmation state and every
    slot other than DoctorName are as received, and DoctorName differs from
    the value received in casing at most. *)
Theorem exception_closes_with_apology
    (Plain : Type) (inv : Invocation Plain) s e inv' s' ops :
  try_block inv s = (Raise e, inv', s', ops) ->
  match inv with
  | PlainSessionState v source =>
      lambda_handler_on (PlainSessionState v source) s = (Raise AttributeError, s, [])
  | PlainIntent v source =>
      lambda_handler_on (PlainIntent v source) s
      = (Ok {| reply_action := Close;
               reply_intent := IntentPlain v;
               reply_messages := ["Something went wrong. Please try again later."] |},
         s, [])
  | Keyed event =>
      let (r, w) := lambda_handler event s in
      lambda_handler_on (@Keyed Plain event) s = (Ok (reply r), s', ops)
      /\ handler_body event (start event s) = (Raise e, w)
      /\ s' = w_store w
      /\ ops = w_trace w
      /\ dialogAction r = Close
      /\ messages r = [apology_message]
      /\ messages r = ["Something went wrong. Please try again later."]
      /\ ((forall i sl source, ~ well_formed event i sl source) ->
          resp_intent r = event_intent event /\ s' = s /\ ops = [])
      /\ (forall i sl source,
            well_formed event i sl source ->
            resp_intent r = doctor_normalized i
            /\ (Py.truthy (get_slot_value sl "DoctorName") = false -> resp_intent r = i)
            /\ (forall d d',
                  get_slot_value sl "DoctorName" = Some d ->
                  List.find (same_doctor d) VALID_DOCTORS = Some d' ->
                  event_slot_value (with_intent (resp_intent r) event) "DoctorName"
                  = Some d'
                  /\ (d' = d -> resp_intent r = i)))
      /\ intent_name (resp_intent r) = intent_name (event_intent event)
      /\ intent_state (resp_intent r) = intent_state (event_intent event)
      /\ intent_confirmationState (resp_intent r)
         = intent_confirmationState (event_intent event)
      /\ (forall sl, intent_slots (event_intent event) = Some sl ->
            exists sl', intent_slots (resp_intent r) = Some sl'
              /\ (forall k, k <> "DoctorName" -> sl' !! k = sl !! k)
              /\ Py.lower <$> get_slot_value sl' "DoctorName"
                 = Py.lower <$> get_slot_value sl "DoctorName")
  end.
Proof.
  intros H. destruct inv as [event | v source | v source].
  2: { inversion H; subst. reflexivity. }
  2: { inversion H; subst. reflexivity. }
  rewrite lambda_handler_on_keyed.
  unfold try_block in H. fold (start event s) in H.
  destruct (handler_body event (start event s)) as [res w] eqn:Hbody.
  inversion H; subst res inv' s' ops. clear H.
  unfold lambda_handler. fold (start event s). rewrite Hbody.
  cbn [dialogAction close messages resp_intent].
  split; [reflexivity|]. split; [reflexivity|]. split; [reflexivity|].
  split; [reflexivity|]. split; [reflexivity|]. split; [reflexivity|].
  split; [reflexivity|]. split; [|split].
  - intros Hnot. destruct (handler_body_unreadable event (start event s) Hnot)
      as (key & Hkey).
    rewrite Hkey in Hbody. inversion Hbody; subst. now repeat split.
  - intros i sl source Hwf.
    rewrite (handler_body_raises_normalized _ _ _ _ _ _ _ Hwf Hbody).
    rewrite event_intent_with_intent. pose proof Hwf as (_ & Hsl & _).
    split; [reflexivity|]. split.
    + intros Hfalse.
      destruct (doctor_normalized_slots i sl Hsl)
        as [(_ & Heq) | [(d0 & Hd0 & Hne0 & _ & _) | (d0 & d' & sv & Hd0 & Hne0 & _)]];
        [exact Heq | |]; rewrite Hd0, (truthy_Some _ Hne0) in Hfalse; discriminate.
    + intros d d' Hd Hfind. split.
      * destruct (doctor_normalized_canonical i sl d d' Hsl Hd Hfind) as (sl' & Hsl' & Hd').
        unfold event_slot_value. rewrite event_intent_with_intent, Hsl'. exact Hd'.
      * intros ->. exact (doctor_normalized_same i sl d Hsl Hd Hfind).
  - destruct (handler_body_raises_event _ _ _ _ Hbody) as [-> | ->].
    + repeat split. intros sl Hsl. exists sl. now repeat split.
    + rewrite event_intent_with_intent.
      pose proof (doctor_normalized_keeps (event_intent event)) as (Hn & Hst & Hcs & Hsl).
      repeat split; assumption.
Qed.

(** The turn of [Sample.nameless_event], and an event whose sessionState is
    null *)
Lemma exception_closes_with_apology_witness :
  let event := Sample.nameless_event in
  let s := Sample.fresh_store Sample.monday in
  (let (r, w) := lambda_handler event s in
   lambda_handler_on (@Keyed unit event) s = (Ok (reply r), s, [])
   /\ handler_body event (start event s) = (Raise (KeyError "name"), w)
   /\ s = w_store w
   /\ [] = w_trace w
   /\ dialogAction r = Close
   /\ messages r = [apology_message]
   /\ messages r = ["Something went wrong. Please try again later."]
   /\ ((forall i sl source, ~ well_formed event i sl source) ->
       resp_intent r = event_intent event /\ s = s /\ @nil StoreOp = [])
   /\ (forall i sl source,
         well_formed event i sl source ->
         resp_intent r = doctor_normalized i
         /\ (Py.truthy (get_slot_value sl "DoctorName") = false -> resp_intent r = i)
         /\ (forall d d',
               get_slot_value sl "DoctorName" = Some d ->
               List.find (same_doctor d) VALID_DOCTORS = Some d' ->
               event_slot_value (with_intent (resp_intent r) event) "DoctorName"
               = Some d'
               /\ (d' = d -> resp_intent r = i)))
   /\ intent_name (resp_intent r) = intent_name (event_intent event)
   /\ intent_state (resp_intent r) = intent_state (event_intent event)
   /\ intent_confirmationState (resp_intent r)
      = intent_confirmationState (event_intent event)
   /\ (forall sl, intent_slots (event_intent event) = Some sl ->
         exists sl', intent_slots (resp_intent r) = Some sl'
           /\ (forall k, k <> "DoctorName" -> sl' !! k = sl !! k)
           /\ Py.lower <$> get_slot_value sl' "DoctorName"
              = Py.lower <$> get_slot_value sl "DoctorName"))
  /\ lambda_handler_on (PlainSessionState tt (Some "DialogCodeHook")) s
     = (Raise AttributeError, s, []).
Proof.
  intros event s. split.
  - apply (exception_closes_with_apology unit (Keyed event) s (KeyError "name")
             (Keyed (with_intent (doctor_normalized Sample.nameless_intent) event))
             s []).
    vm_compute. reflexivity.
  - apply (exception_closes_with_apology unit
             (PlainSessionState tt (Some "DialogCodeHook")) s TypeError
             (PlainSessionState tt (Some "DialogCodeHook")) s []).
    reflexivity.
Defined.

(** ** C3: two commit attempts on one slot *)

Lemma book_slot_available doctor key tbl :
  slot_status doctor key tbl = Some "available" ->
  exists tbl', book_slot doctor key tbl = Some tbl'
               /\ slot_status doctor key tbl' = Some "booked".
Proof.
  unfold slot_status. induction tbl as [|item rest IH]; cbn; [discriminate|].
  destruct (has_key doctor key item) eqn:Hkey.
  - cbn. intros [= Hstatus]. rewrite Hstatus. cbn.
    eexists. split; [reflexivity|]. cbn.
    unfold has_key in *. cbn. now rewrite Hkey.
  - intros H. destruct (IH H) as (tbl' & Hbook & Hstatus). rewrite Hbook. cbn.
    eexists. split; [reflexivity|]. cbn. now rewrite Hkey.
Qed.

Lemma book_slot_taken doctor key tbl :
  slot_status doctor key tbl = Some "booked" -> book_slot doctor key tbl = None.
Proof.
  unfold slot_status. induction tbl as [|item rest IH]; cbn; [discriminate|].
  destruct (has_key doctor key item) eqn:Hkey.
  - cbn. intros [= Hstatus]. now rewrite Hstatus.
  - intros H. now rewrite (IH H).
Qed.

Lemma confirmed_is_not_conflict appointment_id doctor date time :
  confirmed_message appointment_id doctor date time <> conflict_message.
Proof. unfold confirmed_message, conflict_message. cbn. discriminate. Qed.

Lemma succeeded_not_conflicted c a : Race.succeeded c a -> ~ Race.conflicted c a.
Proof.
  intros (appointment_id & r & -> & _ & _ & Hmsg) Hconflict.
  unfold Race.conflicted in Hconflict. inversion Hconflict; subst.
  pose proof (confirmed_is_not_conflict appointment_id (Race.c_doctor c) (Race.c_date c)
                (Race.c_time c)) as Hne.
  apply Hne. unfold close in Hmsg. cbn [messages] in Hmsg. congruence.
Qed.

Section TwoAttempts.

Variables (c1 c2 : Race.Commit) (doctor key : string).
Variables (n1 n2 : string) (sl1 sl2 : gmap string (option Slot)).

Hypothesis Hdoctor : doctor <> EmptyString.
Hypothesis Hdoctor1 : Race.c_doctor c1 = Some doctor.
Hypothesis Hdoctor2 : Race.c_doctor c2 = Some doctor.
Hypothesis Hkey1 : Race.datetime_key c1 = key.
Hypothesis Hkey2 : Race.datetime_key c2 = key.
Hypothesis Hname1 : intent_name (Race.c_intent c1) = Some n1.
Hypothesis Hname2 : intent_name (Race.c_intent c2) = Some n2.
Hypothesis Hslots1 : intent_slots (Race.c_intent c1) = Some sl1.
Hypothesis Hslots2 : intent_slots (Race.c_intent c2) = Some sl2.

(** One call of an attempt on the slot, by the place it has reached *)
Lemma step_cases c n sl a s :
  Race.c_doctor c = Some doctor -> Race.datetime_key c = key ->
  intent_name (Race.c_intent c) = Some n ->
  intent_slots (Race.c_intent c) = Some sl ->
  let (a', s') := Race.step c a s in
  match a with
  | Race.AtUpdate =>
      (slot_status doctor key (schedule_table s) = Some "available" ->
       a' = Race.AtSequence
       /\ slot_status doctor key (schedule_table s') = Some "booked")
      /\ (slot_status doctor key (schedule_table s) = Some "booked" ->
          Race.conflicted c a' /\ s' = s)
  | Race.AtSequence =>
      (exists appointment_id, a' = Race.AtPut appointment_id)
      /\ schedule_table s' = schedule_table s
  | Race.AtPut _ => Race.succeeded c a' /\ schedule_table s' = schedule_table s
  | Race.Finished r => a' = a /\ s' = s
  end.
Proof.
  intros Hd Hk Hn Hsl. destruct a as [| |appointment_id|r]; cbn.
  - unfold mark_slot_booked, bind, log_op, get_store, put_store. rewrite Hd, Hk.
    rewrite (truthy_Some _ Hdoctor). cbn.
    destruct (book_slot doctor key (schedule_table s)) as [tbl'|] eqn:Hbook; cbn.
    + split.
      * intros Hav. apply book_slot_available in Hav as (tbl'' & Hbook' & Hstatus).
        rewrite Hbook in Hbook'. inversion Hbook'; subst. now split.
      * intros Htaken. apply book_slot_taken in Htaken. congruence.
    + split.
      * intros Hav. apply book_slot_available in Hav as (tbl'' & Hbook' & _).
        congruence.
      * intros _. split; reflexivity.
  - split; [eexists; reflexivity | reflexivity].
  - unfold Race.write_appointment, put_appointment, bind, log_op, get_store, put_store.
    cbn. rewrite Hn, Hsl. cbn. split; [|reflexivity].
    exists appointment_id. eexists. repeat split.
  - split; reflexivity.
Qed.

Lemma step_advances c a s :
  (Race.remaining (fst (Race.step c a s)) <= pred (Race.remaining a))%nat.
Proof.
  destruct a as [| |appointment_id|r]; unfold Race.step.
  - destruct (mark_slot_booked _ _ _) as [[?|[]] ?]; cbn; lia.
  - cbn. lia.
  - destruct (Race.write_appointment _ _ _) as [[?|[]] ?]; cbn; lia.
  - cbn. lia.
Qed.

Lemma interleave_invariant who st :
  Race.invariant c1 c2 doctor key st ->
  Race.invariant c1 c2 doctor key (Race.interleave c1 c2 who st).
Proof.
  intros Hinv. unfold Race.interleave. destruct who.
  - pose proof (step_cases c1 n1 sl1 (Race.first st) (Race.shared st)
                  Hdoctor1 Hkey1 Hname1 Hslots1) as Hstep.
    destruct (Race.step c1 (Race.first st) (Race.shared st)) as [a' s'].
    unfold Race.invariant in *. cbn.
    destruct Hinv as [(H1 & H2 & Hav) | (Hbooked & [(Hw & Hl) | (Hl & Hw)])].
    + rewrite H1 in Hstep. destruct Hstep as (Hstep & _).
      destruct (Hstep Hav) as (-> & Hstatus).
      right. split; [assumption|]. left. split; [now left | now left].
    + right. destruct Hw as [Ha | [(appointment_id & Ha) | Hs]].
      * rewrite Ha in Hstep. destruct Hstep as ((appointment_id & ->) & Htbl).
        rewrite Htbl. split; [assumption|]. left. split; [|assumption].
        right. left. now exists appointment_id.
      * rewrite Ha in Hstep. destruct Hstep as (Hs & Htbl).
        rewrite Htbl. split; [assumption|]. left. split; [|assumption].
        now right; right.
      * destruct Hs as (appointment_id & r & Ha & Hr).
        rewrite Ha in Hstep. destruct Hstep as (-> & ->).
        split; [assumption|]. left. split; [|assumption].
        right; right. now exists appointment_id, r.
    + right. destruct Hl as [Ha | Hc].
      * rewrite Ha in Hstep. destruct Hstep as (_ & Hstep).
        destruct (Hstep Hbooked) as (Hconflict & ->).
        split; [assumption|]. right. split; [now right | assumption].
      * unfold Race.conflicted in Hc. rewrite Hc in Hstep.
        destruct Hstep as (-> & ->).
        split; [assumption|]. right. split; [now right | assumption].
  - pose proof (step_cases c2 n2 sl2 (Race.second st) (Race.shared st)
                  Hdoctor2 Hkey2 Hname2 Hslots2) as Hstep.
    destruct (Race.step c2 (Race.second st) (Race.shared st)) as [a' s'].
    unfold Race.invariant in *. cbn.
    destruct Hinv as [(H1 & H2 & Hav) | (Hbooked & [(Hw & Hl) | (Hl & Hw)])].
    + rewrite H2 in Hstep. destruct Hstep as (Hstep & _).
      destruct (Hstep Hav) as (-> & Hstatus).
      right. split; [assumption|]. right. split; [now left | now left].
    + right. destruct Hl as [Ha | Hc].
      * rewrite Ha in Hstep. destruct Hstep as (_ & Hstep).
        destruct (Hstep Hbooked) as (Hconflict & ->).
        split; [assumption|]. left. split; [assumption | now right].
      * unfold Race.conflicted in Hc. rewrite Hc in Hstep.
        destruct Hstep as (-> & ->).
        split; [assumption|]. left. split; [assumption | now right].
    + right. destruct Hw as [Ha | [(appointment_id & Ha) | Hs]].
      * rewrite Ha in Hstep. destruct Hstep as ((appointment_id & ->) & Htbl).
        rewrite Htbl. split; [assumption|]. right. split; [assumption|].
        right. left. now exists appointment_id.
      * rewrite Ha in Hstep. destruct Hstep as (Hs & Htbl).
        rewrite Htbl. split; [assumption|]. right. split; [assumption|].
        now right; right.
      * destruct Hs as (appointment_id & r & Ha & Hr).
        rewrite Ha in Hstep. destruct Hstep as (-> & ->).
        split; [assumption|]. right. split; [assumption|].
        right; right. now exists appointment_id, r.
Qed.

Lemma run_invariant schedule st :
  Race.invariant c1 c2 doctor key st ->
  Race.invariant c1 c2 doctor key (Race.run c1 c2 schedule st).
Proof.
  revert st. induction schedule as [|who rest IH]; intros st Hinv; [exact Hinv|].
  cbn. apply IH. now apply interleave_invariant.
Qed.

End TwoAttempts.

Lemma interleave_remaining c1 c2 who st :
  let st' := Race.interleave c1 c2 who st in
  if who then
    (Race.remaining (Race.first st') <= pred (Race.remaining (Race.first st)))%nat
    /\ Race.second st' = Race.second st
  else
    (Race.remaining (Race.second st') <= pred (Race.remaining (Race.second st)))%nat
    /\ Race.first st' = Race.first st.
Proof.
  cbn zeta. unfold Race.interleave. destruct who.
  - pose proof (step_advances c1 (Race.first st) (Race.shared st)) as H.
    destruct (Race.step c1 _ _); cbn in *. now split.
  - pose proof (step_advances c2 (Race.second st) (Race.shared st)) as H.
    destruct (Race.step c2 _ _); cbn in *. now split.
Qed.

Lemma remaining_le_3 a : (Race.remaining a <= 3)%nat.
Proof. destruct a; cbn; lia. Qed.

(** After three more calls of each attempt, both have finished. *)
Lemma run_to_the_end c1 c2 st :
  let st' := Race.run c1 c2 [true; true; true; false; false; false] st in
  Race.remaining (Race.first st') = 0%nat /\ Race.remaining (Race.second st') = 0%nat.
Proof.
  cbn zeta. cbn [Race.run fold_left].
  set (st1 := Race.interleave c1 c2 true st).
  set (st2 := Race.interleave c1 c2 true st1).
  set (st3 := Race.interleave c1 c2 true st2).
  set (st4 := Race.interleave c1 c2 false st3).
  set (st5 := Race.interleave c1 c2 false st4).
  set (st6 := Race.interleave c1 c2 false st5).
  pose proof (interleave_remaining c1 c2 true st) as (H1 & _).
  pose proof (interleave_remaining c1 c2 true st1) as (H2 & _).
  pose proof (interleave_remaining c1 c2 true st2) as (H3 & _).
  pose proof (interleave_remaining c1 c2 false st3) as (H4 & E4).
  pose proof (interleave_remaining c1 c2 false st4) as (H5 & E5).
  pose proof (interleave_remaining c1 c2 false st5) as (H6 & E6).
  fold st1 in H1. fold st2 in H2. fold st3 in H3.
  fold st4 in H4, E4. fold st5 in H5, E5. fold st6 in H6, E6.
  pose proof (remaining_le_3 (Race.first st)).
  pose proof (remaining_le_3 (Race.second st3)).
  rewrite E6, E5, E4. lia.
Qed.

(** An attempt alone on the store does what the [try] statement of step 7
    does. *)
Lemma alone_is_the_try_statement c s :
  let (res, w) :=
    try_ClientError
      (book_appointment (Race.c_intent c) (Race.c_doctor c) (Race.c_date c)
         (Race.c_time c) (Race.c_name c) (Race.c_phone c) (Race.datetime_key c))
      (ret (close (Race.c_intent c) conflict_message))
      (start (Race.c_event c) s) in
  Race.alone c s = (Race.Finished res, w_store w).
Proof.
  unfold Race.alone, Race.step, try_ClientError, book_appointment,
    Race.write_appointment, mark_slot_booked, get_next_sequence, put_appointment,
    bind, log_op, get_store, put_store, start.
  cbn. destruct (Py.truthy (Race.c_doctor c)); cbn; [|reflexivity].
  destruct (book_slot _ _ _); cbn; [|reflexivity].
  destruct (intent_name (Race.c_intent c)); cbn; [|reflexivity].
  destruct (intent_slots (Race.c_intent c)); cbn; reflexivity.
Qed.

(** C3. Two commit attempts on the same slot, which is available, with
    their calls to the tables interleaved in any order: one attempt ends
    with the confirmation response and the other with the conflict message.
    They never both succeed and never both fail, and the slot ends up
    booked. *)
Theorem exactly_one_attempt_books c1 c2 doctor key n1 n2 sl1 sl2 schedule s :
  doctor <> EmptyString ->
  Race.c_doctor c1 = Some doctor ->
  Race.c_doctor c2 = Some doctor ->
  Race.datetime_key c1 = key ->
  Race.datetime_key c2 = key ->
  intent_name (Race.c_intent c1) = Some n1 ->
  intent_name (Race.c_intent c2) = Some n2 ->
  intent_slots (Race.c_intent c1) = Some sl1 ->
  intent_slots (Race.c_intent c2) = Some sl2 ->
  slot_status doctor key (schedule_table s) = Some "available" ->
  let st := Race.race c1 c2 schedule s in
  ((Race.succeeded c1 (Race.first st) /\ Race.conflicted c2 (Race.second st))
   \/ (Race.conflicted c1 (Race.first st) /\ Race.succeeded c2 (Race.second st)))
  /\ ~ (Race.succeeded c1 (Race.first st) /\ Race.succeeded c2 (Race.second st))
  /\ ~ (Race.conflicted c1 (Race.first st) /\ Race.conflicted c2 (Race.second st))
  /\ slot_status doctor key (schedule_table (Race.shared st)) = Some "booked".
Proof.
  intros Hdoctor Hd1 Hd2 Hk1 Hk2 Hn1 Hn2 Hs1 Hs2 Hav st.
  assert (Hinv : Race.invariant c1 c2 doctor key st).
  { subst st. unfold Race.race.
    apply (run_invariant c1 c2 doctor key n1 n2 sl1 sl2); try assumption.
    left. cbn. now repeat split. }
  assert (Hend : Race.remaining (Race.first st) = 0%nat
                 /\ Race.remaining (Race.second st) = 0%nat).
  { subst st. unfold Race.race, Race.run. rewrite fold_left_app.
    apply run_to_the_end. }
  destruct Hend as (Hend1 & Hend2).
  assert (Hone :
    (Race.succeeded c1 (Race.first st) /\ Race.conflicted c2 (Race.second st))
    \/ (Race.conflicted c1 (Race.first st) /\ Race.succeeded c2 (Race.second st))).
  { destruct Hinv as [(H1 & _) | (_ & [(Hw & Hl) | (Hl & Hw)])].
    - rewrite H1 in Hend1. discriminate.
    - left. split.
      + destruct Hw as [Ha | [(x & Ha) | Hsucc]]; try assumption;
          rewrite Ha in Hend1; discriminate.
      + destruct Hl as [Ha | Hc]; [rewrite Ha in Hend2; discriminate | assumption].
    - right. split.
      + destruct Hl as [Ha | Hc]; [rewrite Ha in Hend1; discriminate | assumption].
      + destruct Hw as [Ha | [(x & Ha) | Hsucc]]; try assumption;
          rewrite Ha in Hend2; discriminate. }
  split; [exact Hone|]. split; [|split].
  - intros (Hsucc1 & Hsucc2). destruct Hone as [(_ & Hc) | (Hc & _)].
    + exact (succeeded_not_conflicted _ _ Hsucc2 Hc).
    + exact (succeeded_not_conflicted _ _ Hsucc1 Hc).
  - intros (Hc1 & Hc2). destruct Hone as [(Hsucc & _) | (_ & Hsucc)].
    + exact (succeeded_not_conflicted _ _ Hsucc Hc1).
    + exact (succeeded_not_conflicted _ _ Hsucc Hc2).
  - destruct Hinv as [(H1 & _) | (Hbooked & _)]; [|exact Hbooked].
    rewrite H1 in Hend1. discriminate.
Qed.

(** Ann's and Bob's attempts on the 09:00 slot, Bob's conditional write
    falling between Ann's and her counter update *)
Lemma exactly_one_attempt_books_witness :
  let st := Race.race RaceSample.ann RaceSample.bob [true; false; false; true]
              (Sample.fresh_store Sample.monday) in
  ((Race.succeeded RaceSample.ann (Race.first st)
    /\ Race.conflicted RaceSample.bob (Race.second st))
   \/ (Race.conflicted RaceSample.ann (Race.first st)
       /\ Race.succeeded RaceSample.bob (Race.second st)))
  /\ ~ (Race.succeeded RaceSample.ann (Race.first st)
        /\ Race.succeeded RaceSample.bob (Race.second st))
  /\ ~ (Race.conflicted RaceSample.ann (Race.first st)
        /\ Race.conflicted RaceSample.bob (Race.second st))
  /\ slot_status "Dr. Sarah Jones" "2025-05-05_09:00"
       (schedule_table (Race.shared st)) = Some "booked".
Proof.
  apply (exactly_one_attempt_books RaceSample.ann RaceSample.bob
           "Dr. Sarah Jones" "2025-05-05_09:00" "BookAppointment" "BookAppointment"
           (Sample.booking_slots (Sample.filled "Dr. Sarah Jones")
              (Sample.filled "2025-05-05") (Sample.filled "09:00")
              (Sample.filled "Ann Lee") (Sample.filled "5551234") None)
           (Sample.booking_slots (Sample.filled "Dr. Sarah Jones")
              (Sample.filled "2025-05-05") (Sample.filled "09:00")
              (Sample.filled "Bob Ray") (Sample.filled "5559876") None)
           [true; false; false; true] (Sample.fresh_store Sample.monday)).
  - discriminate.
  - reflexivity.
  - reflexivity.
  - vm_compute. reflexivity.
  - vm_compute. reflexivity.
  - reflexivity.
  - reflexivity.
  - reflexivity.
  - reflexivity.
  - vm_compute. reflexivity.
Defined.

(** ** Step 7 when it is reached *)

(** A fulfilment turn whose Confirmation is neither "yes" nor "no" gets to
    step 7: the slot is booked, the first identifier is issued and the
    appointment is written under it. *)
Example fulfilment_books_when_reached :
  let slots :=
    Sample.booking_slots (Sample.filled "Dr. Sarah Jones") (Sample.filled "2025-05-05")
      (Sample.filled "09:00") (Sample.filled "Ann Lee") (Sample.filled "5551234")
      (Sample.filled "confirm") in
  let event := Sample.turn "FulfillmentCodeHook" (Sample.booking_intent slots "Confirmed") in
  let (r, w) := lambda_handler event (Sample.fresh_store Sample.monday) in
  dialogAction r = Close
  /\ intent_state (resp_intent r) = Some "Fulfilled"
  /\ messages r = [confirmed_message "1000001" (Some "Dr. Sarah Jones")
                     (Some "2025-05-05") (Some "09:00")]
  /\ slot_status "Dr. Sarah Jones" "2025-05-05_09:00" (schedule_table (w_store w))
     = Some "booked"
  /\ id_counter_table (w_store w) = Some 1000001
  /\ AppointmentId <$> (appointments_table (w_store w) !! "1000001") = Some "1000001"
  /\ is_scan <$> w_trace w = [true; false; false; false].
Proof. vm_compute. repeat split. Qed.

(** * Further properties of the code *)

(** ** [get_available_times] *)

Lemma split_nonempty c s : Py.split c s <> [].
Proof.
  destruct s as [|x s]; cbn; [discriminate|].
  destruct (Ascii.eqb x c); [discriminate|].
  destruct (Py.split c s); discriminate.
Qed.

Lemma split_second c s :
  has_char c s = true <-> exists p t rest, Py.split c s = p :: t :: rest.
Proof.
  induction s as [|x s IH]; cbn.
  - split; [discriminate | intros (p & t & rest & H); discriminate].
  - destruct (Ascii.eqb x c) eqn:Hx; cbn.
    + split; [intros _ | reflexivity].
      pose proof (split_nonempty c s) as Hne.
      destruct (Py.split c s) as [|t rest]; [congruence|]. now exists EmptyString, t, rest.
    + rewrite IH. pose proof (split_nonempty c s) as Hne.
      destruct (Py.split c s) as [|p0 ps]; [congruence|]. split.
      * intros (p & t & rest & H). inversion H; subst. now exists (String x p), t, rest.
      * intros (p & t & rest & H). inversion H; subst. now exists p0, t, rest.
Qed.

Lemma label_of_underscore item :
  has_char "_" (Date_Time item) = true <-> exists t, label_of item = Some t.
Proof.
  rewrite split_second. unfold label_of. split.
  - intros (p & t & rest & ->). now exists t.
  - intros (t & H). destruct (Py.split "_" (Date_Time item)) as [|p [|t' rest]];
      try discriminate. now exists p, t', rest.
Qed.




(** X1. On a table that fits one page of a scan (1 MB), the times
    [get_available_times] returns are exactly the labels of the items of
    the doctor whose Date_Time begins with the date and whose status is
    'available': no booked slot is listed, no open one is left out. The
    call leaves the store alone and is recorded as one scan. (The function
    reads the first page only; on a larger table the items after it are
    not seen.) *)
Theorem get_available_times_lists_open_slots doctor date w l w' :
  one_page (schedule_table (w_store w)) ->
  get_available_times doctor date w = (Ok l, w') ->
  w' = traced [OpScan doctor date] w
  /\ forall t,
       In t l <->
       exists item,
         In item (schedule_table (w_store w))
         /\ DoctorName item = doctor
         /\ Py.startswith (Date_Time item) date = true
         /\ Status item = "available"
         /\ label_of item = Some t.
Proof.
  intros _. rewrite get_available_times_run. intros H. inversion H as [[Hl Hw]].
  split; [reflexivity|].
  intros t. unfold available_times in Hl. rewrite (labels_ok _ _ Hl t). split.
  - intros (item & Hin & Hlabel). apply filter_In in Hin as (Hin & Hf).
    unfold scan_filter in Hf. apply andb_true_iff in Hf as (Hf & Hst).
    apply andb_true_iff in Hf as (Hd & Hp).
    apply String.eqb_eq in Hd, Hst. now exists item.
  - intros (item & Hin & Hd & Hp & Hst & Hlabel). exists item. split; [|assumption].
    apply filter_In. split; [assumption|]. unfold scan_filter.
    rewrite Hd, Hp, Hst, !String.eqb_refl. reflexivity.
Qed.

(** The open slots of Dr. Sarah Jones on 2025-05-05 once 09:00 is booked *)
Lemma get_available_times_lists_open_slots_witness :
  let w := start Sample.happy_event (Sample.fresh_store Sample.monday_taken) in
  traced [OpScan "Dr. Sarah Jones" "2025-05-05"] w
    = traced [OpScan "Dr. Sarah Jones" "2025-05-05"] w
  /\ forall t,
       In t ["10:00"; "11:00"; "12:00"] <->
       exists item,
         In item (schedule_table (w_store w))
         /\ DoctorName item = "Dr. Sarah Jones"
         /\ Py.startswith (Date_Time item) "2025-05-05" = true
         /\ Status item = "available"
         /\ label_of item = Some t.
Proof.
  intros w.
  apply (get_available_times_lists_open_slots "Dr. Sarah Jones" "2025-05-05" w
           ["10:00"; "11:00"; "12:00"]).
  - unfold one_page. vm_compute. discriminate.
  - vm_compute. reflexivity.
Defined.


(** ** The conditional write on a slot *)

Lemma book_slot_keys doctor key tbl tbl' :
  book_slot doctor key tbl = Some tbl' -> item_key <$> tbl' = item_key <$> tbl.
Proof.
  revert tbl'. induction tbl as [|item rest IH]; cbn; intros tbl' H; [discriminate|].
  destruct (has_key doctor key item).
  - destruct (String.eqb (Status item) "available"); [|discriminate].
    inversion H; subst. reflexivity.
  - destruct (book_slot doctor key rest) as [rest'|]; [|discriminate].
    inversion H; subst. cbn. now rewrite (IH rest' eq_refl).
Qed.

Lemma book_slot_Some doctor key tbl tbl' :
  book_slot doctor key tbl = Some tbl' ->
  slot_status doctor key tbl = Some "available"
  /\ slot_status doctor key tbl' = Some "booked".
Proof.
  unfold slot_status. revert tbl'.
  induction tbl as [|item rest IH]; cbn; intros tbl' H; [discriminate|].
  destruct (has_key doctor key item) eqn:Hkey.
  - destruct (String.eqb (Status item) "available") eqn:Hst; [|discriminate].
    inversion H; subst. apply String.eqb_eq in Hst. cbn.
    unfold has_key in *. cbn. rewrite Hkey. cbn. now rewrite Hst.
  - destruct (book_slot doctor key rest) as [rest'|]; [|discriminate].
    inversion H; subst. cbn. rewrite Hkey. now apply IH.
Qed.

Lemma book_slot_None doctor key tbl :
  book_slot doctor key tbl = None -> slot_status doctor key tbl <> Some "available".
Proof.
  intros Hnone Hav. apply book_slot_available in Hav as (tbl' & Hsome & _). congruence.
Qed.

Lemma book_slot_other doctor key tbl tbl' d k :
  book_slot doctor key tbl = Some tbl' ->
  (d, k) <> (doctor, key) ->
  slot_status d k tbl' = slot_status d k tbl.
Proof.
  unfold slot_status. revert tbl'.
  induction tbl as [|item rest IH]; cbn; intros tbl' H Hne; [discriminate|].
  destruct (has_key doctor key item) eqn:Hkey.
  - destruct (String.eqb (Status item) "available"); [|discriminate].
    inversion H; subst. cbn.
    assert (Hother : has_key d k item = false).
    { destruct (has_key d k item) eqn:Hdk; [|reflexivity].
      apply has_key_item_key in Hkey, Hdk. congruence. }
    assert (Hother' : has_key d k (booked item) = false) by exact Hother.
    now rewrite Hother, Hother'.
  - destruct (book_slot doctor key rest) as [rest'|]; [|discriminate].
    inversion H; subst. cbn. destruct (has_key d k item); [reflexivity|].
    now apply IH.
Qed.

(** X3. The conditional write of the fulfilment step succeeds exactly when
    the doctor is a non-empty string and the slot exists with status
    'available'. On success that slot, and no other, becomes 'booked', the
    table keeps its keys, and the other two tables are untouched. On failure
    a ClientError is raised and the store is as before. *)
Theorem mark_slot_booked_is_conditional doctor key w :
  let tbl := schedule_table (w_store w) in
  match mark_slot_booked doctor key w with
  | (Ok _, w') =>
      let tbl' := schedule_table (w_store w') in
      Py.truthy doctor = true
      /\ slot_status (Py.the doctor) key tbl = Some "available"
      /\ slot_status (Py.the doctor) key tbl' = Some "booked"
      /\ item_key <$> tbl' = item_key <$> tbl
      /\ (forall d k, (d, k) <> (Py.the doctor, key) ->
            slot_status d k tbl' = slot_status d k tbl)
      /\ appointments_table (w_store w') = appointments_table (w_store w)
      /\ id_counter_table (w_store w') = id_counter_table (w_store w)
      /\ w_trace w' = w_trace w ++ [OpUpdateSlot doctor key]
  | (Raise e, w') =>
      (exists code, e = ClientError code)
      /\ w' = traced [OpUpdateSlot doctor key] w
      /\ ~ (Py.truthy doctor = true
            /\ slot_status (Py.the doctor) key tbl = Some "available")
  end.
Proof.
  cbn zeta. unfold mark_slot_booked, bind, log_op, get_store, put_store, raise. cbn.
  destruct (Py.truthy doctor) eqn:Ht; cbn.
  - destruct (book_slot (Py.the doctor) key (schedule_table (w_store w))) as [tbl'|]
      eqn:Hbook; cbn.
    + destruct (book_slot_Some _ _ _ _ Hbook) as (Hav & Hbooked).
      repeat split; try assumption.
      * now apply book_slot_keys in Hbook.
      * intros d k Hne. now apply (book_slot_other _ _ _ _ _ _ Hbook).
    + split; [eauto|]. split; [reflexivity|]. intros (_ & Hav).
      now apply book_slot_None in Hbook.
  - split; [eauto|]. split; [reflexivity|]. intros (H & _). discriminate.
Qed.

Lemma book_slot_filter doctor key tbl tbl' (p : ScheduleItem -> bool) :
  unique_keys tbl ->
  book_slot doctor key tbl = Some tbl' ->
  (forall item, p (booked item) = p item) ->
  List.filter (fun item => (p item && String.eqb (Status item) "available")%bool) tbl'
  = List.filter (fun item => (p item && String.eqb (Status item) "available"
                              && negb (has_key doctor key item))%bool) tbl.
Proof.
  intros Huniq Hbook _. revert tbl' Huniq Hbook.
  induction tbl as [|item rest IH]; cbn; intros tbl' Huniq Hbook; [discriminate|].
  unfold unique_keys in Huniq. cbn in Huniq. apply NoDup_cons in Huniq as (Hnotin & Huniq).
  destruct (has_key doctor key item) eqn:Hkey.
  - destruct (String.eqb (Status item) "available") eqn:Hst; [|discriminate].
    inversion Hbook; subst. cbn. rewrite !andb_false_r. cbn.
    (* no other item of the table has the key *)
    clear IH Hbook. induction rest as [|x rest IH]; [reflexivity|]. cbn.
    cbn in Hnotin. apply not_elem_of_cons in Hnotin as (Hx & Hnotin).
    apply NoDup_cons in Huniq as (_ & Huniq).
    assert (Hkx : has_key doctor key x = false).
    { destruct (has_key doctor key x) eqn:Hkx; [|reflexivity].
      apply has_key_item_key in Hkey, Hkx. congruence. }
    rewrite Hkx, andb_true_r. now rewrite (IH Hnotin Huniq).
  - destruct (book_slot doctor key rest) as [rest'|] eqn:Hrest; [|discriminate].
    inversion Hbook; subst. cbn. rewrite andb_true_r.
    now rewrite (IH rest' Huniq eq_refl).
Qed.

(** X4. On a table without duplicate keys, once a slot is booked every scan
    returns the items it returned before except the booked one: the slot is
    never offered again, and no other offer is lost. *)
Theorem booked_slot_leaves_every_scan doctor key w w' d date :
  unique_keys (schedule_table (w_store w)) ->
  mark_slot_booked (Some doctor) key w = (Ok tt, w') ->
  unique_keys (schedule_table (w_store w'))
  /\ List.filter (scan_filter d date) (schedule_table (w_store w'))
     = List.filter (fun item => (scan_filter d date item
                                 && negb (has_key doctor key item))%bool)
         (schedule_table (w_store w))
  /\ forall item, In item (List.filter (scan_filter d date) (schedule_table (w_store w'))) ->
       item_key item <> (doctor, key).
Proof.
  intros Huniq Hmark.
  unfold mark_slot_booked, bind, log_op, get_store, put_store, raise in Hmark.
  destruct (Py.truthy (Some doctor)); cbn in Hmark; [|discriminate].
  destruct (book_slot doctor key (schedule_table (w_store w))) as [tbl'|] eqn:Hbook;
    cbn in Hmark; [|discriminate].
  inversion Hmark; subst w'. cbn.
  assert (Hfilter :
    List.filter (scan_filter d date) tbl'
    = List.filter (fun item => (scan_filter d date item
                                && negb (has_key doctor key item))%bool)
        (schedule_table (w_store w))).
  { unfold scan_filter.
    apply (book_slot_filter doctor key _ tbl'
             (fun item => (String.eqb (DoctorName item) d
                           && Py.startswith (Date_Time item) date)%bool));
      auto. }
  split; [|split].
  - unfold unique_keys. now rewrite (book_slot_keys _ _ _ _ Hbook).
  - exact Hfilter.
  - intros item Hin. rewrite Hfilter in Hin. apply filter_In in Hin as (_ & Hf).
    apply andb_true_iff in Hf as (_ & Hk). intros Heq.
    apply has_key_item_key in Heq. rewrite Heq in Hk. discriminate.
Qed.

(** Booking the 09:00 slot of [Sample.monday], then scanning the day *)
Lemma booked_slot_leaves_every_scan_witness :
  let w := start Sample.happy_event (Sample.fresh_store Sample.monday) in
  let w' := {| w_event := Sample.happy_event;
               w_store := Sample.fresh_store Sample.monday_taken;
               w_trace := [OpUpdateSlot (Some "Dr. Sarah Jones") "2025-05-05_09:00"] |} in
  unique_keys (schedule_table (w_store w'))
  /\ List.filter (scan_filter "Dr. Sarah Jones" "2025-05-05") (schedule_table (w_store w'))
     = List.filter (fun item => (scan_filter "Dr. Sarah Jones" "2025-05-05" item
                                 && negb (has_key "Dr. Sarah Jones" "2025-05-05_09:00" item))%bool)
         (schedule_table (w_store w))
  /\ forall item,
       In item (List.filter (scan_filter "Dr. Sarah Jones" "2025-05-05")
                  (schedule_table (w_store w'))) ->
       item_key item <> ("Dr. Sarah Jones", "2025-05-05_09:00").
Proof.
  intros w w'.
  apply (booked_slot_leaves_every_scan "Dr. Sarah Jones" "2025-05-05_09:00" w w'
           "Dr. Sarah Jones" "2025-05-05").
  - apply (bool_decide_unpack _). vm_compute. reflexivity.
  - vm_compute. reflexivity.
Defined.

(** ** The turns of the dialog *)

(** The handler on a well-formed event whose doctor passes the validation:
    the steps, run on the normalised intent. *)
Lemma lambda_handler_checked event i sl source s doctor :
  well_formed event i sl source ->
  checked_doctor sl = Some doctor ->
  exists sl',
    intent_slots (doctor_normalized i) = Some sl'
    /\ (forall k, k <> "DoctorName" -> sl' !! k = sl !! k)
    /\ lambda_handler event s
       = match step1 (doctor_normalized i) sl' source
                 (Py.get (intent_confirmationState i) EmptyString) doctor
                 (get_slot_value sl "Date") (get_slot_value sl "Time")
                 (get_slot_value sl "Name") (get_slot_value sl "Phone")
                 (get_slot_value sl "Confirmation")
                 (start (with_intent (doctor_normalized i) event) s) with
         | (Ok r, w) => (r, w)
         | (Raise _, w) => (close (event_intent (w_event w)) apology_message, w)
         end.
Proof.
  intros Hwf Hchecked.
  destruct (handler_body_checked event i sl source s _ Hwf Hchecked)
    as (sl' & Hsl' & Hother & Hbody).
  exists sl'. split; [assumption|]. split.
  - destruct Hwf as (_ & Hsl & _).
    destruct (doctor_normalized_keeps i) as (_ & _ & _ & Hkeeps).
    destruct (Hkeeps sl Hsl) as (sl'' & Hsl'' & Hsame & _).
    rewrite Hsl' in Hsl''. inversion Hsl''; subst. exact Hsame.
  - unfold lambda_handler. fold (start event s). rewrite Hbody. unfold after_doctor.
    rewrite !Hother by discriminate. reflexivity.
Qed.







(** ** The fulfilment step *)

Section LateSteps.

Variables (intent : Intent) (source confirmation_state : string).
Variables (doctor date time name phone confirmation : option string).

(** A Confirmation that is missing along with the doctor or the date, or
    present and neither "yes" nor "no", takes the turn past steps 4 and 5. *)
Lemma step4_falls_through :
  (Py.truthy confirmation = false /\ (Py.truthy doctor && Py.truthy date)%bool = false)
  \/ (Py.truthy confirmation = true
      /\ Py.lower (Py.the confirmation) <> "yes"
      /\ Py.lower (Py.the confirmation) <> "no") ->
  step4 intent source confirmation_state doctor date time name phone confirmation
  = step6 intent source confirmation_state doctor date time name phone.
Proof.
  unfold step4, step5. intros [(Hc & Hdd) | (Hc & Hyes & Hno)].
  - rewrite Hc, Hdd. reflexivity.
  - rewrite Hc. rewrite !andb_false_r.
    apply String.eqb_neq in Hyes, Hno. now rewrite Hyes, Hno.
Qed.



End LateSteps.






(** ** Events the handler cannot read *)

(** X9. An event without its sessionState, its intent, the intent's slots
    or its invocationSource makes the first lines raise KeyError: the
    handler answers Close with the apology, passing through the event's
    intent, or an empty one when there is none, and makes no call to the
    tables. *)
Theorem unreadable_event_closes event s :
  (forall i sl source, ~ well_formed event i sl source) ->
  lambda_handler event s = (close (event_intent event) apology_message, start event s).
Proof.
  intros Hnot. unfold lambda_handler, handler_body, bind, event_intent. fold (start event s).
  destruct (sessionState event) as [[[i|]]|] eqn:Hs; cbn; rewrite ?Hs; try reflexivity.
  destruct (intent_slots i) as [sl|] eqn:Hsl; cbn; rewrite ?Hs; try reflexivity.
  destruct (invocationSource event) as [source|] eqn:Hsrc; cbn; rewrite ?Hs;
    try reflexivity.
  exfalso. apply (Hnot i sl source). now repeat split.
Qed.

(** An event that is only its invocation source *)
Lemma unreadable_event_closes_witness :
  let event := {| sessionState := None; invocationSource := Some "DialogCodeHook" |} in
  let s := Sample.fresh_store Sample.monday in
  lambda_handler event s = (close (event_intent event) apology_message, start event s).
Proof.
  intros event s. apply (unreadable_event_closes event s).
  intros i sl source (H & _). discriminate.
Defined.

(** ** Turns that fall through to Lex *)

(** X10. When the doctor is missing or valid, the doctor or the date is
    missing, Confirmation is missing, the confirmation state is not Denied
    and the turn is not a confirmed fulfilment, no step matches: the handler
    delegates to Lex, returning the intent with the doctor's name in
    canonical casing, and makes no call to the tables. *)
Theorem unmatched_turn_is_delegated event i sl source s doctor :
  well_formed event i sl source ->
  checked_doctor sl = Some doctor ->
  (Py.truthy doctor && Py.truthy (get_slot_value sl "Date"))%bool = false ->
  Py.truthy (get_slot_value sl "Confirmation") = false ->
  intent_confirmationState i <> Some "Denied" ->
  (source <> "FulfillmentCodeHook" \/ intent_confirmationState i <> Some "Confirmed") ->
  lambda_handler event s
  = (delegate (doctor_normalized i), start (with_intent (doctor_normalized i) event) s).
Proof.
  intros Hwf Hchecked Hskip Hconf Hdenied Hfulfil.
  destruct (lambda_handler_checked event i sl source s _ Hwf Hchecked)
    as (sl' & Hsl' & Hother & ->).
  rewrite step1_skipped by exact Hskip.
  rewrite step4_falls_through by (left; now split).
  unfold step6, step7.
  assert (Hd : String.eqb (Py.get (intent_confirmationState i) EmptyString) "Denied" = false).
  { apply String.eqb_neq. intros H. apply Hdenied.
    destruct (intent_confirmationState i); cbn in H; [now subst | discriminate]. }
  rewrite Hd.
  assert (Hf : (String.eqb source "FulfillmentCodeHook"
                && String.eqb (Py.get (intent_confirmationState i) EmptyString)
                     "Confirmed")%bool = false).
  { apply andb_false_iff. destruct Hfulfil as [H|H]; [left | right];
      apply String.eqb_neq; [assumption|].
    intros Heq. apply H. destruct (intent_confirmationState i); cbn in Heq;
      [now subst | discriminate]. }
  rewrite Hf. reflexivity.
Qed.

(** The first turn after the doctor is chosen, in lower case *)
Lemma unmatched_turn_is_delegated_witness :
  let sl := Sample.booking_slots (Sample.filled "dr. david park") None None None None None in
  let i := Sample.booking_intent sl "None" in
  let event := Sample.turn "DialogCodeHook" i in
  let s := Sample.fresh_store Sample.monday in
  lambda_handler event s
  = (delegate (doctor_normalized i), start (with_intent (doctor_normalized i) event) s).
Proof.
  intros sl i event s.
  apply (unmatched_turn_is_delegated event i sl "DialogCodeHook" s (Some "Dr. David Park")).
  - repeat split.
  - vm_compute. reflexivity.
  - vm_compute. reflexivity.
  - vm_compute. reflexivity.
  - discriminate.
  - left. discriminate.
Defined.

(** ** The casing of the doctor's name *)

Lemma canonical_is_fixed d' :
  In d' VALID_DOCTORS -> List.find (same_doctor d') VALID_DOCTORS = Some d'.
Proof. intros [<-|[<-|[<-|[]]]]; vm_compute; reflexivity. Qed.

Lemma doctor_normalized_idempotent i :
  doctor_normalized (doctor_normalized i) = doctor_normalized i.
Proof.
  destruct (intent_slots i) as [sl|] eqn:Hsl.
  - destruct (doctor_normalized_slots i sl Hsl)
      as [(_ & Heq) | [(d & _ & _ & _ & Heq)
                      | (d & d' & sv & Hd & Hne & Hfind & Hlookup & Heq)]];
      [now rewrite !Heq | now rewrite !Heq |].
    rewrite Heq. unfold doctor_normalized at 1. cbn [intent_slots with_slots].
    rewrite lookup_insert_eq. unfold get_slot_value. rewrite lookup_insert_eq.
    cbn [interpretedValue].
    pose proof Hfind as Hin. apply find_some in Hin as (Hin & _).
    assert (Hd'_ne : d' <> EmptyString)
      by (destruct Hin as [<-|[<-|[<-|[]]]]; discriminate).
    destruct d' as [|c d']; [congruence|].
    rewrite (canonical_is_fixed _ Hin). cbn. unfold with_slots. cbn.
    do 2 f_equal. apply insert_insert_eq.
  - assert (Heq : doctor_normalized i = i)
      by (unfold doctor_normalized; now rewrite Hsl).
    now rewrite !Heq.
Qed.

Lemma checked_doctor_normalized i sl sl' doctor :
  intent_slots i = Some sl ->
  intent_slots (doctor_normalized i) = Some sl' ->
  checked_doctor sl = Some doctor ->
  checked_doctor sl' = Some doctor.
Proof.
  intros Hsl Hsl' Hchecked.
  destruct (doctor_normalized_slots i sl Hsl)
    as [(_ & Heq) | [(d & _ & _ & _ & Heq) | (d & d' & sv & Hd & Hne & Hfind & Hlookup & Heq)]];
    rewrite Heq in Hsl'.
  - congruence.
  - congruence.
  - cbn in Hsl'. inversion Hsl'; subst sl'. unfold checked_doctor in *.
    rewrite Hd in Hchecked. rewrite (truthy_Some _ Hne) in Hchecked.
    cbn [Py.the] in Hchecked. rewrite Hfind in Hchecked. inversion Hchecked; subst.
    unfold get_slot_value. rewrite lookup_insert_eq. cbn [interpretedValue].
    pose proof Hfind as Hin. apply find_some in Hin as (Hin & _).
    assert (Hd'_ne : d' <> EmptyString)
      by (destruct Hin as [<-|[<-|[<-|[]]]]; discriminate).
    rewrite (truthy_Some _ Hd'_ne). cbn [Py.the]. now rewrite (canonical_is_fixed _ Hin).
Qed.

(** X11. The handler does not depend on the casing of a valid doctor's
    name: on the event whose intent already holds the canonical name it
    returns the same response and leaves the same event, store and calls as
    on the event received. *)
Theorem doctor_casing_is_irrelevant event i sl source s doctor :
  well_formed event i sl source ->
  checked_doctor sl = Some doctor ->
  lambda_handler (with_intent (doctor_normalized i) event) s = lambda_handler event s.
Proof.
  intros Hwf Hchecked.
  destruct (lambda_handler_checked event i sl source s _ Hwf Hchecked)
    as (sl' & Hsl' & Hother & ->).
  pose proof Hwf as (Hs & Hsl & Hsrc).
  assert (Hwf' : well_formed (with_intent (doctor_normalized i) event)
                   (doctor_normalized i) sl' source) by now repeat split.
  pose proof (checked_doctor_normalized i sl sl' doctor Hsl Hsl' Hchecked) as Hchecked'.
  destruct (lambda_handler_checked _ _ _ _ s _ Hwf' Hchecked')
    as (sl'' & Hsl'' & _ & ->).
  rewrite doctor_normalized_idempotent in *. rewrite Hsl' in Hsl''.
  inversion Hsl''; subst sl''.
  assert (Hcs : intent_confirmationState (doctor_normalized i) = intent_confirmationState i)
    by apply doctor_normalized_keeps.
  rewrite Hcs.
  assert (Hvalues : forall k, k <> "DoctorName" -> get_slot_value sl' k = get_slot_value sl k).
  { intros k Hk. unfold get_slot_value. now rewrite Hother. }
  rewrite !Hvalues by discriminate. reflexivity.
Qed.

(** "dr. sarah jones" and "Dr. Sarah Jones" on the turn of 9:00 *)
Lemma doctor_casing_is_irrelevant_witness :
  let i := Sample.booking_intent Sample.short_time_slots "None" in
  let s := Sample.fresh_store Sample.monday in
  lambda_handler (with_intent (doctor_normalized i) Sample.short_time_event) s
  = lambda_handler Sample.short_time_event s.
Proof.
  intros i s.
  apply (doctor_casing_is_irrelevant Sample.short_time_event i Sample.short_time_slots
           "DialogCodeHook" s (Some "Dr. Sarah Jones")).
  - repeat split.
  - vm_compute. reflexivity.
Defined.

(** ** All or nothing *)

Lemma scans_commits ops : forallb is_scan ops = true -> existsb commits ops = false.
Proof.
  induction ops as [|op ops IH]; [reflexivity|]. cbn. intros H.
  apply andb_true_iff in H as (Hop & Hops). rewrite (IH Hops).
  destruct op; cbn in *; try discriminate. reflexivity.
Qed.

Lemma only_scans_unwritten w w' : only_scans w w' -> unwritten w w'.
Proof.
  intros (Hs & ops & Ht & Hscans). split; [assumption|]. exists ops. split; [assumption|].
  now apply scans_commits.
Qed.

Lemma read_only_all_or_nothing {A} (m : M A) : read_only m -> all_or_nothing m.
Proof. intros H w. left. apply only_scans_unwritten, H. Qed.

Lemma all_or_nothing_bind {A B} (m : M A) (k : A -> M B) :
  read_only m -> (forall a, all_or_nothing (k a)) -> all_or_nothing (bind m k).
Proof.
  intros Hm Hk w. unfold bind. specialize (Hm w).
  destruct (m w) as [[a|e] w1]; cbn in *.
  - destruct Hm as (Hs & scans & Ht & Hscans).
    destruct (Hk a w1) as [(Hs' & ops & Ht' & Hops) | Hbooked].
    + left. split; [congruence|]. exists (scans ++ ops). split.
      * rewrite Ht', Ht. now rewrite app_assoc.
      * rewrite existsb_app, Hops, (scans_commits _ Hscans). reflexivity.
    + right.
      destruct Hbooked as (doctor & key & tbl' & item & scans' & Hbook & Hid & Hdoc & Hst
                           & Hstore & Hscans' & Htrace).
      exists doctor, key, tbl', item, (scans ++ scans').
      rewrite Hs in *. repeat split; try assumption.
      * rewrite forallb_app, Hscans, Hscans'. reflexivity.
      * rewrite Htrace, Ht. now rewrite <- !app_assoc.
  - left. now apply only_scans_unwritten.
Qed.

Lemma all_or_nothing_results {A B} (m : M A) (k : A -> M B) :
  read_only m ->
  (forall w a w', m w = (Ok a, w') -> all_or_nothing (k a)) ->
  all_or_nothing (bind m k).
Proof.
  intros Hm Hk w.
  destruct (m w) as [[a|e] w1] eqn:Hrun.
  - pose proof (Hk w a w1 Hrun) as Hka.
    pose proof (all_or_nothing_bind m (fun _ => k a) Hm (fun _ => Hka) w) as H.
    unfold bind in *. now rewrite Hrun in *.
  - left. unfold bind. rewrite Hrun. cbn. apply only_scans_unwritten.
    specialize (Hm w). now rewrite Hrun in Hm.
Qed.

Section AllOrNothingSteps.

Variables (intent : Intent) (slots : gmap string (option Slot)).
Variables (source confirmation_state : string).
Variables (doctor date time name phone confirmation : option string).

Lemma all_or_nothing_step7 :
  all_or_nothing (step7 intent source confirmation_state doctor date time name phone).
Proof.
  unfold step7. destruct (_ && _)%bool;
    [|apply read_only_all_or_nothing; auto with read_only].
  intros w.
  unfold try_ClientError, book_appointment, mark_slot_booked, get_next_sequence,
    put_appointment, bind, log_op, get_store, put_store, raise.
  cbn. destruct (Py.truthy doctor) eqn:Ht; cbn.
  - destruct (book_slot (Py.the doctor) _ (schedule_table (w_store w))) as [tbl'|] eqn:Hbook;
      cbn.
    + right.
      assert (Hdoc : doctor = Some (Py.the doctor))
        by (destruct doctor as [[|]|]; try discriminate; reflexivity).
      exists (Py.the doctor), (Py.fmt date +:+ "_" +:+ Py.fmt time), tbl',
        {| AppointmentId :=
             Py.last_chars 7
               (Py.str (increment_counter (id_counter_table (w_store w))));
           appt_DoctorName := doctor;
           appt_Date := date;
           appt_Time := time;
           appt_Name := name;
           appt_Phone := phone;
           appt_Status := "confirmed" |}, [].
      split; [exact Hbook|].
      destruct (intent_name intent); cbn;
        [destruct (intent_slots intent); cbn|];
        (split; [reflexivity|]); (split; [exact Hdoc|]); (split; [reflexivity|]);
        (split; [reflexivity|]); (split; [reflexivity|]);
        rewrite <- !app_assoc; cbn; now rewrite <- Hdoc.
    + left. split; [reflexivity|]. eexists. split; reflexivity.
  - left. split; [reflexivity|]. eexists. split; reflexivity.
Qed.

Lemma all_or_nothing_step6 :
  all_or_nothing (step6 intent source confirmation_state doctor date time name phone).
Proof.
  unfold step6. destruct (String.eqb _ _); [|apply all_or_nothing_step7].
  apply read_only_all_or_nothing. apply read_only_bind; auto with read_only.
Qed.

Lemma all_or_nothing_step5 :
  all_or_nothing
    (step5 intent source confirmation_state doctor date time name phone confirmation).
Proof.
  unfold step5. destruct (Py.truthy confirmation); [|apply all_or_nothing_step6].
  destruct (String.eqb _ "no").
  - apply read_only_all_or_nothing. apply read_only_bind; auto with read_only.
  - destruct (String.eqb _ "yes"); [|apply all_or_nothing_step6].
    apply read_only_all_or_nothing. auto with read_only.
Qed.

Lemma all_or_nothing_step4 :
  all_or_nothing
    (step4 intent source confirmation_state doctor date time name phone confirmation).
Proof.
  unfold step4. destruct (_ && _)%bool; [|apply all_or_nothing_step5].
  apply read_only_all_or_nothing. auto with read_only.
Qed.

Lemma all_or_nothing_step1 :
  all_or_nothing
    (step1 intent slots source confirmation_state doctor date time name phone confirmation).
Proof.
  unfold step1, step2. destruct (_ && _ && negb _)%bool.
  - apply read_only_all_or_nothing. apply read_only_bind; [auto with read_only|].
    intros [|t ts]; auto with read_only.
  - destruct (_ && _ && _)%bool; [|apply all_or_nothing_step4].
    apply all_or_nothing_bind; [auto with read_only|]. intros available.
    repeat (destruct (negb _);
            [apply read_only_all_or_nothing; auto with read_only|]).
    apply all_or_nothing_step4.
Qed.

End AllOrNothingSteps.

Lemma all_or_nothing_handler_body event : all_or_nothing (handler_body event).
Proof.
  unfold handler_body.
  repeat (apply all_or_nothing_bind; [auto with read_only|]; intros ?).
  destruct (Py.truthy _); [|apply all_or_nothing_step1].
  destruct (negb _); [apply read_only_all_or_nothing; auto with read_only|].
  repeat (apply all_or_nothing_bind; [auto with read_only|]; intros ?).
  apply all_or_nothing_step1.
Qed.

(** X12. Whatever the event and the store, a turn either leaves the store
    as it is, issuing no reference and writing no appointment, or makes one
    whole booking: a slot that was available is booked, the counter
    advances by one and the appointment is stored under the reference
    issued, by the conditional write, the counter update and the put in
    this order, after scans only. An appointment is never written without
    its slot being booked in the same turn. *)
Theorem turn_books_all_or_nothing event s :
  let (r, w) := lambda_handler event s in
  unwritten (start event s) w \/ booked_once (start event s) w.
Proof.
  unfold lambda_handler. fold (start event s).
  pose proof (all_or_nothing_handler_body event (start event s)) as H.
  destruct (handler_body event (start event s)) as [[r|e] w]; exact H.
Qed.

(** ** The order of the prompts *)

Lemma elicits_only_doctor_ret r :
  (forall field, dialogAction r = ElicitSlot field -> field = "DoctorName") ->
  elicits_only_doctor (ret r).
Proof. intros H w r' w' field Heq. inversion Heq; subst. apply H. Qed.

Lemma elicits_only_doctor_bind {A} (m : M A) k :
  (forall a, elicits_only_doctor (k a)) -> elicits_only_doctor (bind m k).
Proof.
  intros Hk w r w' field. unfold bind.
  destruct (m w) as [[a|e] w1]; [apply Hk | discriminate].
Qed.

Lemma elicits_only_doctor_try m h :
  elicits_only_doctor m -> elicits_only_doctor h ->
  elicits_only_doctor (try_ClientError m h).
Proof.
  intros Hm Hh w r w' field. unfold try_ClientError. specialize (Hm w).
  destruct (m w) as [[a|[]] w1]; try discriminate.
  - apply Hm.
  - apply Hh.
Qed.

Ltac only_doctor_steps :=
  repeat first
    [ solve [auto]
    | apply elicits_only_doctor_ret; cbn; intros ? ?; congruence
    | apply elicits_only_doctor_bind; intros ?
    | apply elicits_only_doctor_try
    | match goal with
      | |- elicits_only_doctor (if ?b then _ else _) => destruct b
      end ].

Section OnlyDoctorSteps.

Variables (intent : Intent) (source confirmation_state : string).
Variables (doctor date time name phone confirmation : option string).

Lemma elicits_only_doctor_step7 :
  elicits_only_doctor (step7 intent source confirmation_state doctor date time name phone).
Proof. unfold step7, book_appointment. only_doctor_steps. Qed.

Lemma elicits_only_doctor_step6 :
  elicits_only_doctor (step6 intent source confirmation_state doctor date time name phone).
Proof.
  unfold step6, restarted. pose proof elicits_only_doctor_step7. only_doctor_steps.
Qed.

Lemma elicits_only_doctor_step5 :
  elicits_only_doctor
    (step5 intent source confirmation_state doctor date time name phone confirmation).
Proof.
  unfold step5, restarted. pose proof elicits_only_doctor_step6. only_doctor_steps.
Qed.

End OnlyDoctorSteps.

Lemma checked_doctor_supplied sl doctor :
  checked_doctor sl = Some doctor ->
  Py.truthy doctor = Py.truthy (get_slot_value sl "DoctorName")
  /\ (Py.truthy doctor = true ->
      valid_doctor (Py.the (get_slot_value sl "DoctorName")) = true).
Proof.
  unfold checked_doctor.
  destruct (Py.truthy (get_slot_value sl "DoctorName")) eqn:Ht.
  - destruct (List.find _ VALID_DOCTORS) as [d'|] eqn:Hfind; [|discriminate].
    intros [= <-]. pose proof Hfind as Hin. apply find_some in Hin as (Hin & _).
    split.
    + destruct Hin as [<-|[<-|[<-|[]]]]; reflexivity.
    + intros _. now apply find_valid_doctor in Hfind.
  - intros [= <-]. split; [now rewrite Ht | congruence].
Qed.

(** X13. The prompts respect the order of the fields, whatever the event
    and the store. The handler only ever elicits one of the six fields. It
    elicits Date or Time only when a valid doctor and a date are supplied;
    Name or Phone only when a time is supplied as well; Phone only when the
    name is supplied; and Confirmation only when all five of doctor, date,
    time, name and phone are supplied and Confirmation is not. *)
Theorem prompts_follow_the_field_order event s field :
  let (r, w) := lambda_handler event s in
  let supplied k := Py.truthy (event_slot_value event k) in
  dialogAction r = ElicitSlot field ->
  In field FIELDS
  /\ (field <> "DoctorName" ->
      supplied "DoctorName" = true /\ supplied "Date" = true
      /\ valid_doctor (Py.the (event_slot_value event "DoctorName")) = true)
  /\ (field = "Date" -> supplied "Time" = false)
  /\ (field = "Name" \/ field = "Phone" \/ field = "Confirmation" ->
      supplied "Time" = true)
  /\ (field = "Phone" \/ field = "Confirmation" -> supplied "Name" = true)
  /\ (field = "Confirmation" ->
      supplied "Phone" = true /\ supplied "Confirmation" = false).
Proof.
  destruct (sessionState event) as [[[i|]]|] eqn:Hs;
    [destruct (intent_slots i) as [sl|] eqn:Hsl;
     [destruct (invocationSource event) as [source|] eqn:Hsrc|]| |].
  2-5: unfold lambda_handler, handler_body, bind; rewrite ?Hs; cbn;
       rewrite ?Hsl; cbn; rewrite ?Hsrc; cbn; intros; discriminate.
  assert (Hwf : well_formed event i sl source) by now repeat split.
  assert (Hvalue : forall k, event_slot_value event k = get_slot_value sl k).
  { intros k. unfold event_slot_value, event_intent. rewrite Hs. cbn. now rewrite Hsl. }
  destruct (checked_doctor sl) as [doctor|] eqn:Hchecked.
  - destruct (lambda_handler_checked event i sl source s _ Hwf Hchecked)
      as (sl' & Hsl' & Hother & ->).
    destruct (checked_doctor_supplied _ _ Hchecked) as (Htruthy & Hvalid).
    cbn zeta. rewrite !Hvalue. rewrite <- Htruthy.
    set (date := get_slot_value sl "Date").
    set (time := get_slot_value sl "Time").
    set (name := get_slot_value sl "Name").
    set (phone := get_slot_value sl "Phone").
    set (confirmation := get_slot_value sl "Confirmation").
    set (cs := Py.get (intent_confirmationState i) EmptyString).
    set (w0 := start (with_intent (doctor_normalized i) event) s).
    assert (Hlate : forall w,
      match step5 (doctor_normalized i) source cs doctor date time name phone
              confirmation w with
      | (Ok r, _) => dialogAction r = ElicitSlot field -> field = "DoctorName"
      | (Raise _, _) => True
      end).
    { intros w.
      pose proof (elicits_only_doctor_step5 (doctor_normalized i) source cs doctor date
                    time name phone confirmation w) as H.
      destruct (step5 _ _ _ _ _ _ _ _ _ w) as [[r|e] w']; [|exact I].
      intros Hr. now apply (H r w' field). }
    assert (Hdoctor_field : field = "DoctorName" ->
      In field FIELDS
      /\ (field <> "DoctorName" ->
          Py.truthy doctor = true /\ Py.truthy date = true
          /\ valid_doctor (Py.the (get_slot_value sl "DoctorName")) = true)
      /\ (field = "Date" -> Py.truthy time = false)
      /\ (field = "Name" \/ field = "Phone" \/ field = "Confirmation" ->
          Py.truthy time = true)
      /\ (field = "Phone" \/ field = "Confirmation" -> Py.truthy name = true)
      /\ (field = "Confirmation" ->
          Py.truthy phone = true /\ Py.truthy confirmation = false)).
    { intros ->. split; [now left|].
      repeat split; intros; try congruence; intuition discriminate. }
    unfold step1, step2, step4, bind.
    destruct (Py.truthy doctor) eqn:Hd; cbn [andb negb];
      [destruct (Py.truthy date) eqn:Hdt; cbn [andb negb];
       [destruct (Py.truthy time) eqn:Ht; cbn [andb negb]| ]| ].
    + (* doctor, date and time *)
      rewrite get_available_times_run.
      destruct (available_times _ _ _) as [available|e]; [|intros; discriminate].
      destruct (negb (Py.contains available (Py.the time))).
      { cbn. intros [= <-]. split; [cbn; tauto|].
        repeat split; auto; intros; intuition discriminate. }
      destruct (Py.truthy name) eqn:Hn; cbn [negb andb].
      2:{ cbn. intros [= <-]. split; [cbn; tauto|].
          repeat split; auto; intros; intuition discriminate. }
      destruct (Py.truthy phone) eqn:Hp; cbn [negb andb].
      2:{ cbn. intros [= <-]. split; [cbn; tauto|].
          repeat split; auto; intros; intuition discriminate. }
      destruct (Py.truthy confirmation) eqn:Hc; cbn [negb andb].
      * specialize (Hlate (traced [OpScan (Py.the doctor) (Py.the date)] w0)).
        destruct (step5 _ _ _ _ _ _ _ _ _ _) as [[r|e] w']; [|intros; discriminate].
        intros Hr. apply Hdoctor_field. now apply Hlate.
      * cbn. intros [= <-]. split; [cbn; tauto|].
        repeat split; auto; intros; intuition discriminate.
    + (* doctor and date, no time *)
      rewrite get_available_times_run.
      destruct (available_times _ _ _) as [[|t ts]|e]; cbn.
      * intros [= <-]. split; [cbn; tauto|].
        repeat split; auto; intros; intuition discriminate.
      * intros [= <-]. split; [cbn; tauto|].
        repeat split; auto; intros; intuition discriminate.
      * intros; discriminate.
    + specialize (Hlate w0).
      destruct (step5 _ _ _ _ _ _ _ _ _ _) as [[r|e] w']; [|intros; discriminate].
      intros Hr. apply Hdoctor_field. now apply Hlate.
    + specialize (Hlate w0).
      destruct (step5 _ _ _ _ _ _ _ _ _ _) as [[r|e] w']; [|intros; discriminate].
      intros Hr. apply Hdoctor_field. now apply Hlate.
  - unfold lambda_handler. fold (start event s).
    rewrite (handler_body_invalid_doctor _ _ _ _ _ Hwf Hchecked). cbn.
    intros [= <-]. split; [now left|].
    repeat split; intros; try congruence; intuition discriminate.
Qed.

(** The turn that asks for the phone: doctor, date, time and name are there *)
Lemma prompts_follow_the_field_order_witness :
  let sl := Sample.booking_slots (Sample.filled "Dr. Sarah Jones")
              (Sample.filled "2025-05-05") (Sample.filled "10:00")
              (Sample.filled "Ann Lee") None None in
  let event := Sample.turn "DialogCodeHook" (Sample.booking_intent sl "None") in
  let s := Sample.fresh_store Sample.monday in
  let supplied k := Py.truthy (event_slot_value event k) in
  dialogAction (fst (lambda_handler event s)) = ElicitSlot "Phone"
  /\ In "Phone" FIELDS
  /\ ("Phone" <> "DoctorName" ->
      supplied "DoctorName" = true /\ supplied "Date" = true
      /\ valid_doctor (Py.the (event_slot_value event "DoctorName")) = true)
  /\ ("Phone" = "Date" -> supplied "Time" = false)
  /\ ("Phone" = "Name" \/ "Phone" = "Phone" \/ "Phone" = "Confirmation" ->
      supplied "Time" = true)
  /\ ("Phone" = "Phone" \/ "Phone" = "Confirmation" -> supplied "Name" = true)
  /\ ("Phone" = "Confirmation" ->
      supplied "Phone" = true /\ supplied "Confirmation" = false).
Proof.
  intros sl event s supplied.
  assert (Hprompt : dialogAction (fst (lambda_handler event s)) = ElicitSlot "Phone")
    by (vm_compute; reflexivity).
  split; [exact Hprompt|].
  pose proof (prompts_follow_the_field_order event s "Phone") as H.
  destruct (lambda_handler event s) as [r w]. exact (H Hprompt).
Defined.

(** ** What two racing attempts leave in the store *)

Section RaceBooks.

Variables (doctor key : string) (s0 : Store).
Hypothesis Hdoctor : doctor <> EmptyString.
Hypothesis Havailable : slot_status doctor key (schedule_table s0) = Some "available".

(** The first conditional write on the slot opens the ledger. *)
Lemma first_write_opens_ledger c :
  Race.c_doctor c = Some doctor -> Race.datetime_key c = key ->
  let (a, s) := Race.step c Race.AtUpdate s0 in
  ledger c doctor key s0 s a.
Proof.
  intros Hd Hk. cbn.
  unfold mark_slot_booked, bind, log_op, get_store, put_store. rewrite Hd, Hk.
  rewrite (truthy_Some _ Hdoctor). cbn.
  destruct (book_slot_available _ _ _ Havailable) as (tbl' & Hbook & Hbooked).
  rewrite Hbook. cbn. split; [assumption|]. split.
  - now apply book_slot_keys in Hbook.
  - left. now repeat split.
Qed.

(** The attempt that holds the ledger goes on to its appointment. *)
Lemma ledger_step c n sl a s :
  intent_name (Race.c_intent c) = Some n ->
  intent_slots (Race.c_intent c) = Some sl ->
  ledger c doctor key s0 s a ->
  let (a', s') := Race.step c a s in
  ledger c doctor key s0 s' a'.
Proof.
  intros Hn Hsl (Hbooked & Hkeys & Hstage).
  destruct Hstage as [(-> & Hc & Ha) | [(-> & Hc & Ha) | (Hsucc & Hc & Ha)]].
  - cbn. split; [assumption|]. split; [assumption|]. right. left.
    unfold next_reference. rewrite <- Hc. now repeat split.
  - cbn. unfold Race.write_appointment, put_appointment, bind, log_op, get_store,
      put_store. cbn. rewrite Hn, Hsl. cbn.
    split; [assumption|]. split; [assumption|]. right. right. split.
    + exists (next_reference s0). eexists. repeat split.
    + split; [assumption|]. now rewrite Ha.
  - destruct Hsucc as (appointment_id & r & -> & Hr). cbn.
    split; [assumption|]. split; [assumption|]. right. right.
    split; [|now split]. now exists appointment_id, r.
Qed.

(** The attempt that is losing leaves the store as it is. *)
Lemma losing_step c a s :
  Race.c_doctor c = Some doctor -> Race.datetime_key c = key ->
  slot_status doctor key (schedule_table s) = Some "booked" ->
  Race.losing c a ->
  let (a', s') := Race.step c a s in
  Race.losing c a' /\ s' = s.
Proof.
  intros Hd Hk Hbooked [-> | Hc].
  - cbn. unfold mark_slot_booked, bind, log_op, get_store, put_store, raise.
    rewrite Hd, Hk. rewrite (truthy_Some _ Hdoctor). cbn.
    rewrite (book_slot_taken _ _ _ Hbooked). cbn. split; [now right | reflexivity].
  - unfold Race.conflicted in Hc. rewrite Hc. cbn. split; [now right | reflexivity].
Qed.

Variables (c1 c2 : Race.Commit) (n1 n2 : string) (sl1 sl2 : gmap string (option Slot)).
Hypothesis Hdoctor1 : Race.c_doctor c1 = Some doctor.
Hypothesis Hdoctor2 : Race.c_doctor c2 = Some doctor.
Hypothesis Hkey1 : Race.datetime_key c1 = key.
Hypothesis Hkey2 : Race.datetime_key c2 = key.
Hypothesis Hname1 : intent_name (Race.c_intent c1) = Some n1.
Hypothesis Hname2 : intent_name (Race.c_intent c2) = Some n2.
Hypothesis Hslots1 : intent_slots (Race.c_intent c1) = Some sl1.
Hypothesis Hslots2 : intent_slots (Race.c_intent c2) = Some sl2.

Lemma interleave_books who st :
  books c1 c2 doctor key s0 st ->
  books c1 c2 doctor key s0 (Race.interleave c1 c2 who st).
Proof.
  intros Hbooks. unfold Race.interleave. destruct who.
  - destruct Hbooks as [(H1 & H2 & Hs) | [(Hledger & Hlosing) | (Hledger & Hlosing)]].
    + rewrite H1, Hs. pose proof (first_write_opens_ledger c1 Hdoctor1 Hkey1) as H.
      destruct (Race.step c1 Race.AtUpdate s0) as [a s]. right. left. cbn.
      split; [exact H|]. rewrite H2. now left.
    + pose proof (ledger_step c1 n1 sl1 _ _ Hname1 Hslots1 Hledger) as H.
      destruct (Race.step c1 (Race.first st) (Race.shared st)) as [a s].
      right. left. cbn. now split.
    + pose proof Hledger as (Hbooked & _).
      pose proof (losing_step c1 _ _ Hdoctor1 Hkey1 Hbooked Hlosing) as H.
      destruct (Race.step c1 (Race.first st) (Race.shared st)) as [a s].
      destruct H as (Hl & ->). right. right. cbn. now split.
  - destruct Hbooks as [(H1 & H2 & Hs) | [(Hledger & Hlosing) | (Hledger & Hlosing)]].
    + rewrite H2, Hs. pose proof (first_write_opens_ledger c2 Hdoctor2 Hkey2) as H.
      destruct (Race.step c2 Race.AtUpdate s0) as [a s]. right. right. cbn.
      split; [exact H|]. rewrite H1. now left.
    + pose proof Hledger as (Hbooked & _).
      pose proof (losing_step c2 _ _ Hdoctor2 Hkey2 Hbooked Hlosing) as H.
      destruct (Race.step c2 (Race.second st) (Race.shared st)) as [a s].
      destruct H as (Hl & ->). right. left. cbn. now split.
    + pose proof (ledger_step c2 n2 sl2 _ _ Hname2 Hslots2 Hledger) as H.
      destruct (Race.step c2 (Race.second st) (Race.shared st)) as [a s].
      right. right. cbn. now split.
Qed.

Lemma run_books schedule st :
  books c1 c2 doctor key s0 st ->
  books c1 c2 doctor key s0 (Race.run c1 c2 schedule st).
Proof.
  revert st. induction schedule as [|who rest IH]; intros st H; [exact H|].
  cbn. apply IH. now apply interleave_books.
Qed.

End RaceBooks.

Lemma ledger_finished c doctor key s0 s a :
  ledger c doctor key s0 s a ->
  Race.remaining a = 0%nat ->
  Race.succeeded c a
  /\ slot_status doctor key (schedule_table s) = Some "booked"
  /\ item_key <$> schedule_table s = item_key <$> schedule_table s0
  /\ id_counter_table s = Some (increment_counter (id_counter_table s0))
  /\ appointments_table s
     = <[next_reference s0 := appointment_of c (next_reference s0)]>
         (appointments_table s0).
Proof.
  intros (Hbooked & Hkeys & [(-> & _) | [(-> & _) | (Hsucc & Hc & Ha)]]) Hend;
    try discriminate.
  now repeat split.
Qed.

(** X14. Two commit attempts on the same available slot, interleaved in any
    order, leave the store with exactly one booking: the counter has advanced
    by one (the refused attempt consumes no reference), the table has the
    keys it had with the slot booked, and the Appointments table has gained
    one item, the appointment of the attempt that succeeded, under the one
    reference issued. *)
Theorem race_leaves_one_booking c1 c2 doctor key n1 n2 sl1 sl2 schedule s :
  doctor <> EmptyString ->
  Race.c_doctor c1 = Some doctor ->
  Race.c_doctor c2 = Some doctor ->
  Race.datetime_key c1 = key ->
  Race.datetime_key c2 = key ->
  intent_name (Race.c_intent c1) = Some n1 ->
  intent_name (Race.c_intent c2) = Some n2 ->
  intent_slots (Race.c_intent c1) = Some sl1 ->
  intent_slots (Race.c_intent c2) = Some sl2 ->
  slot_status doctor key (schedule_table s) = Some "available" ->
  let st := Race.race c1 c2 schedule s in
  let reference := next_reference s in
  slot_status doctor key (schedule_table (Race.shared st)) = Some "booked"
  /\ item_key <$> schedule_table (Race.shared st) = item_key <$> schedule_table s
  /\ id_counter_table (Race.shared st) = Some (increment_counter (id_counter_table s))
  /\ ((Race.succeeded c1 (Race.first st)
       /\ appointments_table (Race.shared st)
          = <[reference := appointment_of c1 reference]> (appointments_table s))
      \/ (Race.succeeded c2 (Race.second st)
          /\ appointments_table (Race.shared st)
             = <[reference := appointment_of c2 reference]> (appointments_table s))).
Proof.
  intros Hdoctor Hd1 Hd2 Hk1 Hk2 Hn1 Hn2 Hs1 Hs2 Hav st reference.
  assert (Hbooks : books c1 c2 doctor key s st).
  { subst st. unfold Race.race.
    apply (run_books doctor key s Hdoctor Hav c1 c2 n1 n2 sl1 sl2); try assumption.
    left. cbn. now repeat split. }
  assert (Hend : Race.remaining (Race.first st) = 0%nat
                 /\ Race.remaining (Race.second st) = 0%nat).
  { subst st. unfold Race.race, Race.run. rewrite fold_left_app.
    apply run_to_the_end. }
  destruct Hend as (Hend1 & Hend2).
  destruct Hbooks as [(H1 & _) | [(Hledger & _) | (Hledger & _)]].
  - rewrite H1 in Hend1. discriminate.
  - destruct (ledger_finished _ _ _ _ _ _ Hledger Hend1) as (Hsucc & Hb & Hkeys & Hc & Ha).
    repeat split; try assumption. left. now split.
  - destruct (ledger_finished _ _ _ _ _ _ Hledger Hend2) as (Hsucc & Hb & Hkeys & Hc & Ha).
    repeat split; try assumption. right. now split.
Qed.

(** Ann's and Bob's attempts again, Bob first *)
Lemma race_leaves_one_booking_witness :
  let s := Sample.fresh_store Sample.monday in
  let st := Race.race RaceSample.ann RaceSample.bob [false; true; true; false] s in
  let reference := next_reference s in
  slot_status "Dr. Sarah Jones" "2025-05-05_09:00" (schedule_table (Race.shared st))
    = Some "booked"
  /\ item_key <$> schedule_table (Race.shared st) = item_key <$> schedule_table s
  /\ id_counter_table (Race.shared st) = Some (increment_counter (id_counter_table s))
  /\ ((Race.succeeded RaceSample.ann (Race.first st)
       /\ appointments_table (Race.shared st)
          = <[reference := appointment_of RaceSample.ann reference]> (appointments_table s))
      \/ (Race.succeeded RaceSample.bob (Race.second st)
          /\ appointments_table (Race.shared st)
             = <[reference := appointment_of RaceSample.bob reference]>
                 (appointments_table s))).
Proof.
  intros s.
  apply (race_leaves_one_booking RaceSample.ann RaceSample.bob
           "Dr. Sarah Jones" "2025-05-05_09:00" "BookAppointment" "BookAppointment"
           (Sample.booking_slots (Sample.filled "Dr. Sarah Jones")
              (Sample.filled "2025-05-05") (Sample.filled "09:00")
              (Sample.filled "Ann Lee") (Sample.filled "5551234") None)
           (Sample.booking_slots (Sample.filled "Dr. Sarah Jones")
              (Sample.filled "2025-05-05") (Sample.filled "09:00")
              (Sample.filled "Bob Ray") (Sample.filled "5559876") None)
           [false; true; true; false] s).
  - discriminate.
  - reflexivity.
  - reflexivity.
  - vm_compute. reflexivity.
  - vm_compute. reflexivity.
  - reflexivity.
  - reflexivity.
  - reflexivity.
  - reflexivity.
  - vm_compute. reflexivity.
Defined.

(** ** The references [get_next_sequence] issues *)

(** X15. While the counter's new value has seven digits (from 1,000,000 up
    to 9,999,999) the reference returned is that value in decimal, nothing
    cut off, and two issuances return the same reference only if the counter
    values are the same: no reference is issued twice. *)
Theorem references_are_distinct_below_ten_million w1 w2 :
  let x1 := increment_counter (id_counter_table (w_store w1)) in
  let x2 := increment_counter (id_counter_table (w_store w2)) in
  1000000 <= x1 < 10000000 ->
  1000000 <= x2 < 10000000 ->
  fst (get_next_sequence w1) = Ok (Py.str x1)
  /\ String.length (Py.str x1) = 7%nat
  /\ (fst (get_next_sequence w1) = fst (get_next_sequence w2) -> x1 = x2).
Proof.
  intros x1 x2 H1 H2. rewrite !get_next_sequence_reference. fold x1 x2.
  pose proof (str_seven_characters x1 H1) as Hlen1.
  pose proof (str_seven_characters x2 H2) as Hlen2.
  assert (Hwhole : forall x, String.length (Py.str x) = 7%nat ->
                             Py.last_chars 7 (Py.str x) = Py.str x).
  { intros x Hlen. rewrite <- Hlen at 1. apply last_chars_whole. }
  rewrite (Hwhole _ Hlen1), (Hwhole _ Hlen2).
  split; [reflexivity|]. split; [assumption|].
  intros [= Heq]. unfold Py.str in Heq. now apply (inj pretty) in Heq.
Qed.

(** The first issuance and the one after it *)
Lemma references_are_distinct_below_ten_million_witness :
  let w1 := start Sample.happy_event (Sample.fresh_store Sample.monday) in
  let w2 := start Sample.happy_event
              (with_counter (Some 1000001) (Sample.fresh_store Sample.monday)) in
  fst (get_next_sequence w1) = Ok (Py.str 1000001)
  /\ String.length (Py.str 1000001) = 7%nat
  /\ (fst (get_next_sequence w1) = fst (get_next_sequence w2) -> 1000001 = 1000002).
Proof.
  intros w1 w2.
  apply (references_are_distinct_below_ten_million w1 w2).
  - vm_compute. split; [discriminate | reflexivity].
  - vm_compute. split; [discriminate | reflexivity].
Defined.

(** X16. From 999,999 on, a counter ten million higher gives the same
    reference: the last seven characters are the seven low digits of the
    new value, so after ten million issuances the references come round
    again. *)
Theorem references_recycle_after_ten_million w1 w2 v :
  id_counter_table (w_store w1) = Some v ->
  id_counter_table (w_store w2) = Some (v + 10000000) ->
  999999 <= v ->
  fst (get_next_sequence w1) = Ok (seven_digits (Z.to_N (v + 1)))
  /\ fst (get_next_sequence w2) = fst (get_next_sequence w1).
Proof.
  intros H1 H2 Hv. rewrite !get_next_sequence_reference, H1, H2.
  unfold increment_counter. cbn [Py.get].
  rewrite !reference_seven_digits by lia.
  split; [reflexivity|]. f_equal.
  replace (Z.to_N (v + 10000000 + 1)) with (Z.to_N (v + 1) + 10000000)%N by lia.
  apply seven_digits_period.
Qed.

(** The counter at 1,000,000 and at 11,000,000: both times "1000001" *)
Lemma references_recycle_after_ten_million_witness :
  let w1 := start Sample.happy_event
              (with_counter (Some 1000000) (Sample.fresh_store Sample.monday)) in
  let w2 := start Sample.happy_event
              (with_counter (Some (1000000 + 10000000))
                 (Sample.fresh_store Sample.monday)) in
  fst (get_next_sequence w1) = Ok (seven_digits (Z.to_N (1000000 + 1)))
  /\ fst (get_next_sequence w2) = fst (get_next_sequence w1).
Proof.
  intros w1 w2.
  apply (references_recycle_after_ten_million w1 w2 1000000).
  - reflexivity.
  - reflexivity.
  - lia.
Defined.

(** ** The schedule generator *)

Lemma put_item_status item tbl :
  slot_status (DoctorName item) (Date_Time item) (Schedule.put_item item tbl)
  = Some (Status item).
Proof.
  unfold slot_status. induction tbl as [|x rest IH]; cbn.
  - unfold has_key. now rewrite !String.eqb_refl.
  - destruct (has_key (DoctorName item) (Date_Time item) x) eqn:Hx; cbn.
    + unfold has_key. now rewrite !String.eqb_refl.
    + rewrite Hx. exact IH.
Qed.

Lemma put_item_other item tbl d k :
  (d, k) <> item_key item ->
  slot_status d k (Schedule.put_item item tbl) = slot_status d k tbl.
Proof.
  intros Hne. unfold slot_status.
  assert (Hitem : has_key d k item = false).
  { destruct (has_key d k item) eqn:H; [|reflexivity].
    apply has_key_item_key in H. congruence. }
  induction tbl as [|x rest IH]; cbn.
  - now rewrite Hitem.
  - destruct (has_key (DoctorName item) (Date_Time item) x) eqn:Hx; cbn.
    + rewrite Hitem.
      assert (Hdk : has_key d k x = false).
      { destruct (has_key d k x) eqn:H; [|reflexivity].
        apply has_key_item_key in H, Hx. unfold item_key in Hne. congruence. }
      now rewrite Hdk.
    + destruct (has_key d k x); [reflexivity | exact IH].
Qed.

Lemma put_item_keys item tbl key :
  key ∈ item_key <$> Schedule.put_item item tbl
  <-> key = item_key item \/ key ∈ item_key <$> tbl.
Proof.
  induction tbl as [|x rest IH]; cbn.
  - rewrite list_elem_of_singleton. split; [now left | intros [H|H]; [assumption|]].
    now apply elem_of_nil in H.
  - destruct (has_key (DoctorName item) (Date_Time item) x) eqn:Hx; cbn.
    + apply has_key_item_key in Hx. rewrite !elem_of_cons.
      change (item_key x = item_key item) in Hx. rewrite Hx. tauto.
    + rewrite !elem_of_cons, IH. tauto.
Qed.

Lemma put_item_unique item tbl :
  unique_keys tbl -> unique_keys (Schedule.put_item item tbl).
Proof.
  unfold unique_keys. induction tbl as [|x rest IH]; cbn; intros Huniq.
  - apply NoDup_singleton.
  - apply NoDup_cons in Huniq as (Hx & Hrest).
    destruct (has_key (DoctorName item) (Date_Time item) x) eqn:Hkey; cbn.
    + apply has_key_item_key in Hkey. change (item_key x = item_key item) in Hkey.
      apply NoDup_cons. split; [now rewrite <- Hkey | assumption].
    + apply NoDup_cons. split; [|now apply IH].
      rewrite put_item_keys. intros [Heq | Hin]; [|contradiction].
      assert (has_key (DoctorName item) (Date_Time item) x = true)
        by (apply has_key_item_key; exact Heq).
      congruence.
Qed.

(** Putting a list of items, one after the other *)
Lemma put_all_status items tbl st :
  (forall item, In item items -> Status item = st) ->
  let tbl' := fold_left (fun t item => Schedule.put_item item t) items tbl in
  (forall item, In item items ->
     slot_status (DoctorName item) (Date_Time item) tbl' = Some st)
  /\ (forall d k, (d, k) ∉ item_key <$> items ->
        slot_status d k tbl' = slot_status d k tbl)
  /\ (unique_keys tbl -> unique_keys tbl').
Proof.
  revert tbl. induction items as [|x rest IH]; intros tbl Hst; cbv zeta in *; cbn [fold_left].
  - split; [intros item []|]. split; [reflexivity | trivial].
  - destruct (IH (Schedule.put_item x tbl)) as (Hin & Hout & Huniq).
    { intros item Hitem. apply Hst. now right. }
    split; [|split].
    + intros item [Heq | Hitem]; [subst item | now apply Hin].
      destruct (decide ((DoctorName x, Date_Time x) ∈ item_key <$> rest)) as [Hlater|Hnot].
      * apply list_elem_of_fmap in Hlater as (y & Hkey & Hy).
        apply list_elem_of_In in Hy. specialize (Hin y Hy).
        unfold item_key in Hkey. inversion Hkey as [[Hd Hk]]. now rewrite Hd, Hk.
      * rewrite (Hout _ _ Hnot), put_item_status. f_equal. apply Hst. now left.
    + intros d k Hnot. cbn in Hnot. apply not_elem_of_cons in Hnot as (Hne & Hnot).
      rewrite (Hout _ _ Hnot). now apply put_item_other.
    + intros H. apply Huniq. now apply put_item_unique.
Qed.

Lemma while_days_more rounds doctor working_days current_date end_date tbl tbl' :
  Schedule.while_days rounds doctor working_days current_date end_date tbl = Some tbl' ->
  Schedule.while_days (S rounds) doctor working_days current_date end_date tbl = Some tbl'.
Proof.
  revert current_date tbl. induction rounds as [|rounds IH]; intros current_date tbl.
  - cbn. destruct (Schedule.le current_date end_date); [discriminate | trivial].
  - intros H. change (Schedule.while_days (S (S rounds)) doctor working_days
                        current_date end_date tbl)
      with (if Schedule.le current_date end_date then
              Schedule.while_days (S rounds) doctor working_days
                (Schedule.tomorrow current_date) end_date
                (if existsb (Z.eqb (Schedule.weekday current_date)) working_days
                 then Schedule.put_day doctor (Schedule.strftime current_date) tbl
                 else tbl)
            else Some tbl).
    cbn [Schedule.while_days] in H.
    destruct (Schedule.le current_date end_date); [|exact H].
    now apply IH.
Qed.

Lemma generate_schedule_more rounds tbl tbl' :
  Schedule.generate_schedule rounds tbl = Some tbl' ->
  Schedule.generate_schedule (S rounds) tbl = Some tbl'.
Proof.
  unfold Schedule.generate_schedule, Schedule.doctor_weekdays. cbn [fold_left].
  intros H.
  destruct (Schedule.while_days rounds "Dr. Sarah Jones" _ _ _ tbl) as [t1|] eqn:H1;
    [|discriminate].
  rewrite (while_days_more _ _ _ _ _ _ _ H1).
  destruct (Schedule.while_days rounds "Dr. Sophia Lee" _ _ _ t1) as [t2|] eqn:H2;
    [|discriminate].
  rewrite (while_days_more _ _ _ _ _ _ _ H2).
  now apply while_days_more.
Qed.

Lemma generate_schedule_puts_planned tbl :
  Schedule.generate_schedule 31 tbl
  = Some (fold_left (fun t item => Schedule.put_item item t) Schedule.planned tbl).
Proof. vm_compute. reflexivity. Qed.

Lemma generate_schedule_enough rounds tbl :
  (31 <= rounds)%nat ->
  Schedule.generate_schedule rounds tbl
  = Some (fold_left (fun t item => Schedule.put_item item t) Schedule.planned tbl).
Proof.
  intros H. replace rounds with ((rounds - 31) + 31)%nat by lia.
  induction (rounds - 31)%nat as [|k IH].
  - apply generate_schedule_puts_planned.
  - now apply generate_schedule_more.
Qed.

Lemma planned_available item : In item Schedule.planned -> Status item = "available".
Proof.
  assert (H : forallb (fun item => String.eqb (Status item) "available") Schedule.planned
              = true) by (vm_compute; reflexivity).
  rewrite forallb_forall in H. intros Hin. apply String.eqb_eq. now apply H.
Qed.

(** X17. [generate_schedule], given the 31 rounds of its loop or more, ends
    on any table. Every slot of the plan for May 2025 is then 'available',
    whatever its status was: a slot that was booked is open again. Items
    with other keys are as they were, and a table without duplicate keys
    stays so. *)
Theorem generate_schedule_reopens_every_slot rounds tbl :
  (31 <= rounds)%nat ->
  exists tbl',
    Schedule.generate_schedule rounds tbl = Some tbl'
    /\ (forall item, In item Schedule.planned ->
          slot_status (DoctorName item) (Date_Time item) tbl' = Some "available")
    /\ (forall d k, (d, k) ∉ item_key <$> Schedule.planned ->
          slot_status d k tbl' = slot_status d k tbl)
    /\ (unique_keys tbl -> unique_keys tbl').
Proof.
  intros H. eexists. split; [now apply generate_schedule_enough|].
  apply (put_all_status Schedule.planned tbl "available"). apply planned_available.
Qed.

(** The table of [Sample.monday_taken], where 09:00 is booked *)
Lemma generate_schedule_reopens_every_slot_witness :
  exists tbl',
    Schedule.generate_schedule 31 Sample.monday_taken = Some tbl'
    /\ (forall item, In item Schedule.planned ->
          slot_status (DoctorName item) (Date_Time item) tbl' = Some "available")
    /\ (forall d k, (d, k) ∉ item_key <$> Schedule.planned ->
          slot_status d k tbl' = slot_status d k Sample.monday_taken)
    /\ (unique_keys Sample.monday_taken -> unique_keys tbl').
Proof.
  apply (generate_schedule_reopens_every_slot 31 Sample.monday_taken). lia.
Defined.

Lemma delete_all items : forall tbl,
  (forall x, In x tbl -> exists y, In y items /\ item_key y = item_key x) ->
  fold_left (fun t item => Schedule.delete_item (DoctorName item) (Date_Time item) t)
    items tbl = [].
Proof.
  induction items as [|item rest IH]; intros tbl Hcover; cbn.
  - destruct tbl as [|x tbl]; [reflexivity|].
    destruct (Hcover x (or_introl eq_refl)) as (y & [] & _).
  - apply IH. intros x Hx. unfold Schedule.delete_item in Hx.
    apply filter_In in Hx as (Hx & Hkey).
    destruct (Hcover x Hx) as (y & [<- | Hy] & Heq).
    + assert (has_key (DoctorName item) (Date_Time item) x = true)
        by (apply has_key_item_key; now rewrite <- Heq).
      rewrite H in Hkey. discriminate.
    + now exists y.
Qed.

(** A table that fits one page is scanned whole. *)
Lemma scan_page_from_whole room tbl :
  (table_size tbl <= room)%N -> scan_page_from room tbl = tbl.
Proof.
  revert room. induction tbl as [|item rest IH]; intros room H; [reflexivity|].
  change (item_size item + table_size rest <= room)%N in H.
  cbn [scan_page_from].
  destruct (N.leb_spec (item_size item) room) as [Hle|Hlt]; [|lia].
  f_equal. apply IH. lia.
Qed.

Lemma scan_page_whole tbl : one_page tbl -> scan_page tbl = tbl.
Proof. apply scan_page_from_whole. Qed.

(** What deleting by key leaves: the items whose key none of the deleted
    items has. *)
Lemma delete_items items : forall tbl x,
  In x (fold_left (fun t item => Schedule.delete_item (DoctorName item) (Date_Time item) t)
          items tbl)
  <-> In x tbl /\ forall y, In y items -> item_key y <> item_key x.
Proof.
  induction items as [|item rest IH]; intros tbl x; cbn [fold_left].
  - split; [intros H; split; [assumption | intros y []] | now intros (H & _)].
  - rewrite IH. unfold Schedule.delete_item. rewrite filter_In, negb_true_iff.
    split.
    + intros ((Hin & Hkey) & Hrest). split; [assumption|].
      intros y [<- | Hy]; [|now apply Hrest].
      intros Heq. assert (has_key (DoctorName item) (Date_Time item) x = true)
        by (apply has_key_item_key; now rewrite <- Heq).
      congruence.
    + intros (Hin & Hall). split; [split; [assumption|] | intros y Hy; apply Hall; now right].
      destruct (has_key (DoctorName item) (Date_Time item) x) eqn:Hkey; [|reflexivity].
      apply has_key_item_key in Hkey. exfalso.
      apply (Hall item (or_introl eq_refl)). now rewrite Hkey.
Qed.

(** On any table [clear_schedule] leaves the items whose key no item of the
    scanned page has. *)
Lemma clear_schedule_leaves tbl x :
  In x (Schedule.clear_schedule tbl)
  <-> In x tbl /\ forall y, In y (scan_page tbl) -> item_key y <> item_key x.
Proof. apply delete_items. Qed.

Lemma clear_schedule_nil tbl : one_page tbl -> Schedule.clear_schedule tbl = [].
Proof.
  intros H. unfold Schedule.clear_schedule. rewrite (scan_page_whole _ H).
  apply delete_all. intros x Hx. now exists x.
Qed.

(** X18. [clear_schedule] leaves empty a table that fits one page of a scan
    (1 MB), whatever it holds and whether or not a key occurs in it twice;
    a table that is empty stays empty. (The scan is not continued, so of a
    larger table the items after the first page stay.) *)
Theorem clear_schedule_empties_the_table tbl :
  one_page tbl ->
  Schedule.clear_schedule tbl = []
  /\ Schedule.clear_schedule (Schedule.clear_schedule tbl) = [].
Proof.
  intros H. rewrite (clear_schedule_nil _ H). split; reflexivity.
Qed.

(** The table of [Sample.monday_taken] *)
Lemma clear_schedule_empties_the_table_witness :
  Schedule.clear_schedule Sample.monday_taken = []
  /\ Schedule.clear_schedule (Schedule.clear_schedule Sample.monday_taken) = [].
Proof.
  apply (clear_schedule_empties_the_table Sample.monday_taken).
  unfold one_page. vm_compute. discriminate.
Defined.

Lemma planned_on_empty :
  fold_left (fun t item => Schedule.put_item item t) Schedule.planned [] = Schedule.planned.
Proof. vm_compute. reflexivity. Qed.

Lemma planned_items item :
  In item Schedule.planned ->
  In (DoctorName item) VALID_DOCTORS
  /\ has_char "_" (Date_Time item) = true
  /\ exists time, In time Schedule.available_times /\ label_of item = Some time.
Proof.
  assert (H : forallb
                (fun item =>
                   (Py.contains VALID_DOCTORS (DoctorName item)
                    && has_char "_" (Date_Time item)
                    && match label_of item with
                       | Some time => Py.contains Schedule.available_times time
                       | None => false
                       end)%bool)
                Schedule.planned = true) by (vm_compute; reflexivity).
  rewrite forallb_forall in H. intros Hin. specialize (H item Hin).
  apply andb_true_iff in H as (H & Hlabel). apply andb_true_iff in H as (Hdoc & Hchar).
  split; [now apply contains_In|]. split; [assumption|].
  destruct (label_of item) as [time|]; [|discriminate].
  exists time. split; [now apply contains_In | reflexivity].
Qed.

(** X19. Clearing a table that fits one page of a scan (1 MB) and then
    generating gives the plan for May 2025 whatever the table held: 228
    items and no key twice, each for one of the handler's three valid
    doctors, 'available', with one of the four times as its label. *)
Theorem regenerated_schedule_is_the_plan rounds tbl :
  one_page tbl ->
  (31 <= rounds)%nat ->
  Schedule.generate_schedule rounds (Schedule.clear_schedule tbl) = Some Schedule.planned
  /\ length Schedule.planned = 228%nat
  /\ unique_keys Schedule.planned
  /\ forall item, In item Schedule.planned ->
       In (DoctorName item) VALID_DOCTORS
       /\ Status item = "available"
       /\ exists time, In time Schedule.available_times /\ label_of item = Some time.
Proof.
  intros Hpage H. rewrite (clear_schedule_nil _ Hpage).
  rewrite generate_schedule_enough by assumption.
  rewrite planned_on_empty. split; [reflexivity|]. split; [reflexivity|]. split.
  - apply (bool_decide_unpack _). vm_compute. reflexivity.
  - intros item Hin. destruct (planned_items item Hin) as (Hdoc & _ & Htime).
    split; [assumption|]. split; [now apply planned_available | assumption].
Qed.

(** After the turns of a Monday *)
Lemma regenerated_schedule_is_the_plan_witness :
  Schedule.generate_schedule 31 (Schedule.clear_schedule Sample.monday_taken)
  = Some Schedule.planned
  /\ length Schedule.planned = 228%nat
  /\ unique_keys Schedule.planned
  /\ forall item, In item Schedule.planned ->
       In (DoctorName item) VALID_DOCTORS
       /\ Status item = "available"
       /\ exists time, In time Schedule.available_times /\ label_of item = Some time.
Proof.
  apply (regenerated_schedule_is_the_plan 31 Sample.monday_taken).
  - unfold one_page. vm_compute. discriminate.
  - lia.
Defined.

(** X20. On the generated schedule [get_available_times] finds, for each
    doctor of the plan and each day of May 2025, the four times of the day
    when the day is one of the doctor's working days, and nothing
    otherwise; it never raises there. *)
Theorem planned_day_is_open_or_closed doctor working_days d w :
  In (doctor, working_days) Schedule.doctor_weekdays ->
  (1 <= d <= 31)%nat ->
  schedule_table (w_store w) = Schedule.planned ->
  let date := {| Schedule.year := 2025; Schedule.month := 5; Schedule.day := Z.of_nat d |} in
  get_available_times doctor (Schedule.strftime date) w
  = (Ok (if existsb (Z.eqb (Schedule.weekday date)) working_days
         then Schedule.available_times else []),
     traced [OpScan doctor (Schedule.strftime date)] w).
Proof.
  intros Hdoc Hd Htbl date. rewrite get_available_times_run. f_equal.
  unfold available_times. rewrite Htbl.
  assert (H : forallb
    (fun '(doctor, working_days) =>
       forallb
         (fun d =>
            let date := {| Schedule.year := 2025; Schedule.month := 5;
                           Schedule.day := Z.of_nat d |} in
            match labels (List.filter (scan_filter doctor (Schedule.strftime date))
                            Schedule.planned) with
            | Ok l =>
                bool_decide
                  (l = if existsb (Z.eqb (Schedule.weekday date)) working_days
                       then Schedule.available_times else [])
            | Raise _ => false
            end)
         (seq 1 31))
    Schedule.doctor_weekdays = true) by (vm_compute; reflexivity).
  rewrite forallb_forall in H. specialize (H _ Hdoc). cbn beta iota in H.
  rewrite forallb_forall in H. specialize (H d). cbn zeta in H. fold date in H.
  assert (Hin : In d (seq 1 31)) by (apply in_seq; lia).
  specialize (H Hin).
  destruct (labels _) as [l|e]; [|discriminate].
  apply bool_decide_eq_true in H. now subst l.
Qed.

(** Dr. Sophia Lee on Friday the 2nd: no slots *)
Lemma planned_day_is_open_or_closed_witness :
  let w := start Sample.happy_event (Sample.fresh_store Schedule.planned) in
  let date := {| Schedule.year := 2025; Schedule.month := 5; Schedule.day := Z.of_nat 2 |} in
  get_available_times "Dr. Sophia Lee" (Schedule.strftime date) w
  = (Ok (if existsb (Z.eqb (Schedule.weekday date)) [0; 1; 2; 3]
         then Schedule.available_times else []),
     traced [OpScan "Dr. Sophia Lee" (Schedule.strftime date)] w).
Proof.
  intros w.
  apply (planned_day_is_open_or_closed "Dr. Sophia Lee" [0; 1; 2; 3] 2 w).
  - right. left. reflexivity.
  - lia.
  - reflexivity.
Defined.

(** ** One booking after another *)


